(** * DWG POS: payment submission and ledger reconciliation

    A shallow embedding of the payment path of [main.py]: the Luhn check of
    the card field ([check_card]), the table of gateway response codes
    ([response_codes]), the ledger posting ([apply_payment]) and the
    orchestration of one submit action ([process_payment]); and of what
    surrounds it: the recent list ([update_recent_transactions],
    [show_transaction_details]), the account lookup ([check_account]) and
    the name on a receipt ([email_receipt]).

    Text is modelled by [string]: a Python [str] is the sequence of the
    bytes of its UTF-8 form, so a character of ASCII is one byte and the
    digits are "0" to "9". On text in ASCII ([Text.is_ascii]) the text
    functions below are Python's; on other text Python reads more digits
    than they do, and the statements that depend on it carry that
    hypothesis. Python [int] is modelled by [Z], Python [float] by the
    binary64 values of [spec_float], [decimal.Decimal] by sign, coefficient
    and exponent.

    The program is given twice: in [Program] the event log, the alert
    channel, the clipboard and the two files take what they are handed; in
    [IO.Program] each of these calls can raise where it stands. With no
    call failing the two agree ([process_payment_agrees] and its like). *)

From Stdlib Require Import ZArith List Bool Ascii String Lia.
From Stdlib Require Import Floats.SpecFloat.
From Stdlib Require Import DecimalString.
Import ListNotations.

Local Open Scope string_scope.
Local Open Scope Z_scope.

(** ** Text helpers (the [str] methods the program uses) *)

Module Text.

(** [s.replace(" ", "")] and friends: drop every occurrence of one character. *)
Fixpoint remove_char (c : ascii) (s : string) : string :=
  match s with
  | EmptyString => EmptyString
  | String a rest =>
      if Ascii.eqb a c then remove_char c rest else String a (remove_char c rest)
  end.

(** [s[::-1]] *)
Fixpoint reverse_onto (s acc : string) : string :=
  match s with
  | EmptyString => acc
  | String a rest => reverse_onto rest (String a acc)
  end.

Definition reverse (s : string) : string := reverse_onto s EmptyString.

Definition is_digit (c : ascii) : bool :=
  let n := nat_of_ascii c in (Nat.leb 48 n && Nat.leb n 57)%bool.

(** [int(c)] for a one-character string: [None] stands for [ValueError]. *)
Definition digit_value (c : ascii) : option Z :=
  if is_digit c then Some (Z.of_nat (nat_of_ascii c) - 48) else None.

Fixpoint all_digits (s : string) : bool :=
  match s with
  | EmptyString => true
  | String a rest => (is_digit a && all_digits rest)%bool
  end.

(** [s.isnumeric()]: every character numeric and at least one character. *)
Definition isnumeric (s : string) : bool :=
  match s with
  | EmptyString => false
  | _ => all_digits s
  end.

(** [sub in s] *)
Fixpoint contains (sub s : string) : bool :=
  (String.prefix sub s ||
   match s with
   | EmptyString => false
   | String _ rest => contains sub rest
   end)%bool.

(** [s.split(sep)[0]]: the text before the first separator. *)
Fixpoint first_field (sep : ascii) (s : string) : string :=
  match s with
  | EmptyString => EmptyString
  | String a rest =>
      if Ascii.eqb a sep then EmptyString else String a (first_field sep rest)
  end.

(** What follows the first separator, if there is one. *)
Fixpoint after_first (sep : ascii) (s : string) : option string :=
  match s with
  | EmptyString => None
  | String a rest => if Ascii.eqb a sep then Some rest else after_first sep rest
  end.

(** [s.split(sep)[1]]: [None] stands for [IndexError]. *)
Definition second_field (sep : ascii) (s : string) : option string :=
  option_map (first_field sep) (after_first sep s).

(** [s.lstrip(c)] *)
Fixpoint lstrip_char (c : ascii) (s : string) : string :=
  match s with
  | EmptyString => EmptyString
  | String a rest => if Ascii.eqb a c then lstrip_char c rest else s
  end.

(** [s.strip(c)] for a one-character set. *)
Definition strip_char (c : ascii) (s : string) : string :=
  reverse (lstrip_char c (reverse (lstrip_char c s))).

(** Value of a string of decimal digits, most significant first. *)
Fixpoint digits_value_from (acc : Z) (s : string) : Z :=
  match s with
  | EmptyString => acc
  | String a rest =>
      digits_value_from (10 * acc + (Z.of_nat (nat_of_ascii a) - 48)) rest
  end.

Definition digits_value (s : string) : Z := digits_value_from 0 s.

(** [s.isascii()]. The program does not call it. A character outside
    ASCII is here the bytes of its UTF-8 form, none of which [is_digit]
    takes for a digit, while Python's [int], [str.isdigit],
    [str.isnumeric] and [decimal.Decimal] read the digits of every script
    and [len] counts characters, not bytes: on text that [is_ascii] the
    functions of this file that read digits or count characters are
    Python's. *)
Fixpoint is_ascii (s : string) : bool :=
  match s with
  | EmptyString => true
  | String a rest => (Nat.ltb (nat_of_ascii a) 128 && is_ascii rest)%bool
  end.

End Text.

(** ** Card Validator: [check_card], lines 1505-1541 *)

Module Luhn.

(** [[int(i) for i in card_number]]: fails on the first character that is
    not a digit. *)
Fixpoint to_ints (s : string) : option (list Z) :=
  match s with
  | EmptyString => Some []
  | String a rest =>
      match Text.digit_value a, to_ints rest with
      | Some d, Some ds => Some (d :: ds)
      | _, _ => None
      end
  end.

(** The digits of a digit string as numbers, in reading order. *)
Fixpoint digit_values (s : string) : list Z :=
  match s with
  | EmptyString => []
  | String a rest => (Z.of_nat (nat_of_ascii a) - 48) :: digit_values rest
  end.

(** [[i * 2 if index % 2 == 1 else i for index, i in enumerate(l)]] with the
    running index made explicit. *)
Fixpoint double_odd_from (index : nat) (l : list Z) : list Z :=
  match l with
  | [] => []
  | i :: rest =>
      (if Nat.eqb (Nat.modulo index 2) 1 then i * 2 else i)
        :: double_odd_from (S index) rest
  end.

Definition double_odd (l : list Z) : list Z := double_odd_from 0 l.

(** [[i - 9 if i > 9 else i for i in l]] *)
Definition cast_out_nines (l : list Z) : list Z :=
  map (fun i => if 9 <? i then i - 9 else i) l.

(** [sum(l)] *)
Definition sum (l : list Z) : Z := fold_left Z.add l 0.

(** The verdict computed inside the [try]: [Some true] enables the process
    button, [Some false] disables it, [None] is the path on which [int]
    raises and the handler leaves the widgets as they were. *)
Definition verdict (card_number : string) : option bool :=
  let card_number := Text.remove_char " " card_number in
  let length := String.length card_number in
  let card_number := Text.reverse card_number in
  match to_ints card_number with
  | None => None
  | Some card_number =>
      let card_number := double_odd card_number in
      let card_number := cast_out_nines card_number in
      let card_number := sum card_number in
      Some ((card_number mod 10 =? 0) && Nat.eqb length 16)%bool
  end.

(** The Luhn sum in the words of the specification: over the reversed digit
    sequence, a digit at an odd 0-based index is doubled, a doubled value
    above 9 loses 9, and everything is added up. *)
Fixpoint luhn_sum_spec_from (odd : bool) (reversed : list Z) : Z :=
  match reversed with
  | [] => 0
  | d :: rest =>
      (if odd then (if 9 <? 2 * d then 2 * d - 9 else 2 * d) else d)
        + luhn_sum_spec_from (negb odd) rest
  end.

Definition luhn_sum_spec (digits : list Z) : Z :=
  luhn_sum_spec_from false (rev digits).

End Luhn.

(** ** Response Classifier: [response_codes], lines 719-779 *)

Definition nl : string := String "010"%char EmptyString.

(** The dictionary literal, key by key in source order. *)
Definition response_codes : list (string * string) :=
  [
    ("APPROVED",
     "Success: The transaction was approved.");
    ("DECLINED",
     "Error: The customer’s bank declined the transaction." ++ nl ++
     "Next Steps: The customer should use an alternate card and contact their " ++
     "bank.");
    ("PICKUP_CARD",
     "Error: The customer’s bank declined the transaction because the card " ++
     "was reported lost or stolen." ++ nl ++
     "Next Steps: The customer should use an alternate card and contact their " ++
     "bank.");
    ("HOT_CARD",
     "Error: The customer’s bank declined the transaction because the card " ++
     "was reported lost or stolen." ++ nl ++
     "Next Steps: The customer should use an alternate card and contact their " ++
     "bank.");
    ("LOST_CARD_PICKUP",
     "Error: The customer’s bank declined the transaction because the card " ++
     "was reported lost or stolen." ++ nl ++
     "Next Steps: The customer should use an alternate card and contact their " ++
     "bank.");
    ("SUSPECTED_FRAUD",
     "Error: The customer’s bank declined the transaction because it suspects " ++
     "fraud." ++ nl ++
     "Next Steps: The customer should contact their bank for more information.");
    ("EXPIRED_CARD",
     "Error: The customer’s bank declined the transaction because the card is " ++
     "expired." ++ nl ++
     "Next Steps: The customer should use an alternate card. If the customer " ++
     "believes that the card is still valid, they should contact their bank.");
    ("CVC_MISMATCH",
     "Error: The customer’s bank declined the transaction because the card’s " ++
     "security code (CVV) did not match." ++ nl ++
     "Next Steps: The customer should try again using the correct security " ++
     "code.");
    ("INVALID_MERCHANT",
     "Error: The customer’s bank declined the transaction because they don’t " ++
     "allow transactions from us." ++ nl ++
     "Next Steps: The customer should contact their bank for more information.");
    ("INVALID_CURRENCY",
     "Error: The customer’s bank declined the transaction because the card " ++
     "does not allow transactions in AUD." ++ nl ++
     "Next Steps: The customer should use an alternate card and contact their " ++
     "bank.");
    ("CARD_TYPE_NOT_ENABLED",
     "Error: The customer’s bank declined the transaction because this type " ++
     "of payment is not allowed." ++ nl ++
     "Next Steps: The customer should use an alternate card and contact their " ++
     "bank.");
    ("SYSTEM_ERROR",
     "Error: The customer’s bank declined the transaction due to a technical " ++
     "issue." ++ nl ++
     "Next Steps: The customer should try again later or pay using an " ++
     "alternate method.");
    ("LIMIT_EXCEEDED",
     "Error: The customer’s bank declined the transaction because it will " ++
     "exceed the customer’s card limit." ++ nl ++
     "Next Steps: The customer should use an alternate card or try again " ++
     "tomorrow.");
    ("MERCHANT_LOCKED_OR_CLOSED",
     "Error: The customer’s bank declined the transaction because the " ++
     "merchant’s account is locked or closed." ++ nl ++
     "Next Steps: The customer should use an alternate card and contact their " ++
     "bank.");
    ("TOO_MANY_DECLINES",
     "Error: The customer’s bank declined the transaction due to too many " ++
     "recent transactions failing." ++ nl ++
     "Next Steps: The customer should use an alternate card or contact their " ++
     "bank.");
    ("INVALID_CARD_NUMBER",
     "Error: The customer’s bank declined the transaction because the card " ++
     "number is invalid." ++ nl ++
     "Next Steps: The customer should check their card number and try again.");
    ("DO_NOT_HONOUR",
     "Error: The customer’s bank declined the transaction but did not provide " ++
     "any more information." ++ nl ++
     "Next Steps: The customer should check the card details and try again.");
    ("RESTRICTED_CARD",
     "Error: The customer’s bank declined the transaction because the card " ++
     "cannot be used for this type of transaction." ++ nl ++
     "Next Steps: The customer should use an alternate card and contact their " ++
     "bank.");
    ("INSUFFICIENT_FUNDS",
     "Error: The customer’s bank declined the transaction due to insufficient " ++
     "funds in their account" ++ nl ++
     "Next Steps: The customer should use an alternate card or transfer some " ++
     "funds.");
    ("UNKNOWN",
     "Error: The customer’s bank declined the transaction for an unknown " ++
     "reason." ++ nl ++
     "Next Steps: The customer should try again or contact their bank.");
    ("TOO_MANY_RETRIES",
     "Error: The customer’s bank declined the transaction due to too many " ++
     "recent transactions failing to process." ++ nl ++
     "Next Steps: The customer should use an alternate card or contact their " ++
     "bank.");
    ("TIMED_OUT",
     "Error: The customer’s bank declined the transaction because it took too " ++
     "long to process." ++ nl ++
     "Next Steps: Retry the transaction. If this error persists, contact " ++
     "Trent.");
    ("NOT_SUPPORTED",
     "Error: The customer’s bank declined the transaction because the card " ++
     "does not support this type of transaction." ++ nl ++
     "Next Steps: The customer should use an alternate card and contact their " ++
     "bank.");
    ("CANCELLED",
     "Error: The customer’s bank declined the transaction because the " ++
     "customer cancelled the transaction." ++ nl ++
     "Next Steps: The customer should try again.");
    ("BLOCKED",
     "Error: The customer’s bank declined the transaction because the card " ++
     "does not support this type of transaction." ++ nl ++
     "Next Steps: The customer should use an alternate card and contact their " ++
     "bank.");
    ("SECURE_3D_AUTH_FAILED",
     "Error: The customer’s bank declined the transaction because the card " ++
     "has security requirements that prevent it from being used for this " ++
     "transaction." ++ nl ++
     "Next Steps: The customer should use an alternate card and contact their " ++
     "bank.");
    ("OTHER",
     "Error: The customer’s bank declined the transaction for an unknown " ++
     "reason." ++ nl ++
     "Next Steps: The customer should contact their bank for more information.")
  ].

(** [response_codes[key]] / [key in response_codes] *)
Fixpoint dict_get (d : list (string * string)) (key : string) : option string :=
  match d with
  | [] => None
  | (k, v) :: rest => if String.eqb k key then Some v else dict_get rest key
  end.

(** ** Python numbers *)

(** The exceptions that can travel through the modelled code.
    [InvalidOperation] and [Overflow] are the signals of [decimal]. The
    three [psycopg2] classes are nested: [UndefinedColumn] is a
    [ProgrammingError], which is a [DatabaseError]. *)
Inductive exn : Type :=
  | IndexError
  | TypeError
  | ValueError
  | KeyError
  | OverflowError
  | ZeroDivisionError
  | InvalidOperation
  | Overflow
  | BadRequestError (message : string)
  | UndefinedColumn
  | ProgrammingError
  | DatabaseError
  | OtherError (name : string).

(** [decimal.Decimal] with the default context: 28 digits, half-even
    rounding, exponents within [-999999, 999999], overflow trapped. *)
Module Decimal.

Inductive t : Type :=
  | Finite (sign : bool) (coefficient : Z) (exponent : Z)
  | Infinity (sign : bool)
  | NaN
  | SNaN.

Definition prec : Z := 28.
Definition Emax : Z := 999999.
Definition Emin : Z := -999999.
Definition Etiny : Z := Emin - prec + 1.
Definition Etop : Z := Emax - prec + 1.

(** Characters [str.strip()] removes. *)
Definition is_space (c : ascii) : bool :=
  let n := nat_of_ascii c in
  (Nat.eqb n 32 || (Nat.leb 9 n && Nat.leb n 13) || (Nat.leb 28 n && Nat.leb n 31))%bool.

Fixpoint lstrip (s : string) : string :=
  match s with
  | EmptyString => EmptyString
  | String a rest => if is_space a then lstrip rest else s
  end.

Definition strip (s : string) : string :=
  Text.reverse (lstrip (Text.reverse (lstrip s))).

Definition lower (c : ascii) : ascii :=
  let n := nat_of_ascii c in
  if (Nat.leb 65 n && Nat.leb n 90)%bool then ascii_of_nat (n + 32) else c.

Fixpoint lowercase (s : string) : string :=
  match s with
  | EmptyString => EmptyString
  | String a rest => String (lower a) (lowercase rest)
  end.

(** The longest prefix of digits and what follows it. *)
Fixpoint span_digits (s : string) : string * string :=
  match s with
  | EmptyString => (EmptyString, EmptyString)
  | String a rest =>
      if Text.is_digit a
      then let (ds, tl) := span_digits rest in (String a ds, tl)
      else (EmptyString, s)
  end.

Definition split_sign (s : string) : bool * string :=
  match s with
  | String "-" rest => (true, rest)
  | String "+" rest => (false, rest)
  | _ => (false, s)
  end.

(** [(E(?P<exp>[-+]?\d+))?\Z]: the exponent suffix; [None] when the text
    left over is not one. *)
Definition parse_exponent (s : string) : option Z :=
  match s with
  | EmptyString => Some 0
  | String e rest =>
      if Ascii.eqb (lower e) "e" then
        let (neg, ds) := split_sign rest in
        if (Text.isnumeric ds)
        then Some (if neg then - Text.digits_value ds else Text.digits_value ds)
        else None
      else None
  end.

(** [Decimal(text)]: surrounding blanks and underscores are dropped, then
    the text must be a signed numeral with optional fraction and exponent,
    an infinity or a NaN. A text that is none of these raises. *)
Definition of_string (text : string) : exn + t :=
  let text := Text.remove_char "_" (strip text) in
  let (sign, body) := split_sign text in
  let word := lowercase body in
  if (String.eqb word "inf" || String.eqb word "infinity")%bool then inr (Infinity sign)
  else if (String.prefix "nan" word && Text.all_digits (String.substring 3 (String.length word) word))%bool
  then inr NaN
  else if (String.prefix "snan" word && Text.all_digits (String.substring 4 (String.length word) word))%bool
  then inr SNaN
  else
    let (intpart, rest) := span_digits body in
    let (fracpart, rest) :=
      match rest with
      | String "." after => span_digits after
      | _ => (EmptyString, rest)
      end in
    match (String.length intpart + String.length fracpart)%nat, parse_exponent rest with
    | S _, Some e =>
        inr (Finite sign (Text.digits_value (intpart ++ fracpart))
                    (e - Z.of_nat (String.length fracpart)))
    | _, _ => inl InvalidOperation
    end.

(** Number of decimal digits of a coefficient, [len(self._int)]. *)
Fixpoint digits_fuel (fuel : nat) (n : Z) : Z :=
  match fuel with
  | O => 1
  | S fuel' => if n <? 10 then 1 else 1 + digits_fuel fuel' (n / 10)
  end.

Definition digits (n : Z) : Z := digits_fuel (Z.to_nat (Z.log2 n)) n.

(** Drop the last [k] digits of [c], rounding half to even. *)
Definition round_half_even (c k : Z) : Z :=
  let q := c / 10 ^ k in
  let r := c mod 10 ^ k in
  let half := 5 * 10 ^ (k - 1) in
  if ((half <? r) || ((r =? half) && Z.odd q))%bool then q + 1 else q.

(** [Decimal._fix]: bring a finite result into the context. *)
Definition fix_context (sign : bool) (c e : Z) : exn + t :=
  if c =? 0 then inr (Finite sign 0 (Z.min (Z.max e Etiny) Emax))
  else
    let exp_min := digits c + e - prec in
    if Etop <? exp_min then inl Overflow
    else
      let exp_min := Z.max exp_min Etiny in
      if e <? exp_min then
        let c' := round_half_even c (exp_min - e) in
        if prec <? digits c' then
          if Etop <? exp_min + 1 then inl Overflow
          else inr (Finite sign (c' / 10) (exp_min + 1))
        else inr (Finite sign c' exp_min)
      else inr (Finite sign c e).

(** [d * n] for a Python [int] [n]. *)
Definition mul_int (d : t) (n : Z) : exn + t :=
  match d with
  | Finite sign c e => fix_context (xorb sign (n <? 0)) (c * Z.abs n) e
  | Infinity sign => if n =? 0 then inl InvalidOperation else inr (Infinity (xorb sign (n <? 0)))
  | NaN => inr NaN
  | SNaN => inl InvalidOperation
  end.

(** [int(d)]: truncation towards zero. *)
Definition to_int (d : t) : exn + Z :=
  match d with
  | Finite sign c e =>
      let magnitude := if 0 <=? e then c * 10 ^ e else c / 10 ^ (- e) in
      inr (if sign then - magnitude else magnitude)
  | Infinity _ => inl OverflowError
  | NaN | SNaN => inl ValueError
  end.

End Decimal.

(** Python [float]: IEEE 754 binary64, operations rounded to nearest even. *)
Module Float.

Definition prec : Z := 53.
Definition emax : Z := 1024.

Definition t : Type := spec_float.

Definition sub (x y : t) : t := SFsub prec emax x y.
Definition neg (x : t) : t := SFopp x.

(** An integer as an unrounded binary value. *)
Definition raw (z : Z) : spec_float :=
  match z with
  | Z0 => S754_zero false
  | Zpos p => S754_finite false p 0
  | Zneg p => S754_finite true p 0
  end.

(** Quotients from this magnitude on round to more than the largest float. *)
Definition overflow_threshold : Z := 2 ^ 1024 - 2 ^ 970.

(** [a / b] on Python integers: the exact quotient, rounded once. *)
Definition truediv (a b : Z) : exn + t :=
  if b =? 0 then inl ZeroDivisionError
  else if overflow_threshold * Z.abs b <=? Z.abs a then inl OverflowError
  else inr (SFdiv prec emax (raw a) (raw b)).

End Float.

(** ** The ledger database

    The schema belongs to another system; the rows carry what the program
    reads and writes. A statement the server rejects, for whatever reason,
    is an input of the model (see [database_fault] below). *)

(** A row of [account]. [SELECT *] hands it over as a tuple of which the
    program reads [row[0]] and [row[10]], the balance, a nullable numeric
    given here as the value [float()] makes of it. *)
Record account_row : Type := {
  acct : Z;
  account_row_0 : Z;
  balance : option Float.t
}.

(** A row of [location]; [row[0]] is the location key. *)
Record location_row : Type := {
  location_account : Z;
  location_row_0 : Z
}.

Record transactiongroup_row : Type := {
  tg_transaction_group : Z;
  tg_account : Z;
  tg_reference : string;
  tg_postdate : string;
  tg_trxdate : string;
  tg_type : Z;
  tg_usr : Z;
  tg_time_stamp : string;
  tg_amount : Float.t;
  tg_running_balance : Float.t;
  tg_reverse_transaction : bool;
  tg_open : Float.t;
  tg_invoiced : bool;
  tg_hidden : bool;
  tg_location_key : Z;
  tg_tank_key : Z
}.

Record transaction_row : Type := {
  tx_transaction_group : Z;
  tx_account : Z;
  tx_reference : string;
  tx_postdate : string;
  tx_trxdate : string;
  tx_type : Z;
  tx_usr : Z;
  tx_time_stamp : string;
  tx_amount : Float.t;
  tx_balance : Float.t;
  tx_reverse_transaction : bool;
  tx_location_key : Z;
  tx_tax_group : Z;
  tx_code : Z
}.

Record note_row : Type := {
  tn_transaction_group : Z;
  tn_note : string
}.

Record tables : Type := {
  account : list account_row;
  location : list location_row;
  transactiongroup : list transactiongroup_row;
  transaction : list transaction_row;
  transactiongroupnote : list note_row
}.

(** [UPDATE account SET balance = b WHERE acct = a] *)
Definition set_balance (a : Z) (b : Float.t) (rows : list account_row) : list account_row :=
  map (fun r => if acct r =? a
                then {| acct := acct r; account_row_0 := account_row_0 r; balance := Some b |}
                else r) rows.

(** The calls on the connection and its cursor, in program order. *)
Inductive db_step : Type :=
  | StepConnect
  | StepSelectAccount
  | StepSelectLocation
  | StepInsertGroup
  | StepInsertTransaction
  | StepUpdateBalance
  | StepInsertNote
  | StepCommit.

(** ** The payment gateway *)

Record payment_request : Type := {
  card_number : string;
  card_expMonth : string;
  card_expYear : string;
  card_cvc : string;
  order_customerName : string;
  request_amount : Z;
  request_description : string;
  request_currency : string
}.

Record payment : Type := {
  paymentStatus : string;
  declineReason : string;
  authCode : string
}.

Inductive gateway_reply : Type :=
  | Reply (p : payment)
  | Fault (e : exn).

(** ** What the program leaves behind *)

(** The texts sent to the event log and to the alert channel, with the
    values they are formatted from. *)
Inductive notice : Type :=
  | ExcessiveAmount (dollars : Float.t)
  | ProcessedPayment (p : payment)
  | AppliedPayment (message : string)
  | PaymentFailed (e : exn)
  | AccountNotFound (account reference : string) (amount : Float.t)
  | UnknownError (status : string).

Inductive severity : Type := Information | Warning | Error.

(** Calls on the outside world, oldest first. *)
Inductive event : Type :=
  | Database (call : db_step)
  | PaymentCreate (request : payment_request)
  | Pushover (message : notice)
  | ReportEvent (level : severity) (text : notice)
  | MessageBox (text : string) (detail : option exn)
  | Clipboard (text : string).

(** A row of [transactions.csv]. *)
Record journal_row : Type := {
  jr_customer : string;
  jr_amount : string;
  jr_outcome : string;
  jr_time : Z;
  jr_authCode : option string
}.

(** A line of [failed_payments.txt]. *)
Record failure_line : Type := {
  fl_time : string;
  fl_user : string;
  fl_error : exn
}.

(** The input widgets. *)
Record form : Type := {
  customerInput : string;
  amountInput : string;
  cardNumberInput : string;
  cardExpiryInput : string;
  cardCVCInput : string;
  cardNumberStyle : string;
  cardNumberToolTip : string;
  customerStyle : string;
  processButton : bool
}.

Record world : Type := {
  ledger : tables;              (* committed rows, what any session sees *)
  sequence : Z;                 (* next transaction_group id *)
  journal : list journal_row;
  failed_payments : list failure_line;
  fields : form;
  trace : list event
}.

(** What the run is given: the clock, the machine, the gateway's answers,
    and the database call (if any) that raises. In [Program] the event log,
    the alert channel, the dialogs, the clipboard and the two files always
    accept what they are handed; in [IO.Program] each of them but the
    dialogs can raise. *)
Record env : Type := {
  today : string;
  now : string;
  clock : Z;
  COMPUTERNAME : option string;
  get_display_name : Z -> string;
  gateway : payment_request -> gateway_reply;
  database_fault : db_step -> option exn
}.

(** ** State and exceptions *)

Inductive result (A : Type) : Type :=
  | Return (a : A)
  | Raise (e : exn).

Arguments Return {A} a.
Arguments Raise {A} e.

Definition M (A : Type) : Type := world -> result A * world.

Definition ret {A : Type} (a : A) : M A := fun w => (Return a, w).

Definition raise {A : Type} (e : exn) : M A := fun w => (Raise e, w).

Definition bind {A B : Type} (c : M A) (k : A -> M B) : M B :=
  fun w =>
    match c w with
    | (Return a, w') => k a w'
    | (Raise e, w') => (Raise e, w')
    end.

Declare Scope py_scope.
Delimit Scope py_scope with py.
Notation "x <- c ;; k" := (bind c (fun x => k))
  (at level 61, c at next level, right associativity) : py_scope.
Notation "c ;; k" := (bind c (fun _ => k))
  (at level 61, right associativity) : py_scope.
Notation "' pat <- c ;; k" := (bind c (fun x => match x with pat => k end))
  (at level 61, pat pattern, c at next level, right associativity) : py_scope.

(** [try: c  except <clauses>]: [clauses e] is the body of the first clause
    that matches [e], if any. What a clause raises is not caught here. *)
Definition try_except {A : Type} (c : M A) (clauses : exn -> option (M A)) : M A :=
  fun w =>
    match c w with
    | (Return a, w') => (Return a, w')
    | (Raise e, w') =>
        match clauses e with
        | Some handler => handler w'
        | None => (Raise e, w')
        end
    end.

(** A library call that returns or raises. *)
Definition lift {A : Type} (r : exn + A) : M A :=
  match r with
  | inl e => raise e
  | inr a => ret a
  end.

Definition emit (e : event) : M unit :=
  fun w => (Return tt,
            {| ledger := ledger w; sequence := sequence w; journal := journal w;
               failed_payments := failed_payments w; fields := fields w;
               trace := trace w ++ [e] |}).

Definition get_fields : M form := fun w => (Return (fields w), w).

Definition set_fields (f : form) : M unit :=
  fun w => (Return tt,
            {| ledger := ledger w; sequence := sequence w; journal := journal w;
               failed_payments := failed_payments w; fields := f;
               trace := trace w |}).

(** [csv.writer(f).writerow(row)] on [transactions.csv] opened for append. *)
Definition writerow (row : journal_row) : M unit :=
  fun w => (Return tt,
            {| ledger := ledger w; sequence := sequence w;
               journal := journal w ++ [row];
               failed_payments := failed_payments w; fields := fields w;
               trace := trace w |}).

(** ** The program *)

(** Line 74. *)
Definition DEBUG : bool := false.

Section Program.

Variable host : env.

Local Open Scope py_scope.

(** The handlers' report: one line appended to [failed_payments.txt]. *)
Definition log_failure (e : exn) : M unit :=
  fun w => (Return tt,
            {| ledger := ledger w; sequence := sequence w; journal := journal w;
               failed_payments :=
                 failed_payments w
                   ++ [{| fl_time := now host; fl_user := get_display_name host 3; fl_error := e |}];
               fields := fields w; trace := trace w |}).

(** *** [check_card], lines 1505-1541 *)

Definition check_card (card_number : string) : M unit :=
  try_except
    (match Luhn.verdict card_number with
     | None => raise ValueError
     | Some valid =>
         f <- get_fields ;;
         set_fields
           {| customerInput := customerInput f; amountInput := amountInput f;
              cardNumberInput := cardNumberInput f;
              cardExpiryInput := cardExpiryInput f; cardCVCInput := cardCVCInput f;
              cardNumberStyle :=
                if valid then "border: 2px solid green;" else "border: 2px solid red;";
              cardNumberToolTip := if valid then "Card is valid" else "Card is invalid";
              customerStyle := customerStyle f;
              processButton := valid |}
     end)
    (fun e => Some (log_failure e)).

(** *** Database calls

    The connection is not in autocommit mode: statements work on the
    transaction's own view [conn] of the tables, and only [commit] makes
    that view the ledger other sessions read. Every call first consults
    [database_fault]. The [transaction_group] sequence is not transactional. *)

Definition attempt (s : db_step) : M unit :=
  emit (Database s) ;;
  match database_fault host s with
  | Some e => raise e
  | None => ret tt
  end.

Definition connect : M tables :=
  attempt StepConnect ;;
  fun w => (Return (ledger w), w).

(** [SELECT * FROM account WHERE acct = a] then [fetchone()] *)
Definition select_account (conn : tables) (a : Z) : M (option account_row) :=
  attempt StepSelectAccount ;;
  ret (find (fun r => acct r =? a) (account conn)).

(** [SELECT * FROM location WHERE account = a] then [fetchone()[0]] *)
Definition select_location (conn : tables) (a : Z) : M Z :=
  attempt StepSelectLocation ;;
  match find (fun r => location_account r =? a) (location conn) with
  | Some r => ret (location_row_0 r)
  | None => raise TypeError
  end.

Definition next_transaction_group : M Z :=
  fun w => (Return (sequence w),
            {| ledger := ledger w; sequence := sequence w + 1; journal := journal w;
               failed_payments := failed_payments w; fields := fields w;
               trace := trace w |}).

(** [INSERT INTO public.transactiongroup ... returning transaction_group]
    then [fetchone()[0]]; [mk] is the row but for its generated key. *)
Definition insert_transactiongroup (conn : tables) (mk : Z -> transactiongroup_row)
  : M (Z * tables) :=
  attempt StepInsertGroup ;;
  trxid <- next_transaction_group ;;
  ret (trxid,
       {| account := account conn; location := location conn;
          transactiongroup := transactiongroup conn ++ [mk trxid];
          transaction := transaction conn;
          transactiongroupnote := transactiongroupnote conn |}).

(** [INSERT INTO public.transaction ...] *)
Definition insert_transaction (conn : tables) (row : transaction_row) : M tables :=
  attempt StepInsertTransaction ;;
  ret {| account := account conn; location := location conn;
         transactiongroup := transactiongroup conn;
         transaction := transaction conn ++ [row];
         transactiongroupnote := transactiongroupnote conn |}.

(** [UPDATE account SET balance = b WHERE acct = a] *)
Definition update_balance (conn : tables) (a : Z) (b : Float.t) : M tables :=
  attempt StepUpdateBalance ;;
  ret {| account := set_balance a b (account conn); location := location conn;
         transactiongroup := transactiongroup conn;
         transaction := transaction conn;
         transactiongroupnote := transactiongroupnote conn |}.

(** [INSERT INTO transactiongroupnote ...] *)
Definition insert_note (conn : tables) (row : note_row) : M tables :=
  attempt StepInsertNote ;;
  ret {| account := account conn; location := location conn;
         transactiongroup := transactiongroup conn;
         transaction := transaction conn;
         transactiongroupnote := transactiongroupnote conn ++ [row] |}.

(** [conn.commit()] *)
Definition commit (conn : tables) : M unit :=
  attempt StepCommit ;;
  fun w => (Return tt,
            {| ledger := conn; sequence := sequence w; journal := journal w;
               failed_payments := failed_payments w; fields := fields w;
               trace := trace w |}).

(** *** [apply_payment], lines 837-968 *)

Definition exempt_message (authCode : string) : string :=
  "Payment successful." ++ nl ++ "Reference: " ++ authCode.

Definition not_found_message (account authCode : string) : string :=
  "Payment successful, but account " ++ account ++ " not found." ++ nl ++
  "Reference: " ++ authCode.

Definition applied_message (account authCode : string) : string :=
  "Payment successful and applied to account " ++ account ++ "." ++ nl ++
  "Reference: " ++ authCode.

(** Lines 838-928, the inner [try] block. *)
Definition apply_payment_try (account authCode : string) (amount : Float.t) : M string :=
  if String.eqb account "00000" then
    ret (exempt_message authCode)
  else
    let date := today host in
    let timestamp := now host in
    conn <- connect ;;
    row <- (if Text.isnumeric account
            then select_account conn (Text.digits_value account)
            else ret None) ;;
    match row with
    | None =>
        emit (Pushover (AccountNotFound account authCode amount)) ;;
        ret (not_found_message account authCode)
    | Some row =>
        original_balance <- match balance row with
                            | Some b => ret b
                            | None => raise TypeError
                            end ;;
        let new_balance := Float.sub original_balance amount in
        location_key <- select_location conn (account_row_0 row) ;;
        ' (trxid, conn) <-
          insert_transactiongroup conn (fun key =>
            {| tg_transaction_group := key;
               tg_account := Text.digits_value account;
               tg_reference := authCode;
               tg_postdate := date; tg_trxdate := date;
               tg_type := 1; tg_usr := 13;
               tg_time_stamp := timestamp;
               tg_amount := Float.neg amount;
               tg_running_balance := new_balance;
               tg_reverse_transaction := false;
               tg_open := Float.neg amount;
               tg_invoiced := false; tg_hidden := false;
               tg_location_key := location_key; tg_tank_key := 0 |}) ;;
        conn <-
          insert_transaction conn
            {| tx_transaction_group := trxid;
               tx_account := Text.digits_value account;
               tx_reference := authCode;
               tx_postdate := date; tx_trxdate := date;
               tx_type := 1; tx_usr := 13;
               tx_time_stamp := timestamp;
               tx_amount := amount;
               tx_balance := new_balance;
               tx_reverse_transaction := false;
               tx_location_key := location_key;
               tx_tax_group := 2; tx_code := 2 |} ;;
        conn <- update_balance conn (Text.digits_value account) new_balance ;;
        computer <- match COMPUTERNAME host with
                    | Some name => ret name
                    | None => raise KeyError
                    end ;;
        let user := get_display_name host 3 in
        let note := "Payment applied by " ++ user ++ " on " ++ computer in
        conn <- insert_note conn {| tn_transaction_group := trxid; tn_note := note |} ;;
        commit conn ;;
        ret (applied_message account authCode)
    end.

(** The body shared by the two [except] clauses, lines 930-948 and 950-968. *)
Definition apply_payment_except (account authCode : string) (amount : Float.t) (e : exn)
  : M string :=
  log_failure e ;;
  emit (Pushover (AccountNotFound account authCode amount)) ;;
  ret (not_found_message account authCode).

Definition apply_payment (account authCode : string) (amount : Float.t) : M string :=
  let authCode := if DEBUG then "TESTING" else authCode in
  try_except
    (try_except
       (apply_payment_try account authCode amount)
       (fun e => match e with
                 | IndexError => Some (apply_payment_except account authCode amount e)
                 | _ => None
                 end))
    (fun e => Some (apply_payment_except account authCode amount e)).

(** *** [process_payment], lines 970-1280 *)

(** The first cell of a journal row. *)
Definition customer_cell (f : form) : string :=
  if String.eqb (customerInput f) "" then "None" else customerInput f.

Definition journal_entry (f : form) (outcome : string) (code : option string) : journal_row :=
  {| jr_customer := customer_cell f; jr_amount := amountInput f;
     jr_outcome := outcome; jr_time := clock host; jr_authCode := code |}.

(** Lines 1088-1097 (and 1222-1229, 1238-1245): the inputs are cleared. *)
Definition reset_inputs : M unit :=
  f <- get_fields ;;
  set_fields
    {| customerInput := ""; amountInput := "$"; cardNumberInput := "";
       cardExpiryInput := ""; cardCVCInput := "";
       cardNumberStyle := ""; cardNumberToolTip := cardNumberToolTip f;
       customerStyle := ""; processButton := processButton f |}.

(** [simplify.Payment.create] *)
Definition Payment_create (request : payment_request) : M payment :=
  emit (PaymentCreate request) ;;
  match gateway host request with
  | Reply p => ret p
  | Fault e => raise e
  end.

Definition unknown_status_text (status : string) : string :=
  "Error: The payment status is unknown (" ++ status ++ ")".

(** [response_codes[key]] *)
Definition response_code (key : string) : M string :=
  match dict_get response_codes key with
  | Some text => ret text
  | None => raise KeyError
  end.

(** Lines 975-978: the amount field in cents. *)
Definition amount_cents (f : form) : exn + Z :=
  let amount := Text.strip_char "$" (amountInput f) in
  match Decimal.of_string amount with
  | inl e => inl e
  | inr amount =>
      match Decimal.mul_int amount 100 with
      | inl e => inl e
      | inr amount => Decimal.to_int amount
      end
  end.

(** Lines 980-1020: the amount is over the ceiling. The function returns
    from inside the [try], so the closing dialog is not reached. *)
Definition reject_excessive (f : form) (amount : Z) : M (option string) :=
  dollars <- lift (Float.truediv amount 100) ;;
  emit (ReportEvent Warning (ExcessiveAmount dollars)) ;;
  emit (Pushover (ExcessiveAmount dollars)) ;;
  emit (MessageBox "Error: This amount is too large. Please use the physical machine." None) ;;
  writerow (journal_entry f "DECLINED" None) ;;
  ret None.

(** Lines 1022-1036: the argument of [simplify.Payment.create]. *)
Definition payment_request_of (f : form) (amount : Z) : exn + payment_request :=
  let cardNumber := Text.remove_char " " (cardNumberInput f) in
  match Text.second_field "/" (cardExpiryInput f) with
  | None => inl IndexError
  | Some expYear =>
      inr {| card_number := cardNumber;
             card_expMonth := Text.first_field "/" (cardExpiryInput f);
             card_expYear := expYear;
             card_cvc := cardCVCInput f;
             order_customerName := customerInput f;
             request_amount := amount;
             request_description := customerInput f;
             request_currency := "AUD" |}
  end.

(** Lines 1047-1097. *)
Definition on_approved (f : form) (p : payment) (amount : Z) : M (option string) :=
  writerow (journal_entry f "APPROVED" (Some (authCode p))) ;;
  dollars <- lift (Float.truediv amount 100) ;;
  applied_payment <-
    apply_payment (Text.first_field " " (customerInput f)) (authCode p) dollars ;;
  (if negb (Text.contains "applied to account" applied_payment)
   then emit (Clipboard (authCode p))
   else ret tt) ;;
  emit (ReportEvent Information (AppliedPayment applied_payment)) ;;
  reset_inputs ;;
  ret (Some applied_payment).

(** Lines 1100-1126: the text a decline reason puts in the message box. *)
Definition classify (reason : string) : string :=
  match dict_get response_codes reason with
  | Some text => text
  | None => unknown_status_text "DECLINED"
  end.

(** Lines 1099-1151. *)
Definition on_declined (f : form) (p : payment) : M (option string) :=
  match dict_get response_codes (declineReason p) with
  | Some text =>
      writerow (journal_entry f ("DECLINED - " ++ text) None) ;;
      ret (Some text)
  | None =>
      emit (Pushover (UnknownError (paymentStatus p))) ;;
      writerow (journal_entry f "unknown" None) ;;
      ret (Some (unknown_status_text (paymentStatus p)))
  end.

(** Lines 1152-1171. *)
Definition on_other_status (f : form) (p : payment) : M (option string) :=
  writerow (journal_entry f "unknown" None) ;;
  ret (Some (unknown_status_text (paymentStatus p))).

(** Lines 975-1171, the [try] block. The value is the text left in the
    message box for the closing [mbox.exec_()], or [None] after the early
    [return] of line 1020. *)
Definition process_payment_try : M (option string) :=
  f <- get_fields ;;
  amount <- lift (amount_cents f) ;;
  if 300000 <? amount then
    reject_excessive f amount
  else
    request <- lift (payment_request_of f amount) ;;
    p <- Payment_create request ;;
    emit (ReportEvent Information (ProcessedPayment p)) ;;
    if String.eqb (paymentStatus p) "APPROVED" then on_approved f p amount
    else if String.eqb (paymentStatus p) "DECLINED" then on_declined f p
    else on_other_status f p.

Definition invalid_account_text : string :=
  "The account number is invalid, please check the payment was successful in the recent transactions list.".

Definition generic_error_text : string :=
  "An error has occurred. Please check your inputs and try again.     ".

(** Lines 1172-1212. *)
Definition except_BadRequestError (e : exn) : M (string * option exn) :=
  text <- response_code "INVALID_CARD_NUMBER" ;;
  f <- get_fields ;;
  writerow (journal_entry f ("DECLINED - " ++ text) None) ;;
  emit (ReportEvent Error (PaymentFailed e)) ;;
  emit (Pushover (PaymentFailed e)) ;;
  ret (text, None).

(** Lines 1214-1229 and 1230-1245. *)
Definition except_psycopg2 (e : exn) : M (string * option exn) :=
  log_failure e ;;
  reset_inputs ;;
  ret (invalid_account_text, None).

(** Lines 1247-1278. *)
Definition except_BaseException (e : exn) : M (string * option exn) :=
  emit (ReportEvent Error (PaymentFailed e)) ;;
  emit (Pushover (PaymentFailed e)) ;;
  log_failure e ;;
  ret (generic_error_text, Some e).

(** The [except] clauses in source order. *)
Definition process_payment_clauses (e : exn) : option (M (option (string * option exn))) :=
  let shown (h : M (string * option exn)) := Some (r <- h ;; ret (Some r)) in
  match e with
  | BadRequestError _ => shown (except_BadRequestError e)
  | UndefinedColumn => shown (except_psycopg2 e)
  | ProgrammingError => shown (except_psycopg2 e)
  | _ => shown (except_BaseException e)
  end.

Definition process_payment : M unit :=
  box <- try_except
           (text <- process_payment_try ;;
            ret (option_map (fun t => (t, @None exn)) text))
           process_payment_clauses ;;
  match box with
  | Some (text, detail) => emit (MessageBox text detail)
  | None => ret tt
  end.

End Program.

(** ** Reading a run *)

Definition run {A : Type} (c : M A) (w : world) : world := snd (c w).

Definition gateway_calls (t : list event) : list payment_request :=
  flat_map (fun e => match e with PaymentCreate r => [r] | _ => [] end) t.

Definition database_calls (t : list event) : list db_step :=
  flat_map (fun e => match e with Database s => [s] | _ => [] end) t.

Definition clipboard_copies (t : list event) : list string :=
  flat_map (fun e => match e with Clipboard c => [c] | _ => [] end) t.

Definition alerts (t : list event) : list notice :=
  flat_map (fun e => match e with Pushover m => [m] | _ => [] end) t.

(** ** The specification's vocabulary *)

(** The float nearest to [c] hundredths: how a two-decimal amount of [c]
    cents reads as a [float] in dollars. *)
Definition nearest_dollars (c : Z) : Float.t :=
  SFdiv Float.prec Float.emax (Float.raw c) (Float.raw 100).

(** The explanation and the next step of a classification text: what
    stands before and after the line break that opens "Next Steps: ". *)
Definition next_steps_marker : string := nl ++ "Next Steps: ".

Fixpoint split_at_marker (marker s : string) : string * option string :=
  if String.prefix marker s
  then (EmptyString,
        Some (String.substring (String.length marker) (String.length s) s))
  else match s with
       | EmptyString => (EmptyString, None)
       | String a rest =>
           let (before, after) := split_at_marker marker rest in
           (String a before, after)
       end.

Definition explanation (text : string) : string :=
  fst (split_at_marker next_steps_marker text).

Definition next_steps (text : string) : option string :=
  snd (split_at_marker next_steps_marker text).

(** The ledger after one complete posting: a group header and a detail row
    under the same generated key, the balance of the account replaced, and
    the audit note. *)
Definition posted (host : env) (account_id authCode : string) (amount : Float.t)
    (key location_key : Z) (new_balance : Float.t) (computer : string) (t : tables) : tables :=
  {| account := set_balance (Text.digits_value account_id) new_balance (account t);
     location := location t;
     transactiongroup :=
       transactiongroup t ++
       [{| tg_transaction_group := key;
           tg_account := Text.digits_value account_id;
           tg_reference := authCode;
           tg_postdate := today host; tg_trxdate := today host;
           tg_type := 1; tg_usr := 13;
           tg_time_stamp := now host;
           tg_amount := Float.neg amount;
           tg_running_balance := new_balance;
           tg_reverse_transaction := false;
           tg_open := Float.neg amount;
           tg_invoiced := false; tg_hidden := false;
           tg_location_key := location_key; tg_tank_key := 0 |}];
     transaction :=
       transaction t ++
       [{| tx_transaction_group := key;
           tx_account := Text.digits_value account_id;
           tx_reference := authCode;
           tx_postdate := today host; tx_trxdate := today host;
           tx_type := 1; tx_usr := 13;
           tx_time_stamp := now host;
           tx_amount := amount;
           tx_balance := new_balance;
           tx_reverse_transaction := false;
           tx_location_key := location_key;
           tx_tax_group := 2; tx_code := 2 |}];
     transactiongroupnote :=
       transactiongroupnote t ++
       [{| tn_transaction_group := key;
           tn_note := "Payment applied by " ++ get_display_name host 3 ++ " on " ++ computer |}] |}.

(** What a posting needs to go through: a numeric id of an account on
    file, a balance in it, a location for it, the name of the machine, and
    no database call that raises. *)
Record postable (host : env) (account_id : string) (t : tables)
    (row : account_row) (place : location_row) (b : Float.t) (computer : string) : Prop := {
  postable_numeric : Text.isnumeric account_id = true;
  postable_account :
    find (fun r => acct r =? Text.digits_value account_id) (account t) = Some row;
  postable_balance : balance row = Some b;
  postable_location :
    find (fun r => location_account r =? account_row_0 row) (location t) = Some place;
  postable_computer : COMPUTERNAME host = Some computer;
  postable_clean : forall s, database_fault host s = None
}.

(** The database calls of a complete posting. *)
Definition posting_calls : list db_step :=
  [StepConnect; StepSelectAccount; StepSelectLocation; StepInsertGroup;
   StepInsertTransaction; StepUpdateBalance; StepInsertNote; StepCommit].

(** ** A till, a ledger and a gateway to run the program on *)

Module Scenario.

Definition shop_ledger : tables :=
  {| account :=
       [{| acct := 12345; account_row_0 := 12345; balance := Some (nearest_dollars 10000) |};
        {| acct := 20002; account_row_0 := 20002; balance := Some (nearest_dollars 30) |};
        {| acct := 30003; account_row_0 := 30003; balance := None |}];
     location :=
       [{| location_account := 12345; location_row_0 := 5608 |};
        {| location_account := 20002; location_row_0 := 5609 |}];
     transactiongroup := [];
     transaction := [];
     transactiongroupnote := [] |}.

Definition entry (customer amount : string) : form :=
  {| customerInput := customer; amountInput := amount;
     cardNumberInput := "4532 0151 1283 0366";
     cardExpiryInput := "12/27"; cardCVCInput := "123";
     cardNumberStyle := "border: 2px solid green;";
     cardNumberToolTip := "Card is valid";
     customerStyle := ""; processButton := true |}.

Definition till (customer amount : string) : world :=
  {| ledger := shop_ledger; sequence := 7001; journal := [];
     failed_payments := []; fields := entry customer amount; trace := [] |}.

Definition approve (code : string) : payment_request -> gateway_reply :=
  fun _ => Reply {| paymentStatus := "APPROVED"; declineReason := ""; authCode := code |}.

Definition decline (reason : string) : payment_request -> gateway_reply :=
  fun _ => Reply {| paymentStatus := "DECLINED"; declineReason := reason; authCode := "" |}.

Definition unreachable : payment_request -> gateway_reply :=
  fun _ => Fault (OtherError "ConnectionError").

Definition no_fault : db_step -> option exn := fun _ => None.

Definition fault_at (s : db_step) : db_step -> option exn :=
  fun s' =>
    match s, s' with
    | StepConnect, StepConnect
    | StepSelectAccount, StepSelectAccount
    | StepSelectLocation, StepSelectLocation
    | StepInsertGroup, StepInsertGroup
    | StepInsertTransaction, StepInsertTransaction
    | StepUpdateBalance, StepUpdateBalance
    | StepInsertNote, StepInsertNote
    | StepCommit, StepCommit => Some DatabaseError
    | _, _ => None
    end.

Definition shop (g : payment_request -> gateway_reply) (faults : db_step -> option exn) : env :=
  {| today := "2023-10-30"; now := "2023-10-30 09:15:00"; clock := 1698657300;
     COMPUTERNAME := Some "FRONTDESK"; get_display_name := fun _ => "Trent Buckley";
     gateway := g; database_fault := faults |}.

End Scenario.

(** ** The program when a call on the outside world can fail

    [check_card], [apply_payment] and [process_payment] above take the
    event log, the alert request, the clipboard and the two files to accept
    what they are handed. In the source none of these calls is guarded:
    each can raise where it stands, also inside an [except] clause, and
    what it raises there is caught by no clause of the same [try]. Here
    each of them consults a fault plan first, as the database calls consult
    [database_fault]; a call that fails has no effect. The dialogs are
    still taken to return. With a plan that has no fault the two readings
    of a function agree. *)

(** [EventLog]: [win32evtlogutil.ReportEvent]. [AlertPost]: [requests.post]
    to the alert channel. [JournalAppend]: opening [transactions.csv] and
    writing the row. [ClipboardCopy]: [pyperclip.copy]. [FailureLog]:
    opening [failed_payments.txt] and writing the line, with the lookup of
    the display name the line carries. *)
Inductive io_call : Type :=
  | EventLog
  | AlertPost
  | JournalAppend
  | ClipboardCopy
  | FailureLog.

Module IO.

Definition no_fault : io_call -> option exn := fun _ => None.

Definition fault_at (c : io_call) (e : exn) : io_call -> option exn :=
  fun c' =>
    match c, c' with
    | EventLog, EventLog
    | AlertPost, AlertPost
    | JournalAppend, JournalAppend
    | ClipboardCopy, ClipboardCopy
    | FailureLog, FailureLog => Some e
    | _, _ => None
    end.

Section Program.

Variable host : env.
Variable io_fault : io_call -> option exn.

Local Open Scope py_scope.

Definition call (c : io_call) : M unit :=
  match io_fault c with
  | Some e => raise e
  | None => ret tt
  end.

(** [win32evtlogutil.ReportEvent(...)] *)
Definition report_event (level : severity) (text : notice) : M unit :=
  call EventLog ;; emit (ReportEvent level text).

(** [requests.post("https://api.pushover.net/1/messages.json", ...)] *)
Definition post_alert (message : notice) : M unit :=
  call AlertPost ;; emit (Pushover message).

(** [with open("U:/POS/transactions.csv", "a") as f: csv.writer(f).writerow(row)] *)
Definition writerow (row : journal_row) : M unit :=
  call JournalAppend ;; writerow row.

(** [pyperclip.copy(text)] *)
Definition copy (text : string) : M unit :=
  call ClipboardCopy ;; emit (Clipboard text).

(** [with open("U:/POS/failed_payments.txt", "a") as f: f.write(...)] *)
Definition log_failure (e : exn) : M unit :=
  call FailureLog ;; log_failure host e.

(** *** [check_card], lines 1505-1541 *)

Definition check_card (card_number : string) : M unit :=
  try_except
    (match Luhn.verdict card_number with
     | None => raise ValueError
     | Some valid =>
         f <- get_fields ;;
         set_fields
           {| customerInput := customerInput f; amountInput := amountInput f;
              cardNumberInput := cardNumberInput f;
              cardExpiryInput := cardExpiryInput f; cardCVCInput := cardCVCInput f;
              cardNumberStyle :=
                if valid then "border: 2px solid green;" else "border: 2px solid red;";
              cardNumberToolTip := if valid then "Card is valid" else "Card is invalid";
              customerStyle := customerStyle f;
              processButton := valid |}
     end)
    (fun e => Some (log_failure e)).

(** *** [apply_payment], lines 837-968 *)

(** Lines 838-928, the inner [try] block. *)
Definition apply_payment_try (account authCode : string) (amount : Float.t) : M string :=
  if String.eqb account "00000" then
    ret (exempt_message authCode)
  else
    let date := today host in
    let timestamp := now host in
    conn <- connect host ;;
    row <- (if Text.isnumeric account
            then select_account host conn (Text.digits_value account)
            else ret None) ;;
    match row with
    | None =>
        post_alert (AccountNotFound account authCode amount) ;;
        ret (not_found_message account authCode)
    | Some row =>
        original_balance <- match balance row with
                            | Some b => ret b
                            | None => raise TypeError
                            end ;;
        let new_balance := Float.sub original_balance amount in
        location_key <- select_location host conn (account_row_0 row) ;;
        ' (trxid, conn) <-
          insert_transactiongroup host conn (fun key =>
            {| tg_transaction_group := key;
               tg_account := Text.digits_value account;
               tg_reference := authCode;
               tg_postdate := date; tg_trxdate := date;
               tg_type := 1; tg_usr := 13;
               tg_time_stamp := timestamp;
               tg_amount := Float.neg amount;
               tg_running_balance := new_balance;
               tg_reverse_transaction := false;
               tg_open := Float.neg amount;
               tg_invoiced := false; tg_hidden := false;
               tg_location_key := location_key; tg_tank_key := 0 |}) ;;
        conn <-
          insert_transaction host conn
            {| tx_transaction_group := trxid;
               tx_account := Text.digits_value account;
               tx_reference := authCode;
               tx_postdate := date; tx_trxdate := date;
               tx_type := 1; tx_usr := 13;
               tx_time_stamp := timestamp;
               tx_amount := amount;
               tx_balance := new_balance;
               tx_reverse_transaction := false;
               tx_location_key := location_key;
               tx_tax_group := 2; tx_code := 2 |} ;;
        conn <- update_balance host conn (Text.digits_value account) new_balance ;;
        computer <- match COMPUTERNAME host with
                    | Some name => ret name
                    | None => raise KeyError
                    end ;;
        let user := get_display_name host 3 in
        let note := "Payment applied by " ++ user ++ " on " ++ computer in
        conn <- insert_note host conn {| tn_transaction_group := trxid; tn_note := note |} ;;
        commit host conn ;;
        ret (applied_message account authCode)
    end.

(** The body shared by the two [except] clauses, lines 930-948 and 950-968:
    the failure log first, then the alert. *)
Definition apply_payment_except (account authCode : string) (amount : Float.t) (e : exn)
  : M string :=
  log_failure e ;;
  post_alert (AccountNotFound account authCode amount) ;;
  ret (not_found_message account authCode).

(** The clause for [IndexError] belongs to the inner [try]: what it raises
    is caught by the outer clause, and what the outer clause raises reaches
    the caller. *)
Definition apply_payment (account authCode : string) (amount : Float.t) : M string :=
  let authCode := if DEBUG then "TESTING" else authCode in
  try_except
    (try_except
       (apply_payment_try account authCode amount)
       (fun e => match e with
                 | IndexError => Some (apply_payment_except account authCode amount e)
                 | _ => None
                 end))
    (fun e => Some (apply_payment_except account authCode amount e)).

(** *** [process_payment], lines 970-1280 *)

(** Lines 980-1020. *)
Definition reject_excessive (f : form) (amount : Z) : M (option string) :=
  dollars <- lift (Float.truediv amount 100) ;;
  report_event Warning (ExcessiveAmount dollars) ;;
  post_alert (ExcessiveAmount dollars) ;;
  emit (MessageBox "Error: This amount is too large. Please use the physical machine." None) ;;
  writerow (journal_entry host f "DECLINED" None) ;;
  ret None.

(** Lines 1047-1097. *)
Definition on_approved (f : form) (p : payment) (amount : Z) : M (option string) :=
  writerow (journal_entry host f "APPROVED" (Some (authCode p))) ;;
  dollars <- lift (Float.truediv amount 100) ;;
  applied_payment <-
    apply_payment (Text.first_field " " (customerInput f)) (authCode p) dollars ;;
  (if negb (Text.contains "applied to account" applied_payment)
   then copy (authCode p)
   else ret tt) ;;
  report_event Information (AppliedPayment applied_payment) ;;
  reset_inputs ;;
  ret (Some applied_payment).

(** Lines 1099-1151. *)
Definition on_declined (f : form) (p : payment) : M (option string) :=
  match dict_get response_codes (declineReason p) with
  | Some text =>
      writerow (journal_entry host f ("DECLINED - " ++ text) None) ;;
      ret (Some text)
  | None =>
      post_alert (UnknownError (paymentStatus p)) ;;
      writerow (journal_entry host f "unknown" None) ;;
      ret (Some (unknown_status_text (paymentStatus p)))
  end.

(** Lines 1152-1171. *)
Definition on_other_status (f : form) (p : payment) : M (option string) :=
  writerow (journal_entry host f "unknown" None) ;;
  ret (Some (unknown_status_text (paymentStatus p))).

(** Lines 975-1171, the [try] block. *)
Definition process_payment_try : M (option string) :=
  f <- get_fields ;;
  amount <- lift (amount_cents f) ;;
  if 300000 <? amount then
    reject_excessive f amount
  else
    request <- lift (payment_request_of f amount) ;;
    p <- Payment_create host request ;;
    report_event Information (ProcessedPayment p) ;;
    if String.eqb (paymentStatus p) "APPROVED" then on_approved f p amount
    else if String.eqb (paymentStatus p) "DECLINED" then on_declined f p
    else on_other_status f p.

(** Lines 1172-1212. *)
Definition except_BadRequestError (e : exn) : M (string * option exn) :=
  text <- response_code "INVALID_CARD_NUMBER" ;;
  f <- get_fields ;;
  writerow (journal_entry host f ("DECLINED - " ++ text) None) ;;
  report_event Error (PaymentFailed e) ;;
  post_alert (PaymentFailed e) ;;
  ret (text, None).

(** Lines 1214-1229 and 1230-1245. *)
Definition except_psycopg2 (e : exn) : M (string * option exn) :=
  log_failure e ;;
  reset_inputs ;;
  ret (invalid_account_text, None).

(** Lines 1247-1278. *)
Definition except_BaseException (e : exn) : M (string * option exn) :=
  report_event Error (PaymentFailed e) ;;
  post_alert (PaymentFailed e) ;;
  log_failure e ;;
  ret (generic_error_text, Some e).

(** The [except] clauses in source order. What a clause raises leaves
    [process_payment] before the closing dialog. *)
Definition process_payment_clauses (e : exn) : option (M (option (string * option exn))) :=
  let shown (h : M (string * option exn)) := Some (r <- h ;; ret (Some r)) in
  match e with
  | BadRequestError _ => shown (except_BadRequestError e)
  | UndefinedColumn => shown (except_psycopg2 e)
  | ProgrammingError => shown (except_psycopg2 e)
  | _ => shown (except_BaseException e)
  end.

Definition process_payment : M unit :=
  box <- try_except
           (text <- process_payment_try ;;
            ret (option_map (fun t => (t, @None exn)) text))
           process_payment_clauses ;;
  match box with
  | Some (text, detail) => emit (MessageBox text detail)
  | None => ret tt
  end.

End Program.

End IO.

(** ** The checksum digit by digit

    The share of one digit in the Luhn sum: itself at an even place of the
    reversed number, its cast-out double at an odd one. *)
Definition share (odd : bool) (d : Z) : Z :=
  if odd then (if 9 <? 2 * d then 2 * d - 9 else 2 * d) else d.

(** ** More readings of a run *)

(** The dialogs of lines 1015-1020 and 1279-1280, oldest first. *)
Definition message_boxes (t : list event) : list (string * option exn) :=
  flat_map (fun e => match e with MessageBox text detail => [(text, detail)] | _ => [] end) t.

(** The calls [apply_payment] makes: the database and the alert channel. *)
Definition poster_event (e : event) : bool :=
  match e with
  | Database _ | Pushover _ => true
  | _ => false
  end.

(** The form after lines 1088-1097: every input emptied, the amount back
    to its dollar sign, the two borders gone; the card tool tip and the
    process button are not touched. *)
Definition cleared (f : form) : form :=
  {| customerInput := ""; amountInput := "$"; cardNumberInput := "";
     cardExpiryInput := ""; cardCVCInput := "";
     cardNumberStyle := ""; cardNumberToolTip := cardNumberToolTip f;
     customerStyle := ""; processButton := processButton f |}.

(** A run that left the ledger side alone: no database call, nothing on
    the clipboard, the committed tables and the key sequence as before. *)
Definition untouched (w w' : world) (evs : list event) : Prop :=
  database_calls evs = [] /\ clipboard_copies evs = []
  /\ ledger w' = ledger w /\ sequence w' = sequence w.

(** ** Amounts as typed *)

(** [all(p(c) for c in s)] *)
Fixpoint every (p : ascii -> bool) (s : string) : bool :=
  match s with
  | EmptyString => true
  | String a rest => (p a && every p rest)%bool
  end.

(** The characters of a plain signed numeral. *)
Definition numeral_char (c : ascii) : bool :=
  (Text.is_digit c || Ascii.eqb c "." || Ascii.eqb c "-")%bool.

(** A plain numeral: sign, digits before the point, point, digits after. *)
Definition numeral (negative : bool) (whole frac : string) : string :=
  (if negative then "-" else "") ++ whole ++ "." ++ frac.

(** The hundredths in [whole.frac], what is beyond the second decimal
    dropped. *)
Definition whole_cents (whole frac : string) : Z :=
  100 * Text.digits_value (whole ++ frac) / 10 ^ Z.of_nat (String.length frac).

(** ** Recent transactions: [update_recent_transactions], lines 794-834,
    and [ListWidget.show_transaction_details], lines 1394-1502 *)

(** [str(n)] for an [int]. *)
Definition str (n : Z) : string := NilZero.string_of_int (Z.to_int n).

(** A journal row as [csv.reader] yields it: its cells, the time as
    [csv.writer] printed it, the authorization code when there is one. *)
Definition cells (row : journal_row) : list string :=
  ([jr_customer row; jr_amount row; jr_outcome row; str (jr_time row)]
   ++ match jr_authCode row with
      | Some code => [code]
      | None => []
      end)%list.

(** The digits of an [int] literal: groups of digits joined by single
    underscores. *)
Fixpoint int_digits (after_digit : bool) (s : string) : bool :=
  match s with
  | EmptyString => after_digit
  | String a rest =>
      if Text.is_digit a then int_digits true rest
      else if Ascii.eqb a "_" then (after_digit && int_digits false rest)%bool
      else false
  end.

(** [int(text)] for a string: blanks around, a sign, decimal digits. *)
Definition int_of_string (text : string) : exn + Z :=
  let (negative, body) := Decimal.split_sign (Decimal.strip text) in
  if int_digits false body then
    let value := Text.digits_value (Text.remove_char "_" body) in
    inr (if negative then - value else value)
  else inl ValueError.

(** [l[i]], a negative index counting from the end; [None] stands for
    [IndexError]. *)
Definition getitem {A : Type} (l : list A) (i : Z) : option A :=
  let n := Z.of_nat (List.length l) in
  if 0 <=? i then nth_error l (Z.to_nat i)
  else if 0 <=? n + i then nth_error l (Z.to_nat (n + i))
  else None.

(** The global [transactions] and the widgets of the recent list: the
    lines of [recentTransactionsList], whether the loader label shows and
    whether the loader animation runs. *)
Record recent : Type := {
  transactions : list (list string);
  recentTransactionsList : list string;
  recentTransactionsLoaderLabel : bool;
  recentTransactionsLoader : bool
}.

(** Lines 813-818. *)
Definition status_icon (outcome : string) : string :=
  if String.eqb outcome "APPROVED" then "✅"
  else if Text.contains "DECLINED" outcome then "❌"
  else "⚠️".

(** Line 819: [f"{count} {status} {i[0]} - {i[1]}"]. *)
Definition item_text (count : Z) (status customer amount : string) : string :=
  str count ++ " " ++ status ++ " " ++ customer ++ " - " ++ amount.

(** Lines 812-822, the loop over the rows kept. It stops at the first row
    without a third cell; what was added before stays. A row with a third
    cell has the first two. *)
Fixpoint add_items (count : Z) (rows : list (list string)) (r : recent)
  : recent * option exn :=
  match rows with
  | [] => (r, None)
  | i :: rest =>
      match nth_error i 2 with
      | None => (r, Some IndexError)
      | Some outcome =>
          add_items (count + 1) rest
            {| transactions := transactions r;
               recentTransactionsList :=
                 recentTransactionsList r
                   ++ [item_text count (status_icon outcome) (nth 0 i "") (nth 1 i "")];
               recentTransactionsLoaderLabel := false;
               recentTransactionsLoader := false |}
      end
  end.

(** What the details window shows. *)
Record details : Type := {
  details_name : string;
  details_amount : string;
  details_authCode : option string;
  details_status : string;
  details_tooltip : string;
  details_color : string;
  details_when : string
}.

Section Recent.

Variable host : env.

(** [time.strftime("%d-%m-%Y %H:%M:%S", time.localtime(float(text)))] *)
Variable strftime_localtime : string -> exn + string.

Local Open Scope py_scope.

(** [file] is what [csv.reader] yields from [transactions.csv], or [None]
    when there is no such file ([FileNotFoundError], which is passed over);
    a file that is there is taken to be readable. *)
Definition update_recent_transactions (file : option (list (list string))) (r : recent)
  : M recent :=
  let r := {| transactions := [];
              recentTransactionsList := recentTransactionsList r;
              recentTransactionsLoaderLabel := recentTransactionsLoaderLabel r;
              recentTransactionsLoader := recentTransactionsLoader r |} in
  match file with
  | None => ret r
  | Some rows =>
      let kept :=
        firstn 31 (rev (filter (fun row => negb (Nat.eqb (List.length row) 0)) rows)) in
      let (r, failure) :=
        add_items 0 kept
          {| transactions := kept;
             recentTransactionsList := [];
             recentTransactionsLoaderLabel := recentTransactionsLoaderLabel r;
             recentTransactionsLoader := recentTransactionsLoader r |} in
      match failure with
      | Some e => log_failure host e ;; ret r
      | None => ret r
      end
  end.

(** [row[n]] *)
Definition cell (row : list string) (n : nat) : M string :=
  match nth_error row n with
  | Some text => ret text
  | None => raise IndexError
  end.

(** The window is shown by the last statement of the [try] block: [None]
    is a run that failed before it. For an approved row the window also
    gets the receipt button, which hands the row's customer, amount, time
    and code to [get_email] when it is pressed. *)
Definition show_transaction_details (item : string) (r : recent) : M (option details) :=
  try_except
    (index <- lift (int_of_string (Text.first_field " " item)) ;;
     transaction <- match getitem (transactions r) index with
                    | Some row => ret row
                    | None => raise IndexError
                    end ;;
     name <- cell transaction 0 ;;
     amount <- cell transaction 1 ;;
     outcome <- cell transaction 2 ;;
     ' (status, color, code) <-
       (if String.eqb outcome "APPROVED" then
          code <- cell transaction 4 ;;
          ret ("✅ Approved", "green", Some code)
        else if Text.contains "DECLINED" outcome then
          ret ("❌ Declined", "red", @None string)
        else ret ("⚠️ Unknown", "orange", @None string)) ;;
     stamp <- cell transaction 3 ;;
     when <- lift (strftime_localtime stamp) ;;
     ret (Some {| details_name := name; details_amount := amount;
                  details_authCode := code; details_status := status;
                  details_tooltip := outcome; details_color := color;
                  details_when := when |}))
    (fun e => Some (log_failure host e ;; ret None)).

End Recent.

(** The line of a row of at least three cells, and the lines of a list of
    such rows numbered from [count]. *)
Definition line_of (count : Z) (row : list string) : string :=
  item_text count (status_icon (nth 2 row "")) (nth 0 row "") (nth 1 row "").

Fixpoint lines_from (count : Z) (rows : list (list string)) : list string :=
  match rows with
  | [] => []
  | row :: rest => line_of count row :: lines_from (count + 1) rest
  end.

(** The rows of the file that count, newest first. *)
Definition newest_first (rows : list (list string)) : list (list string) :=
  rev (filter (fun row => negb (Nat.eqb (List.length row) 0)) rows).

(** A sample of the file, with the blank line the writer leaves between
    rows, and the recent list before its first refresh. *)
Definition sample_file : list (list string) :=
  [["12345 - Jo Bloggs"; "$10.00"; "APPROVED"; "1698657300"; "A1B2C3"];
   [];
   ["None"; "$20.00"; "unknown"; "1698657400"]].

Definition loading : recent :=
  {| transactions := []; recentTransactionsList := [];
     recentTransactionsLoaderLabel := true; recentTransactionsLoader := true |}.

(** ** Account lookup: [check_account], lines 1544-1621 *)

(** The buttons of the inactive-account dialog. *)
Inductive button : Type := Yes | No | Cancel.

(** [f"{x}"] for a text column that may be NULL. *)
Definition format_column (x : option string) : string :=
  match x with
  | Some text => text
  | None => "None"
  end.

Definition inactive_question : string :=
  "This account is inactive. Are you sure you want to continue?".

Section Account.

Variable host : env.

(** The columns of an account row that the posting does not read: the
    last name [row[1]], the first name [row[2]], whether [row[7] is True];
    and how Python prints a balance, [str(balance)]. *)
Variable last_name : account_row -> option string.
Variable first_name : account_row -> option string.
Variable inactive : account_row -> bool.
Variable str_balance : Float.t -> string.

(** What the operator answers the [n]-th time the dialog is shown. *)
Variable answer : nat -> button.

Local Open Scope py_scope.

Definition customerInput_setText (text : string) : M unit :=
  f <- get_fields ;;
  set_fields
    {| customerInput := text; amountInput := amountInput f;
       cardNumberInput := cardNumberInput f;
       cardExpiryInput := cardExpiryInput f; cardCVCInput := cardCVCInput f;
       cardNumberStyle := cardNumberStyle f; cardNumberToolTip := cardNumberToolTip f;
       customerStyle := customerStyle f; processButton := processButton f |}.

Definition customerInput_setStyleSheet (style : string) : M unit :=
  f <- get_fields ;;
  set_fields
    {| customerInput := customerInput f; amountInput := amountInput f;
       cardNumberInput := cardNumberInput f;
       cardExpiryInput := cardExpiryInput f; cardCVCInput := cardCVCInput f;
       cardNumberStyle := cardNumberStyle f; cardNumberToolTip := cardNumberToolTip f;
       customerStyle := style; processButton := processButton f |}.

Definition amountInput_setText (text : string) : M unit :=
  f <- get_fields ;;
  set_fields
    {| customerInput := customerInput f; amountInput := text;
       cardNumberInput := cardNumberInput f;
       cardExpiryInput := cardExpiryInput f; cardCVCInput := cardCVCInput f;
       cardNumberStyle := cardNumberStyle f; cardNumberToolTip := cardNumberToolTip f;
       customerStyle := customerStyle f; processButton := processButton f |}.

(** Lines 1571-1574: a NULL balance becomes [""], which the comparison
    with 0 then refuses; a balance of at most 0 is shown as nothing. *)
Definition balance_text (row : account_row) : M string :=
  match balance row with
  | None => raise TypeError
  | Some b => ret (if SFleb b (S754_zero false) then "" else str_balance b)
  end.

(** Lines 1581-1605, for a row that is found. The value is the tool tip of
    the customer field. *)
Definition show_account (account : string) (row : account_row) : M string :=
  balance <- balance_text row ;;
  customerInput_setText
    (match first_name row with
     | None => account ++ " - " ++ format_column (last_name row)
     | Some first => account ++ " - " ++ first ++ " " ++ format_column (last_name row)
     end) ;;
  customerInput_setStyleSheet "border: 2px solid green;" ;;
  amountInput_setText ("$" ++ balance) ;;
  if inactive row then
    emit (MessageBox inactive_question None) ;;
    match answer 0 with
    | Yes =>
        customerInput_setStyleSheet "border: 2px solid orange;" ;;
        ret "Account is inactive"
    | _ =>
        emit (MessageBox inactive_question None) ;;
        match answer 1 with
        | No => customerInput_setText "" ;; ret ""
        | _ =>
            customerInput_setStyleSheet "border: 2px solid orange;" ;;
            ret "Account is inactive"
        end
    end
  else ret "Account is valid and active".

(** The tool tip of the customer field is passed in and returned: it is
    not part of the form the payment reads. No statement that can raise
    comes after a change of the tool tip. *)
Definition check_account (account : string) (toolTip : string) : M string :=
  try_except
    ((if String.eqb account "00000"
      then customerInput_setText "00000 - "
      else ret tt) ;;
     if String.prefix "00000 - " account then
       customerInput_setStyleSheet "border: 2px solid green;" ;;
       ret "Account doesn't exist"
     else if Text.isnumeric account then
       if Nat.eqb (String.length account) 5 then
         conn <- connect host ;;
         row <- select_account host conn (Text.digits_value account) ;;
         match row with
         | Some row => show_account account row
         | None => ret toolTip
         end
       else ret toolTip
     else
       customerInput_setStyleSheet "border: 2px solid red;" ;;
       ret "Account is invalid")
    (fun e => Some (log_failure host e ;; ret toolTip)).

End Account.

(** Sample columns for the accounts of [Scenario.shop_ledger]: account
    20002 is inactive; the operator answers No, then Yes. *)
Definition sample_last_name (row : account_row) : option string := Some "Bloggs".

Definition sample_first_name (row : account_row) : option string := Some "Jo".

Definition sample_inactive (row : account_row) : bool := acct row =? 20002.

Definition sample_str_balance (b : Float.t) : string :=
  if SFeqb b (nearest_dollars 10000) then "100.0" else "0.3".

Definition sample_answer (n : nat) : button :=
  match n with
  | O => No
  | _ => Yes
  end.

(** ** The name on a receipt: [email_receipt], lines 1339-1345 *)

(** [c in set] *)
Fixpoint char_in (c : ascii) (set : string) : bool :=
  match set with
  | EmptyString => false
  | String a rest => (Ascii.eqb c a || char_in c rest)%bool
  end.

(** [s.lstrip(set)] and [s.strip(set)] for a set of characters. *)
Fixpoint lstrip_set (set s : string) : string :=
  match s with
  | EmptyString => EmptyString
  | String a rest => if char_in a set then lstrip_set set rest else s
  end.

Definition strip_set (set s : string) : string :=
  Text.reverse (lstrip_set set (Text.reverse (lstrip_set set s))).

(** ["".join([i for i in name if not i.isdigit()])] *)
Fixpoint remove_digits (s : string) : string :=
  match s with
  | EmptyString => EmptyString
  | String a rest =>
      if Text.is_digit a then remove_digits rest else String a (remove_digits rest)
  end.

(** What replaces [{name}] in the receipt: nothing for a customer cell
    that is a number; otherwise the cell with a blank before it, less its
    digits, less the hyphens and blanks at both ends. *)
Definition receipt_name (name : string) : string :=
  let name := if Text.isnumeric name then "" else remove_digits (" " ++ name) in
  strip_set "- " name.

(** ** Proof automation *)

(** Unfold the state-and-exception plumbing of the ledger code. *)
Ltac run_ledger :=
  cbv [apply_payment_try apply_payment_except try_except
       bind ret raise lift emit attempt connect select_account select_location
       next_transaction_group insert_transactiongroup insert_transaction
       update_balance insert_note commit log_failure
       ledger sequence journal failed_payments fields trace].

(** Unfold the plumbing of the orchestration code, leaving [apply_payment]
    and the library calls folded. *)
Ltac run_till :=
  cbv [process_payment process_payment_try process_payment_clauses
       reject_excessive on_approved on_declined on_other_status
       except_BadRequestError except_psycopg2 except_BaseException
       response_code Payment_create reset_inputs get_fields set_fields writerow
       try_except bind ret raise lift emit log_failure option_map run fst snd negb
       ledger sequence journal failed_payments fields trace].

(** Split on the innermost test the run is waiting for. *)
Ltac branch :=
  match goal with
  | |- context [match ?x with _ => _ end] =>
      lazymatch x with
      | context [match _ with _ => _ end] => fail
      | _ => destruct x eqn:?
      end
  end.

(** As [run_till], with the approved branch left folded. *)
Ltac run_outer :=
  cbv [process_payment process_payment_try process_payment_clauses
       reject_excessive on_declined on_other_status
       except_BadRequestError except_psycopg2 except_BaseException
       response_code Payment_create reset_inputs get_fields set_fields writerow
       try_except bind ret raise lift emit log_failure option_map run fst snd negb
       ledger sequence journal failed_payments fields trace].

(** One of the things a posting needs is missing. *)
Ltac not_postable :=
  let P := fresh in
  intros (? & ? & ? & ? & P); destruct P as [? ? ? ? ? clean];
  pose proof (clean StepConnect); pose proof (clean StepSelectAccount);
  pose proof (clean StepSelectLocation); pose proof (clean StepInsertGroup);
  pose proof (clean StepInsertTransaction); pose proof (clean StepUpdateBalance);
  pose proof (clean StepInsertNote); pose proof (clean StepCommit);
  try match goal with
      | H1 : find ?f ?l = Some ?r1, H2 : find ?f ?l = Some ?r2 |- _ =>
          assert (r1 = r2) by congruence; subst
      end;
  congruence.

(** Unfold the plumbing of the account lookup. *)
Ltac run_account :=
  cbv [check_account show_account balance_text
       customerInput_setText customerInput_setStyleSheet amountInput_setText
       connect select_account attempt
       try_except bind ret raise emit log_failure get_fields set_fields
       ledger sequence journal failed_payments fields trace
       customerInput amountInput cardNumberInput cardExpiryInput cardCVCInput
       cardNumberStyle cardNumberToolTip customerStyle processButton].

(** * Properties *)

(** ** With no failing call the two readings agree *)

Lemma call_accepts (io_fault : io_call -> option exn) (c : io_call) (w : world) :
  io_fault c = None -> IO.call io_fault c w = (Return tt, w).
Proof. intros accepts. unfold IO.call. now rewrite accepts. Qed.

Lemma check_card_agrees (host : env) (io_fault : io_call -> option exn)
    (card_number : string) (w : world) :
  io_fault FailureLog = None ->
  IO.check_card host io_fault card_number w = check_card host card_number w.
Proof.
  intros logs. unfold IO.check_card, check_card, IO.log_failure, IO.call, try_except, bind.
  rewrite logs. destruct (Luhn.verdict card_number); reflexivity.
Qed.

Lemma apply_payment_agrees (host : env) (io_fault : io_call -> option exn)
    (account_id code : string) (amount : Float.t) (w : world) :
  io_fault AlertPost = None -> io_fault FailureLog = None ->
  IO.apply_payment host io_fault account_id code amount w
  = apply_payment host account_id code amount w.
Proof.
  intros posts logs.
  unfold IO.apply_payment, apply_payment, IO.apply_payment_try, apply_payment_try,
    IO.apply_payment_except, apply_payment_except,
    IO.post_alert, IO.log_failure, IO.call.
  rewrite posts, logs. reflexivity.
Qed.

Lemma process_payment_agrees (host : env) (io_fault : io_call -> option exn) (w : world) :
  (forall c, io_fault c = None) ->
  IO.process_payment host io_fault w = process_payment host w.
Proof.
  intros accepts.
  unfold IO.process_payment, process_payment,
    IO.process_payment_try, process_payment_try,
    IO.process_payment_clauses, process_payment_clauses,
    IO.reject_excessive, reject_excessive, IO.on_approved, on_approved,
    IO.on_declined, on_declined, IO.on_other_status, on_other_status,
    IO.except_BadRequestError, except_BadRequestError,
    IO.except_psycopg2, except_psycopg2,
    IO.except_BaseException, except_BaseException,
    IO.apply_payment, apply_payment, IO.apply_payment_try, apply_payment_try,
    IO.apply_payment_except, apply_payment_except,
    IO.report_event, IO.post_alert, IO.writerow, IO.copy, IO.log_failure, IO.call.
  rewrite (accepts EventLog), (accepts AlertPost), (accepts JournalAppend),
    (accepts ClipboardCopy), (accepts FailureLog).
  reflexivity.
Qed.

(** ** Card Validator *)

Section LuhnFacts.

Import Luhn.

Lemma digit_value_range (c : ascii) (d : Z) :
  Text.digit_value c = Some d -> 0 <= d <= 9.
Proof.
  unfold Text.digit_value, Text.is_digit.
  destruct (Nat.leb 48 (nat_of_ascii c)) eqn:lo; simpl; [| discriminate].
  destruct (Nat.leb (nat_of_ascii c) 57) eqn:hi; [| discriminate].
  intros [= <-].
  apply Nat.leb_le in lo, hi. lia.
Qed.

Lemma to_ints_digits (s : string) :
  Text.all_digits s = true -> to_ints s = Some (digit_values s).
Proof.
  induction s as [| a rest IH]; simpl; [reflexivity |].
  intros H. apply andb_true_iff in H as [Ha Hrest].
  unfold Text.digit_value. rewrite Ha, (IH Hrest). reflexivity.
Qed.

Lemma to_ints_not_digits (s : string) :
  Text.all_digits s = false -> to_ints s = None.
Proof.
  induction s as [| a rest IH]; simpl; [discriminate |].
  unfold Text.digit_value.
  destruct (Text.is_digit a); simpl; [| reflexivity].
  intros H. rewrite (IH H). reflexivity.
Qed.

Lemma digit_values_range (s : string) :
  Text.all_digits s = true -> Forall (fun d => 0 <= d <= 9) (digit_values s).
Proof.
  induction s as [| a rest IH]; simpl; [constructor |].
  intros H. apply andb_true_iff in H as [Ha Hrest].
  constructor; [| auto].
  apply (digit_value_range a). unfold Text.digit_value. rewrite Ha. reflexivity.
Qed.

Lemma all_digits_reverse_onto (s acc : string) :
  Text.all_digits (Text.reverse_onto s acc) = (Text.all_digits s && Text.all_digits acc)%bool.
Proof.
  revert acc. induction s as [| a rest IH]; intros acc; simpl; [reflexivity |].
  rewrite IH. simpl. destruct (Text.is_digit a), (Text.all_digits rest); reflexivity.
Qed.

Lemma digit_values_reverse_onto (s acc : string) :
  digit_values (Text.reverse_onto s acc) = (rev (digit_values s) ++ digit_values acc)%list.
Proof.
  revert acc. induction s as [| a rest IH]; intros acc; simpl; [reflexivity |].
  rewrite IH. simpl. rewrite <- app_assoc. reflexivity.
Qed.

Lemma sum_from (l : list Z) (start : Z) : fold_left Z.add l start = start + sum l.
Proof.
  unfold sum. revert start.
  induction l as [| x l IH]; intros start; simpl; [lia |].
  rewrite IH, (IH x). lia.
Qed.

Lemma sum_cons (x : Z) (l : list Z) : sum (x :: l) = x + sum l.
Proof. unfold sum at 1. simpl. apply sum_from. Qed.

(** The three list passes of the program add up to the sum the
    specification describes, whatever index the enumeration starts at. *)
Lemma passes_agree (l : list Z) :
  Forall (fun d => 0 <= d <= 9) l ->
  forall index : nat,
    sum (cast_out_nines (double_odd_from index l))
    = luhn_sum_spec_from (Nat.odd index) l.
Proof.
  induction 1 as [| d l Hd _ IH]; intros index;
    cbn [double_odd_from cast_out_nines map luhn_sum_spec_from]; [reflexivity |].
  fold (cast_out_nines (double_odd_from (S index) l)).
  rewrite sum_cons, IH, Nat.odd_succ, <- Nat.negb_odd.
  f_equal.
  assert (parity : Nat.eqb (index mod 2) 1 = Nat.odd index).
  { destruct (Nat.odd index) eqn:o.
    - apply Nat.eqb_eq. apply Nat.odd_spec in o. destruct o as [k ->].
      rewrite Nat.add_comm, Nat.mul_comm, Nat.Div0.mod_add. reflexivity.
    - apply Nat.eqb_neq. rewrite <- Nat.negb_even in o.
      apply negb_false_iff, Nat.even_spec in o. destruct o as [k ->].
      rewrite Nat.mul_comm, Nat.Div0.mod_mul. discriminate. }
  rewrite parity. destruct (Nat.odd index).
  - replace (d * 2) with (2 * d) by lia. reflexivity.
  - destruct (9 <? d) eqn:big; [apply Z.ltb_lt in big; lia | reflexivity].
Qed.

Lemma remove_char_idempotent (c : ascii) (s : string) :
  Text.remove_char c (Text.remove_char c s) = Text.remove_char c s.
Proof.
  induction s as [| a rest IH]; simpl; [reflexivity |].
  destruct (Ascii.eqb a c) eqn:E; simpl; [exact IH |].
  rewrite E, IH. reflexivity.
Qed.

(** The verdict on a string of digits and blanks. *)
Lemma verdict_digits (card_number : string) :
  Text.all_digits (Text.remove_char " " card_number) = true ->
  verdict card_number
  = Some ((luhn_sum_spec (digit_values (Text.remove_char " " card_number)) mod 10 =? 0)
          && Nat.eqb (String.length (Text.remove_char " " card_number)) 16)%bool.
Proof.
  intros H. unfold verdict, Text.reverse.
  rewrite to_ints_digits
    by (rewrite all_digits_reverse_onto, H; reflexivity).
  rewrite digit_values_reverse_onto. simpl digit_values. rewrite app_nil_r.
  unfold double_odd. rewrite passes_agree.
  - reflexivity.
  - apply Forall_rev, digit_values_range, H.
Qed.

Lemma verdict_not_digits (card_number : string) :
  Text.all_digits (Text.remove_char " " card_number) = false ->
  verdict card_number = None.
Proof.
  intros H. unfold verdict, Text.reverse.
  rewrite to_ints_not_digits; [reflexivity |].
  rewrite all_digits_reverse_onto, H. reflexivity.
Qed.

End LuhnFacts.

(** C3, as the code has it. For a card field in ASCII: blanks are
    ignored; the card is found valid exactly when what is left is 16
    digits whose Luhn sum is a multiple of 10; digits of any other length
    are found invalid; and the verdict is what the process button is set
    to. When anything but digits is left, whatever the length, the card is
    found neither valid nor invalid: [int] raises, the style, the tool tip
    and the button stay as they were, and [ValueError] goes to the failure
    log. *)
Theorem check_card_luhn (card_number : string) :
  Text.is_ascii card_number = true ->
  let typed := Text.remove_char " " card_number in
  Luhn.verdict card_number = Luhn.verdict typed
  /\ (Luhn.verdict card_number = Some true <->
        Text.all_digits typed = true /\ String.length typed = 16%nat /\
        Luhn.luhn_sum_spec (Luhn.digit_values typed) mod 10 = 0)
  /\ (Text.all_digits typed = true -> String.length typed <> 16%nat ->
        Luhn.verdict card_number = Some false)
  /\ (Text.all_digits typed = false -> Luhn.verdict card_number = None)
  /\ (forall (host : env) (io_fault : io_call -> option exn) (w : world) (valid : bool),
        Luhn.verdict card_number = Some valid ->
        IO.check_card host io_fault card_number w
        = (Return tt,
           {| ledger := ledger w; sequence := sequence w; journal := journal w;
              failed_payments := failed_payments w;
              fields :=
                {| customerInput := customerInput (fields w);
                   amountInput := amountInput (fields w);
                   cardNumberInput := cardNumberInput (fields w);
                   cardExpiryInput := cardExpiryInput (fields w);
                   cardCVCInput := cardCVCInput (fields w);
                   cardNumberStyle :=
                     if valid then "border: 2px solid green;" else "border: 2px solid red;";
                   cardNumberToolTip := if valid then "Card is valid" else "Card is invalid";
                   customerStyle := customerStyle (fields w);
                   processButton := valid |};
              trace := trace w |}))
  /\ (forall (host : env) (io_fault : io_call -> option exn) (w : world),
        Luhn.verdict card_number = None ->
        fields (run (IO.check_card host io_fault card_number) w) = fields w
        /\ (io_fault FailureLog = None ->
            IO.check_card host io_fault card_number w
            = (Return tt,
               {| ledger := ledger w; sequence := sequence w; journal := journal w;
                  failed_payments :=
                    failed_payments w
                      ++ [{| fl_time := now host; fl_user := get_display_name host 3;
                             fl_error := ValueError |}];
                  fields := fields w; trace := trace w |}))).
Proof.
  intros _. cbv zeta. split; [| split; [| split; [| split; [| split]]]].
  - unfold Luhn.verdict.
    rewrite (remove_char_idempotent " " card_number). reflexivity.
  - split.
    + destruct (Text.all_digits (Text.remove_char " " card_number)) eqn:D.
      * rewrite (verdict_digits card_number D).
        intros [= H]. apply andb_true_iff in H as [S L].
        apply Z.eqb_eq in S. apply Nat.eqb_eq in L. auto.
      * rewrite (verdict_not_digits card_number D). discriminate.
    + intros (D & L & S).
      rewrite (verdict_digits card_number D).
      rewrite L. apply Z.eqb_eq in S. rewrite S. reflexivity.
  - intros D L. rewrite (verdict_digits card_number D).
    apply Nat.eqb_neq in L. rewrite L, andb_false_r. reflexivity.
  - apply verdict_not_digits.
  - intros host io_fault w valid H.
    unfold IO.check_card, try_except. rewrite H. destruct w. reflexivity.
  - intros host io_fault w H. split.
    + unfold run, IO.check_card, IO.log_failure, IO.call, try_except, bind.
      rewrite H. destruct w, (io_fault FailureLog); reflexivity.
    + intros logs. rewrite (check_card_agrees host io_fault _ _ logs).
      unfold check_card, try_except. rewrite H. destruct w. reflexivity.
Qed.

(** The well-known test number passes, its neighbour and a short number do
    not, and a letter in it leaves the matter open. *)
Lemma check_card_luhn_witness :
  Luhn.verdict "4532 0151 1283 0366" = Some true
  /\ Luhn.verdict "4532 0151 1283 0367" = Some false
  /\ Luhn.verdict "4532 0151 1283" = Some false
  /\ Luhn.verdict "4532 0151 1283 036x" = None.
Proof.
  pose proof (check_card_luhn "4532 0151 1283 0366" eq_refl) as (_ & valid & _).
  pose proof (check_card_luhn "4532 0151 1283" eq_refl) as (_ & _ & short & _).
  pose proof (check_card_luhn "4532 0151 1283 036x" eq_refl) as (_ & _ & _ & stray & _).
  split; [| split; [| split]].
  - apply valid. vm_compute. repeat split.
  - reflexivity.
  - apply short; [reflexivity | vm_compute; discriminate].
  - apply stray. reflexivity.
Defined.

(** C3 as claimed fails: "4532x" has not 16 characters, yet it is not
    found invalid. With a valid card in the field before, the button that
    submits the payment stays enabled and the tool tip goes on saying that
    the card is valid. *)
Lemma stray_character_is_not_invalid :
  let host := Scenario.shop Scenario.unreachable Scenario.no_fault in
  let w := run (IO.check_card host IO.no_fault "4532 0151 1283 0366")
               (Scenario.till "12345" "$10.00") in
  let w' := run (IO.check_card host IO.no_fault "4532x") w in
  String.length (Text.remove_char " " "4532x") <> 16%nat
  /\ Luhn.verdict "4532x" = None
  /\ processButton (fields w') = true
  /\ cardNumberToolTip (fields w') = "Card is valid"
  /\ failed_payments w'
     = [{| fl_time := now host; fl_user := get_display_name host 3;
           fl_error := ValueError |}].
Proof. cbv zeta. split; [vm_compute; discriminate | repeat split]. Qed.

(** ** Response Classifier *)

Lemma explanation_of_error (rest : string) :
  explanation (String "E" rest) <> "".
Proof.
  unfold explanation. cbn.
  destruct (split_at_marker _ rest). cbn. discriminate.
Qed.

Lemma known_text_starts (key text : string) :
  In (key, text) response_codes ->
  exists a rest, text = String a rest /\ (a = "E"%char \/ a = "S"%char).
Proof.
  intros H. unfold response_codes in H. cbn [In] in H.
  repeat (destruct H as [[= <- <-] | H];
          [eexists; eexists; split; [reflexivity | auto] |]).
  destruct H.
Qed.

(** C7, as the code has it. Classification never fails and its text is
    never empty; every key of the table yields the table's text; that text
    has an explanation and a next step for every key but APPROVED; a reason
    outside the table yields the one generic text, which has no next step.
    This is the text [process_payment] shows for a declined payment. *)
Theorem classify_total :
  (forall reason, classify reason <> "" /\ explanation (classify reason) <> "")
  /\ (forall key text, In (key, text) response_codes -> classify key = text)
  /\ (forall key text, In (key, text) response_codes -> key <> "APPROVED" ->
        exists steps, next_steps text = Some steps /\ steps <> "")
  /\ (forall reason, dict_get response_codes reason = None ->
        classify reason = unknown_status_text "DECLINED"
        /\ next_steps (classify reason) = None)
  /\ (forall host f p w, paymentStatus p = "DECLINED" ->
        fst (on_declined host f p w) = Return (Some (classify (declineReason p)))).
Proof.
  assert (known : forall key text, In (key, text) response_codes -> classify key = text).
  { intros key text H. unfold classify.
    unfold response_codes in H at 1. cbn [In] in H.
    repeat (destruct H as [[= <- <-] | H]; [vm_compute; reflexivity |]).
    destruct H. }
  split; [| split; [exact known | split; [| split]]].
  - intros reason. unfold classify.
    destruct (dict_get response_codes reason) as [text |] eqn:G.
    + assert (In (reason, text) response_codes) as H.
      { clear known. revert G. generalize response_codes.
        induction l as [| [k v] l IH]; simpl; [discriminate |].
        destruct (String.eqb_spec k reason) as [-> |].
        - intros [= ->]. now left.
        - intros G. right. auto. }
      destruct (known_text_starts reason text H) as (a & rest & -> & [-> | ->]).
      * split; [discriminate | apply explanation_of_error].
      * split; [discriminate |].
        unfold explanation. cbn.
        destruct (split_at_marker _ rest). cbn. discriminate.
    + split; [discriminate | apply explanation_of_error].
  - intros key text H approved. unfold response_codes in H. cbn [In] in H.
    repeat (destruct H as [[= <- <-] | H];
            [first [ now contradiction approved
                   | eexists; split; [vm_compute; reflexivity | discriminate] ] |]).
    destruct H.
  - intros reason G. unfold classify. rewrite G. split; reflexivity.
  - intros host f p w status. unfold on_declined, classify. rewrite status.
    destruct (dict_get response_codes (declineReason p)); reflexivity.
Qed.

(** A reason in the table and one outside it. *)
Lemma classify_total_witness :
  (exists steps,
     next_steps (classify "TIMED_OUT") = Some steps /\ steps <> "")
  /\ classify "NOT_A_CODE" = "Error: The payment status is unknown (DECLINED)".
Proof.
  destruct classify_total as (_ & known & steps & unknown & _).
  split.
  - rewrite (known "TIMED_OUT" _ ltac:(do 21 right; left; reflexivity)).
    apply (steps "TIMED_OUT"); [do 21 right; left; reflexivity | discriminate].
  - apply (unknown "NOT_A_CODE"). reflexivity.
Defined.

(** C7 as claimed fails: a reason outside the table gets an explanation
    but no next step. *)
Lemma classify_unrecognized_has_no_next_step :
  ~ (explanation (classify "NOT_A_CODE") <> ""
     /\ exists steps, next_steps (classify "NOT_A_CODE") = Some steps /\ steps <> "").
Proof.
  intros [_ (steps & H & _)]. vm_compute in H. discriminate.
Qed.

(** ** Ledger Poster *)

Lemma prefix_append (s t : string) : String.prefix s (s ++ t) = true.
Proof.
  induction s as [| a s IH]; simpl; [now destruct t |].
  destruct (ascii_dec a a); [exact IH | congruence].
Qed.

Lemma contains_append (sub before after : string) :
  Text.contains sub (before ++ sub ++ after) = true.
Proof.
  induction before as [| a before IH].
  - simpl append. pose proof (prefix_append sub after) as P.
    destruct (sub ++ after); cbn [Text.contains]; rewrite P; reflexivity.
  - cbn [append Text.contains]. rewrite IH. apply orb_true_r.
Qed.

Lemma append_empty (s : string) : s ++ "" = s.
Proof. induction s as [| a s IH]; simpl; [reflexivity | now rewrite IH]. Qed.

Lemma sentinel_is_exempt (host : env) (code : string) (amount : Float.t) (w : world) :
  apply_payment host "00000" code amount w = (Return (exempt_message code), w).
Proof. reflexivity. Qed.

(** The two [except] clauses do the same, so the nesting does not show. *)
Lemma apply_payment_unfold (host : env) (account_id code : string) (amount : Float.t)
    (w : world) :
  apply_payment host account_id code amount w
  = match apply_payment_try host account_id code amount w with
    | (Return message, w') => (Return message, w')
    | (Raise e, w') => apply_payment_except host account_id code amount e w'
    end.
Proof.
  unfold apply_payment, try_except, DEBUG.
  destruct (apply_payment_try host account_id code amount w) as [[message | e] w'].
  - reflexivity.
  - destruct e; reflexivity.
Qed.

(** Whatever happens, [apply_payment] returns: either everything the
    posting needs is there and the ledger is the posted one, or the answer
    is "not found", the ledger is as it was and the alert went out. *)
Lemma apply_payment_outcome (host : env) (account_id code : string) (amount : Float.t)
    (w : world) :
  account_id <> "00000" ->
  exists message w' evs,
    apply_payment host account_id code amount w = (Return message, w')
    /\ journal w' = journal w /\ fields w' = fields w
    /\ trace w' = (trace w ++ evs)%list
    /\ ((exists row place b computer,
           postable host account_id (ledger w) row place b computer
           /\ message = applied_message account_id code
           /\ ledger w' = posted host account_id code amount (sequence w)
                            (location_row_0 place) (Float.sub b amount) computer (ledger w)
           /\ sequence w' = sequence w + 1
           /\ failed_payments w' = failed_payments w
           /\ evs = map Database posting_calls)
        \/ (message = not_found_message account_id code
            /\ ledger w' = ledger w
            /\ evs = (map Database (database_calls evs)
                        ++ [Pushover (AccountNotFound account_id code amount)])%list
            /\ (exists lines,
                  failed_payments w' = (failed_payments w ++ lines)%list
                  /\ (List.length lines <= 1)%nat)
            /\ ~ (exists row place b computer,
                    postable host account_id (ledger w) row place b computer))).
Proof.
  intros real. apply String.eqb_neq in real.
  rewrite apply_payment_unfold.
  destruct w as [led seq jr fp fl tr].
  run_ledger. rewrite real.
  repeat (branch; run_ledger).
  all: rewrite <- ?app_assoc; cbn [app].
  all: eexists; eexists; eexists.
  all: do 4 (split; [reflexivity |]).
  all: try solve
         [ right; do 3 (split; [reflexivity |]);
           split; [| not_postable];
           first [ exists []; rewrite app_nil_r; split; [reflexivity | simpl; lia]
                 | eexists; split; [reflexivity | simpl; lia] ] ].
  left. eexists; eexists; eexists; eexists.
  split; [constructor; [eassumption .. | intros []; assumption] |].
  repeat split.
Qed.

Lemma messages_differ (account_id code : string) :
  applied_message account_id code <> not_found_message account_id code.
Proof. unfold applied_message, not_found_message. simpl. discriminate. Qed.

Lemma no_copy_in_database_calls (calls : list db_step) :
  clipboard_copies (map Database calls) = [] /\ gateway_calls (map Database calls) = []
  /\ alerts (map Database calls) = [] /\ database_calls (map Database calls) = calls.
Proof.
  induction calls as [| s calls (c & g & a & d)]; [repeat split |].
  repeat split; try assumption.
  change (s :: database_calls (map Database calls) = s :: calls).
  now rewrite d.
Qed.

(** C5. For the sentinel account the poster returns at once: the answer is
    the success text ending in the authorization code it was given, and the
    world is exactly as before, so no connection, query, insert or update
    was made. *)
Theorem apply_payment_sentinel (host : env) (code : string) (amount : Float.t) (w : world) :
  apply_payment host "00000" code amount w = (Return (exempt_message code), w)
  /\ exempt_message code = "Payment successful." ++ nl ++ "Reference: " ++ code
  /\ Text.contains code (exempt_message code) = true
  /\ database_calls (trace (run (apply_payment host "00000" code amount) w))
     = database_calls (trace w)
  /\ ledger (run (apply_payment host "00000" code amount) w) = ledger w.
Proof.
  repeat split.
  pose proof (contains_append code ("Payment successful." ++ nl ++ "Reference: ") "") as H.
  rewrite append_empty in H. exact H.
Qed.





(** C1. A posting to a real account is all or nothing: afterwards the
    ledger is either exactly as it was, or it has the group header, the
    detail row, the new balance and the audit note together. If any
    database call raises, or the answer is "not found", it is as it was. *)
Theorem apply_payment_atomic (host : env) (account_id code : string) (amount : Float.t)
    (w : world) :
  account_id <> "00000" ->
  let w' := run (apply_payment host account_id code amount) w in
  (ledger w' = ledger w
   \/ exists row place b computer,
        postable host account_id (ledger w) row place b computer
        /\ ledger w' = posted host account_id code amount (sequence w)
                         (location_row_0 place) (Float.sub b amount) computer (ledger w))
  /\ ((exists s e, database_fault host s = Some e) -> ledger w' = ledger w)
  /\ (fst (apply_payment host account_id code amount w)
      = Return (not_found_message account_id code) -> ledger w' = ledger w).
Proof.
  intros real w'.
  destruct (apply_payment_outcome host account_id code amount w real)
    as (message & w2 & evs & run_eq & _ & _ & _ & [posting | missing]).
  - destruct posting as (row & place & b & computer & P & -> & led & _).
    subst w'. unfold run. rewrite run_eq. cbn [fst snd].
    split; [right; exists row, place, b, computer; auto |].
    split.
    + intros (s & e & fault). rewrite (postable_clean _ _ _ _ _ _ _ P) in fault.
      discriminate.
    + intros clash. exfalso. apply (messages_differ account_id code). congruence.
  - destruct missing as (_ & same & _).
    subst w'. unfold run. rewrite run_eq. cbn [fst snd]. auto.
Qed.

(** The balance update raises after both rows were inserted: nothing of the
    attempt is in the ledger. *)
Lemma apply_payment_atomic_witness :
  ledger (run (apply_payment
                 (Scenario.shop (Scenario.approve "AUTH1") (Scenario.fault_at StepUpdateBalance))
                 "12345" "AUTH1" (nearest_dollars 5000))
              (Scenario.till "12345 Smith" "$50.00"))
  = Scenario.shop_ledger.
Proof.
  assert ("12345" <> "00000") as real by discriminate.
  pose proof (apply_payment_atomic
                (Scenario.shop (Scenario.approve "AUTH1") (Scenario.fault_at StepUpdateBalance))
                "12345" "AUTH1" (nearest_dollars 5000) (Scenario.till "12345 Smith" "$50.00")
                real) as (_ & untouched & _).
  apply untouched. exists StepUpdateBalance, DatabaseError. reflexivity.
Defined.

(** ** Payment Orchestrator *)

Lemma truediv_in_range (cents : Z) :
  0 <= cents <= 300000 -> exists dollars, Float.truediv cents 100 = inr dollars.
Proof.
  intros range. unfold Float.truediv. simpl (100 =? 0).
  assert (300000 < Float.overflow_threshold * Z.abs 100) as far by (vm_compute; reflexivity).
  destruct (Z.leb_spec (Float.overflow_threshold * Z.abs 100) (Z.abs cents)) as [over |].
  - rewrite Z.abs_eq in over by lia. lia.
  - eexists. reflexivity.
Qed.

(** An approved payment: the journal row, the posting, the clipboard rule,
    the log entry, the cleared inputs and the closing dialog. *)
Lemma process_payment_approved (host : env) (w : world) (cents : Z)
    (request : payment_request) (p : payment) (dollars : Float.t) :
  amount_cents (fields w) = inr cents ->
  (300000 <? cents) = false ->
  payment_request_of (fields w) cents = inr request ->
  gateway host request = Reply p ->
  paymentStatus p = "APPROVED" ->
  Float.truediv cents 100 = inr dollars ->
  forall (message : string) (w2 : world),
    apply_payment host (Text.first_field " " (customerInput (fields w))) (authCode p) dollars
      {| ledger := ledger w; sequence := sequence w;
         journal := journal w
                      ++ [journal_entry host (fields w) "APPROVED" (Some (authCode p))];
         failed_payments := failed_payments w; fields := fields w;
         trace := trace w ++ [PaymentCreate request;
                              ReportEvent Information (ProcessedPayment p)] |}
    = (Return message, w2) ->
    process_payment host w
    = (Return tt,
       {| ledger := ledger w2; sequence := sequence w2; journal := journal w2;
          failed_payments := failed_payments w2;
          fields :=
            {| customerInput := ""; amountInput := "$"; cardNumberInput := "";
               cardExpiryInput := ""; cardCVCInput := "";
               cardNumberStyle := ""; cardNumberToolTip := cardNumberToolTip (fields w2);
               customerStyle := ""; processButton := processButton (fields w2) |};
          trace := trace w2
                     ++ (if Text.contains "applied to account" message
                         then [] else [Clipboard (authCode p)])
                     ++ [ReportEvent Information (AppliedPayment message);
                         MessageBox message None] |}).
Proof.
  intros amount ceiling req reply approved conv message w2 posting.
  destruct w as [led seq jr fp fl tr].
  cbn [ledger sequence journal failed_payments fields trace] in *.
  run_till. rewrite amount, ceiling, req, reply, approved, String.eqb_refl, conv.
  run_till. rewrite <- ?app_assoc. cbn [app]. rewrite posting.
  destruct w2 as [led2 seq2 jr2 fp2 fl2 tr2].
  destruct (Text.contains "applied to account" message); run_till;
    rewrite <- ?app_assoc; cbn [app]; reflexivity.
Qed.


(** *** The phrase the clipboard rule looks for *)

Lemma phrase_in_applied (account_id code : string) :
  Text.contains "applied to account" (applied_message account_id code) = true.
Proof.
  exact (contains_append "applied to account" "Payment successful and "
           (" " ++ account_id ++ "." ++ nl ++ "Reference: " ++ code)).
Qed.

Lemma phrase_in_exempt (code : string) :
  Text.contains "applied to account" (exempt_message code)
  = Text.contains "applied to account" code.
Proof. reflexivity. Qed.

Lemma first_field_idempotent (sep : ascii) (s : string) :
  Text.first_field sep (Text.first_field sep s) = Text.first_field sep s.
Proof.
  induction s as [| a s IH]; simpl; [reflexivity |].
  destruct (Ascii.eqb a sep) eqn:E; simpl; [reflexivity |].
  rewrite E, IH. reflexivity.
Qed.

Lemma first_field_whole (sep a : ascii) (s : string) :
  Text.first_field sep (String a s) = String a s ->
  a <> sep /\ Text.first_field sep s = s.
Proof.
  simpl. destruct (Ascii.eqb_spec a sep) as [-> | different]; [discriminate |].
  intros [= whole]. auto.
Qed.

(** A word without blanks followed by " not found..." does not start the
    phrase: the phrase has its first blank after "applied", and what
    follows that blank is "to", not "not". *)
Lemma phrase_not_at_word (word rest : string) :
  Text.first_field " " word = word ->
  String.prefix "applied to account" (word ++ String " " (String "n" rest)) = false.
Proof.
  intros whole.
  do 8 (destruct word as [| ? word];
        [ cbn [String.prefix append];
          repeat (match goal with
                  | |- context [ascii_dec ?x ?y] => destruct (ascii_dec x y)
                  end; try reflexivity; try discriminate)
        | apply first_field_whole in whole as [? whole] ]).
  cbn [String.prefix append].
  repeat (match goal with
          | |- context [ascii_dec ?x ?y] => destruct (ascii_dec x y)
          end; try reflexivity; try congruence).
Qed.

Lemma phrase_skips_word (word rest : string) :
  Text.first_field " " word = word ->
  Text.contains "applied to account" (word ++ String " " (String "n" rest))
  = Text.contains "applied to account" (String " " (String "n" rest)).
Proof.
  induction word as [| a word IH]; intros whole; [reflexivity |].
  pose proof (phrase_not_at_word (String a word) rest whole) as miss.
  apply first_field_whole in whole as [_ whole].
  cbn [append Text.contains] in *. rewrite miss, (IH whole). reflexivity.
Qed.

Lemma phrase_in_not_found (account_id code : string) :
  Text.first_field " " account_id = account_id ->
  Text.contains "applied to account" (not_found_message account_id code)
  = Text.contains "applied to account" code.
Proof.
  intros whole. unfold not_found_message.
  change (Text.contains "applied to account"
            ("Payment successful, but account "
               ++ account_id ++ String " " (String "n" ("ot found." ++ nl ++ "Reference: " ++ code)))
          = Text.contains "applied to account" code).
  transitivity (Text.contains "applied to account"
                  (account_id ++ String " " (String "n" ("ot found." ++ nl ++ "Reference: " ++ code)))).
  - reflexivity.
  - rewrite (phrase_skips_word account_id _ whole). reflexivity.
Qed.

(** *** An approved payment, end to end *)

Lemma posted_differs (host : env) (account_id code : string) (amount : Float.t)
    (key place : Z) (b : Float.t) (computer : string) (t : tables) :
  posted host account_id code amount key place b computer t <> t.
Proof.
  intros same. apply (f_equal transactiongroup) in same. cbn in same.
  apply (f_equal (@List.length _)) in same. rewrite length_app in same.
  simpl in same. lia.
Qed.

(** What an approved payment does, in terms of what the poster answered:
    [w2] is the world the poster left and [evs2] the calls it made. *)
Lemma approved_run (host : env) (w : world) (cents : Z)
    (request : payment_request) (p : payment) :
  amount_cents (fields w) = inr cents ->
  0 <= cents <= 300000 ->
  payment_request_of (fields w) cents = inr request ->
  gateway host request = Reply p ->
  paymentStatus p = "APPROVED" ->
  let account_id := Text.first_field " " (customerInput (fields w)) in
  exists dollars message w2 evs2,
    Float.truediv cents 100 = inr dollars
    /\ process_payment host w
       = (Return tt,
          {| ledger := ledger w2; sequence := sequence w2; journal := journal w2;
             failed_payments := failed_payments w2;
             fields :=
               {| customerInput := ""; amountInput := "$"; cardNumberInput := "";
                  cardExpiryInput := ""; cardCVCInput := "";
                  cardNumberStyle := ""; cardNumberToolTip := cardNumberToolTip (fields w2);
                  customerStyle := ""; processButton := processButton (fields w2) |};
             trace := trace w2
                        ++ (if Text.contains "applied to account" message
                            then [] else [Clipboard (authCode p)])
                        ++ [ReportEvent Information (AppliedPayment message);
                            MessageBox message None] |})
    /\ journal w2
       = (journal w ++ [journal_entry host (fields w) "APPROVED" (Some (authCode p))])%list
    /\ trace w2
       = (trace w ++ [PaymentCreate request; ReportEvent Information (ProcessedPayment p)]
            ++ evs2)%list
    /\ (account_id = "00000"
        /\ message = exempt_message (authCode p)
        /\ ledger w2 = ledger w /\ evs2 = []
        /\ failed_payments w2 = failed_payments w
        \/ account_id <> "00000"
           /\ (exists row place b computer,
                 postable host account_id (ledger w) row place b computer
                 /\ message = applied_message account_id (authCode p)
                 /\ ledger w2 = posted host account_id (authCode p) dollars (sequence w)
                                  (location_row_0 place) (Float.sub b dollars) computer
                                  (ledger w)
                 /\ failed_payments w2 = failed_payments w
                 /\ evs2 = map Database posting_calls)
        \/ account_id <> "00000"
           /\ message = not_found_message account_id (authCode p)
           /\ ledger w2 = ledger w
           /\ evs2 = (map Database (database_calls evs2)
                        ++ [Pushover (AccountNotFound account_id (authCode p) dollars)])%list
           /\ (exists lines,
                 failed_payments w2 = (failed_payments w ++ lines)%list
                 /\ (List.length lines <= 1)%nat)
           /\ ~ (exists row place b computer,
                   postable host account_id (ledger w) row place b computer)).
Proof.
  intros amount range req reply approved account_id.
  destruct (truediv_in_range cents range) as [dollars conv].
  assert ((300000 <? cents) = false) as ceiling by (apply Z.ltb_ge; lia).
  pose proof (process_payment_approved host w cents request p dollars
                amount ceiling req reply approved conv) as finish.
  fold account_id in finish.
  set (w1 := {| ledger := ledger w; sequence := sequence w;
                journal := journal w
                             ++ [journal_entry host (fields w) "APPROVED" (Some (authCode p))];
                failed_payments := failed_payments w; fields := fields w;
                trace := trace w ++ [PaymentCreate request;
                                     ReportEvent Information (ProcessedPayment p)] |}) in *.
  exists dollars.
  destruct (string_dec account_id "00000") as [sentinel | real].
  - exists (exempt_message (authCode p)), w1, [].
    split; [exact conv |].
    split; [apply finish; rewrite sentinel; apply sentinel_is_exempt |].
    split; [reflexivity |].
    split; [now rewrite app_nil_r |].
    left. repeat split. exact sentinel.
  - destruct (apply_payment_outcome host account_id (authCode p) dollars w1 real)
      as (message & w2 & evs2 & run_eq & jr & _ & tr & outcome).
    exists message, w2, evs2.
    split; [exact conv |].
    split; [apply finish; exact run_eq |].
    split; [exact jr |].
    split; [rewrite tr; unfold w1; cbn [trace]; now rewrite <- app_assoc |].
    right. destruct outcome as [posting | missing].
    + left. split; [exact real |].
      destruct posting as (row & place & b & computer & P & msg & led & _ & fp & shape).
      exists row, place, b, computer. auto.
    + right. split; [exact real |].
      destruct missing as (msg & led & shape & lines & none). auto.
Qed.

Lemma copies_app (t u : list event) :
  clipboard_copies (t ++ u) = (clipboard_copies t ++ clipboard_copies u)%list.
Proof. apply flat_map_app. Qed.

Lemma exempt_is_not_applied (account_id code : string) :
  exempt_message code <> applied_message account_id code.
Proof. unfold exempt_message, applied_message. simpl. discriminate. Qed.

Lemma truediv_below_ceiling (cents : Z) :
  - (Float.overflow_threshold * 100) < cents <= 300000 ->
  exists dollars, Float.truediv cents 100 = inr dollars.
Proof.
  intros range. unfold Float.truediv. simpl (100 =? 0).
  assert (300000 < Float.overflow_threshold * Z.abs 100) as far by (vm_compute; reflexivity).
  change (Z.abs 100) with 100 in *.
  destruct (Z.leb_spec (Float.overflow_threshold * 100) (Z.abs cents)) as [over |].
  - lia.
  - eexists. reflexivity.
Qed.

(** C8, as the code has it. For an approved payment whose amount in
    dollars fits a float, when the event log, the journal, the alert
    channel, the failure log and the clipboard accept what they are
    handed: the authorization code goes to the clipboard exactly when the
    poster's message lacks "applied to account". The message is the
    "applied" one exactly when the ledger changed, and then nothing is
    copied; when the ledger did not change (no such account, failed
    posting, sentinel) the code is copied if the code itself does not
    contain the phrase, and nothing is copied if it does. *)
Theorem clipboard_follows_message (host : env) (io_fault : io_call -> option exn)
    (w : world) (cents : Z) (request : payment_request) (p : payment) :
  (forall c, io_fault c = None) ->
  amount_cents (fields w) = inr cents ->
  - (Float.overflow_threshold * 100) < cents <= 300000 ->
  payment_request_of (fields w) cents = inr request ->
  gateway host request = Reply p ->
  paymentStatus p = "APPROVED" ->
  let account_id := Text.first_field " " (customerInput (fields w)) in
  let w' := run (IO.process_payment host io_fault) w in
  exists message evs,
    trace w' = (trace w ++ evs ++ [ReportEvent Information (AppliedPayment message);
                                   MessageBox message None])%list
    /\ clipboard_copies evs
       = (if Text.contains "applied to account" message then [] else [authCode p])
    /\ (message = applied_message account_id (authCode p) <-> ledger w' <> ledger w)
    /\ (ledger w' <> ledger w -> clipboard_copies evs = [])
    /\ (ledger w' = ledger w ->
        clipboard_copies evs
        = if Text.contains "applied to account" (authCode p) then [] else [authCode p]).
Proof.
  intros accepts amount range req reply approved account_id w'.
  subst w'. unfold run. rewrite (process_payment_agrees host io_fault w accepts).
  destruct (truediv_below_ceiling cents range) as [dollars conv].
  assert ((300000 <? cents) = false) as ceiling by (apply Z.ltb_ge; lia).
  pose proof (process_payment_approved host w cents request p dollars
                amount ceiling req reply approved conv) as finish.
  fold account_id in finish.
  set (w1 := {| ledger := ledger w; sequence := sequence w;
                journal := journal w
                             ++ [journal_entry host (fields w) "APPROVED" (Some (authCode p))];
                failed_payments := failed_payments w; fields := fields w;
                trace := trace w ++ [PaymentCreate request;
                                     ReportEvent Information (ProcessedPayment p)] |}) in *.
  assert (exists message w2 evs2,
             apply_payment host account_id (authCode p) dollars w1 = (Return message, w2)
             /\ trace w2 = (trace w1 ++ evs2)%list
             /\ clipboard_copies evs2 = []
             /\ (message = exempt_message (authCode p) /\ ledger w2 = ledger w
                 \/ message = applied_message account_id (authCode p)
                    /\ ledger w2 <> ledger w
                 \/ message = not_found_message account_id (authCode p)
                    /\ ledger w2 = ledger w))
    as (message & w2 & evs2 & posting & tr & quiet & outcome).
  { destruct (string_dec account_id "00000") as [sentinel | real].
    - exists (exempt_message (authCode p)), w1, [].
      split; [rewrite sentinel; apply sentinel_is_exempt |].
      split; [now rewrite app_nil_r |]. split; [reflexivity |]. now left.
    - destruct (apply_payment_outcome host account_id (authCode p) dollars w1 real)
        as (message & w2 & evs2 & run_eq & _ & _ & tr & [applied | missing]).
      + destruct applied as (row & place & b & computer & _ & -> & led & _ & _ & ->).
        eexists; exists w2; eexists.
        split; [exact run_eq |]. split; [exact tr |].
        split; [apply no_copy_in_database_calls |].
        right. left. split; [reflexivity |]. rewrite led. apply posted_differs.
      + destruct missing as (-> & led & shape & _).
        eexists; exists w2, evs2.
        split; [exact run_eq |]. split; [exact tr |].
        split; [| right; right; split; [reflexivity | exact led]].
        rewrite shape, copies_app.
        rewrite (proj1 (no_copy_in_database_calls _)). reflexivity. }
  rewrite (finish _ _ posting). cbn [snd ledger trace].
  exists message.
  exists ([PaymentCreate request; ReportEvent Information (ProcessedPayment p)] ++ evs2
            ++ (if Text.contains "applied to account" message
                then [] else [Clipboard (authCode p)]))%list.
  assert (copies : clipboard_copies
                     ([PaymentCreate request; ReportEvent Information (ProcessedPayment p)]
                        ++ evs2
                        ++ (if Text.contains "applied to account" message
                            then [] else [Clipboard (authCode p)]))%list
                   = if Text.contains "applied to account" message
                     then [] else [authCode p]).
  { rewrite !copies_app, quiet.
    destruct (Text.contains "applied to account" message); reflexivity. }
  split; [rewrite tr; unfold w1; cbn [trace]; rewrite <- !app_assoc; reflexivity |].
  split; [exact copies |].
  rewrite copies.
  destruct outcome as [(-> & led) | [(-> & led) | (-> & led)]].
  - rewrite phrase_in_exempt. repeat split.
    + intros clash. now apply exempt_is_not_applied in clash.
    + intros changed. now contradiction changed.
    + intros changed. now contradiction changed.
  - rewrite phrase_in_applied. repeat split.
    + intros _. exact led.
    + intros same. now contradiction led.
  - rewrite phrase_in_not_found by apply first_field_idempotent. repeat split.
    + intros clash. symmetry in clash. now apply messages_differ in clash.
    + intros changed. now contradiction changed.
    + intros changed. now contradiction changed.
Qed.

(** Account 99999 is not on file: the reference is on the clipboard. *)
Lemma clipboard_follows_message_witness :
  clipboard_copies
    (trace (run (IO.process_payment
                   (Scenario.shop (Scenario.approve "AUTH1") Scenario.no_fault) IO.no_fault)
                (Scenario.till "99999 Smith" "$50.00")))
  = ["AUTH1"].
Proof.
  destruct (clipboard_follows_message
              (Scenario.shop (Scenario.approve "AUTH1") Scenario.no_fault) IO.no_fault
              (Scenario.till "99999 Smith" "$50.00") 5000
              {| card_number := "4532015112830366"; card_expMonth := "12";
                 card_expYear := "27"; card_cvc := "123";
                 order_customerName := "99999 Smith"; request_amount := 5000;
                 request_description := "99999 Smith"; request_currency := "AUD" |}
              {| paymentStatus := "APPROVED"; declineReason := ""; authCode := "AUTH1" |})
    as (message & evs & tr & _ & _ & _ & copied).
  - reflexivity.
  - reflexivity.
  - split; [reflexivity | lia].
  - reflexivity.
  - reflexivity.
  - reflexivity.
  - rewrite tr, !copies_app, copied; reflexivity.
Defined.

(** C8 as claimed fails: account 99999 is not on file, the poster answers
    "not found" and the ledger is as it was, but the authorization code the
    gateway gave contains "applied to account", so the message contains it
    too and nothing is copied. *)
Lemma not_found_reference_not_copied :
  let host := Scenario.shop (Scenario.approve "ref applied to account 7") Scenario.no_fault in
  let w := Scenario.till "99999 Smith" "$50.00" in
  let w' := run (IO.process_payment host IO.no_fault) w in
  In (MessageBox (not_found_message "99999" "ref applied to account 7") None) (trace w')
  /\ alerts (trace w')
     = [AccountNotFound "99999" "ref applied to account 7" (nearest_dollars 5000)]
  /\ ledger w' = ledger w
  /\ clipboard_copies (trace w') = [].
Proof.
  cbv zeta. split; [| split; [vm_compute; reflexivity | split; reflexivity]].
  vm_compute. do 6 right. now left.
Qed.

Lemma calls_app (t u : list event) :
  database_calls (t ++ u) = (database_calls t ++ database_calls u)%list.
Proof. apply flat_map_app. Qed.




(** *** The balance the ledger gets *)

Lemma find_set_balance (a : Z) (b : Float.t) (rows : list account_row) (row : account_row) :
  find (fun r => acct r =? a) rows = Some row ->
  find (fun r => acct r =? a) (set_balance a b rows)
  = Some {| acct := acct row; account_row_0 := account_row_0 row; balance := Some b |}.
Proof.
  induction rows as [| r rows IH]; simpl; [discriminate |].
  destruct (acct r =? a) eqn:hit; simpl.
  - intros [= ->]. rewrite hit. reflexivity.
  - rewrite hit. exact IH.
Qed.

Lemma request_carries_cents (f : form) (cents : Z) (request : payment_request) :
  payment_request_of f cents = inr request ->
  request_amount request = cents /\ request_currency request = "AUD".
Proof.
  unfold payment_request_of.
  destruct (Text.second_field "/" (cardExpiryInput f)); [| discriminate].
  intros [= <-]. split; reflexivity.
Qed.

Lemma gateway_calls_app (t u : list event) :
  gateway_calls (t ++ u) = (gateway_calls t ++ gateway_calls u)%list.
Proof. apply flat_map_app. Qed.

(** C4, as the code has it. The gateway is given the amount in cents. The
    ledger is given dollars: the one binary64 quotient cents / 100. The new
    balance, in the group header, the detail row and the account, is the
    binary64 difference of the balance read and that quotient. *)
Theorem posting_balance_is_float_difference (host : env) (w : world) (cents : Z)
    (request : payment_request) (p : payment)
    (row : account_row) (place : location_row) (b : Float.t) (computer : string) :
  amount_cents (fields w) = inr cents ->
  0 <= cents <= 300000 ->
  payment_request_of (fields w) cents = inr request ->
  gateway host request = Reply p ->
  paymentStatus p = "APPROVED" ->
  let account_id := Text.first_field " " (customerInput (fields w)) in
  account_id <> "00000" ->
  postable host account_id (ledger w) row place b computer ->
  let w' := run (process_payment host) w in
  exists dollars,
    Float.truediv cents 100 = inr dollars
    /\ gateway_calls (trace w') = (gateway_calls (trace w) ++ [request])%list
    /\ request_amount request = cents
    /\ ledger w' = posted host account_id (authCode p) dollars (sequence w)
                     (location_row_0 place) (Float.sub b dollars) computer (ledger w)
    /\ find (fun r => acct r =? Text.digits_value account_id) (account (ledger w'))
       = Some {| acct := acct row; account_row_0 := account_row_0 row;
                 balance := Some (Float.sub b dollars) |}.
Proof.
  intros amount range req reply approved account_id real P w'.
  destruct (approved_run host w cents request p amount range req reply approved)
    as (dollars & message & w2 & evs2 & conv & run_eq & _ & tr & outcome).
  fold account_id in outcome.
  exists dollars. split; [exact conv |].
  subst w'. unfold run. rewrite run_eq. cbn [snd ledger trace].
  destruct outcome as [(sentinel & _) | [(_ & posting) | (_ & _ & _ & _ & _ & none)]].
  - now contradiction real.
  - destruct posting as (row' & place' & b' & computer' & P' & -> & led & _ & ->).
    destruct P as [num found bal loc comp clean].
    destruct P' as [_ found' bal' loc' comp' _].
    assert (row' = row) as -> by congruence.
    assert (b' = b) as -> by congruence.
    assert (place' = place) as -> by congruence.
    assert (computer' = computer) as -> by congruence.
    split.
    { rewrite tr, !gateway_calls_app.
      rewrite (proj1 (proj2 (no_copy_in_database_calls posting_calls))).
      rewrite phrase_in_applied. rewrite <- app_assoc. reflexivity. }
    split; [apply (request_carries_cents _ _ _ req) |].
    split; [exact led |].
    rewrite led. cbn [posted account]. apply find_set_balance. exact found.
  - contradiction none. exists row, place, b, computer. exact P.
Qed.

(** Account 12345 owes 100.00 and pays 50.00: the balance becomes the
    float 50.0. *)
Lemma posting_balance_is_float_difference_witness :
  option_map balance
    (find (fun r => acct r =? 12345)
       (account (ledger (run (process_payment
                                (Scenario.shop (Scenario.approve "AUTH1") Scenario.no_fault))
                             (Scenario.till "12345 Smith" "$50.00")))))
  = Some (Some (nearest_dollars 5000)).
Proof.
  assert (postable (Scenario.shop (Scenario.approve "AUTH1") Scenario.no_fault) "12345"
            Scenario.shop_ledger
            {| acct := 12345; account_row_0 := 12345; balance := Some (nearest_dollars 10000) |}
            {| location_account := 12345; location_row_0 := 5608 |}
            (nearest_dollars 10000) "FRONTDESK") as P.
  { constructor; try reflexivity. }
  assert ("12345" <> "00000") as real by discriminate.
  destruct (posting_balance_is_float_difference
              (Scenario.shop (Scenario.approve "AUTH1") Scenario.no_fault)
              (Scenario.till "12345 Smith" "$50.00") 5000
              {| card_number := "4532015112830366"; card_expMonth := "12";
                 card_expYear := "27"; card_cvc := "123";
                 order_customerName := "12345 Smith"; request_amount := 5000;
                 request_description := "12345 Smith"; request_currency := "AUD" |}
              {| paymentStatus := "APPROVED"; declineReason := ""; authCode := "AUTH1" |}
              _ _ _ _
              eq_refl ltac:(lia) eq_refl eq_refl eq_refl real P)
    as (dollars & conv & _ & _ & _ & found).
  vm_compute in conv. injection conv as <-.
  apply (f_equal (option_map balance)) in found. exact found.
Defined.

(** C4 as claimed fails: account 20002 owes 0.30 and pays 0.10. The exact
    difference is 0.20, which reads as the float [nearest_dollars 20],
    7205759403792794 * 2^-55; the balance written is the float below it,
    0.19999999999999998. *)
Lemma ledger_balance_not_decimal :
  let host := Scenario.shop (Scenario.approve "AUTH1") Scenario.no_fault in
  let w := Scenario.till "20002 - A" "$0.10" in
  let balance_of (t : tables) :=
    option_map balance (find (fun r => acct r =? 20002) (account t)) in
  balance_of (ledger w) = Some (Some (nearest_dollars 30))
  /\ amount_cents (fields w) = inr 10
  /\ balance_of (ledger (run (process_payment host) w))
     = Some (Some (S754_finite false 7205759403792793 (-55)))
  /\ balance_of (ledger (run (process_payment host) w))
     <> Some (Some (nearest_dollars (30 - 10))).
Proof.
  cbv zeta. split; [reflexivity |]. split; [reflexivity |].
  split; [vm_compute; reflexivity |].
  vm_compute. discriminate.
Qed.

(** *** Every path of a submit action *)

Lemma truediv_by_100 (cents : Z) :
  (Z.abs cents < Float.overflow_threshold * 100 ->
   exists dollars, Float.truediv cents 100 = inr dollars)
  /\ (forall e, Float.truediv cents 100 = inl e ->
      e = OverflowError /\ Float.overflow_threshold * 100 <= Z.abs cents).
Proof.
  unfold Float.truediv. simpl (100 =? 0). simpl (Z.abs 100).
  destruct (Z.leb_spec (Float.overflow_threshold * 100) (Z.abs cents)) as [over | under].
  - split; [lia |]. intros e [= <-]. auto.
  - split; [eexists; reflexivity | discriminate].
Qed.

Lemma amount_cents_errors (f : form) (e : exn) :
  amount_cents f = inl e ->
  e = InvalidOperation \/ e = Overflow \/ e = OverflowError \/ e = ValueError.
Proof.
  unfold amount_cents, Decimal.of_string, Decimal.mul_int, Decimal.fix_context,
    Decimal.to_int.
  repeat (branch; try discriminate); intros [= <-]; auto.
Qed.

Lemma payment_request_errors (f : form) (cents : Z) (e : exn) :
  payment_request_of f cents = inl e -> e = IndexError.
Proof.
  unfold payment_request_of.
  destruct (Text.second_field "/" (cardExpiryInput f)); [discriminate |].
  now intros [= <-].
Qed.

(** The poster leaves the journal and the inputs alone, calls neither the
    gateway nor the clipboard, and writes at most one failure line. *)
Lemma apply_payment_frame (host : env) (account_id code : string) (amount : Float.t)
    (w : world) :
  exists message w' evs lines,
    apply_payment host account_id code amount w = (Return message, w')
    /\ journal w' = journal w /\ fields w' = fields w
    /\ trace w' = (trace w ++ evs)%list
    /\ gateway_calls evs = [] /\ clipboard_copies evs = []
    /\ failed_payments w' = (failed_payments w ++ lines)%list
    /\ (List.length lines <= 1)%nat.
Proof.
  destruct (string_dec account_id "00000") as [-> | real].
  - exists (exempt_message code), w, [], [].
    rewrite sentinel_is_exempt, !app_nil_r. repeat split. simpl. lia.
  - destruct (apply_payment_outcome host account_id code amount w real)
      as (message & w' & evs & run_eq & jr & fl & tr & [posting | missing]).
    + destruct posting as (? & ? & ? & ? & _ & _ & _ & _ & fp & ->).
      exists message, w', (map Database posting_calls), [].
      rewrite app_nil_r. repeat split; try assumption. simpl. lia.
    + destruct missing as (_ & _ & shape & (lines & fp & short) & _).
      exists message, w', evs, lines.
      repeat split; try assumption; rewrite shape.
      * rewrite gateway_calls_app.
        rewrite (proj1 (proj2 (no_copy_in_database_calls _))). reflexivity.
      * rewrite copies_app.
        rewrite (proj1 (no_copy_in_database_calls _)). reflexivity.
Qed.

Lemma on_approved_frame (host : env) (f : form) (p : payment) (cents : Z) (w : world) :
  exists r w' evs lines,
    on_approved host f p cents w = (r, w')
    /\ journal w'
       = (journal w ++ [journal_entry host f "APPROVED" (Some (authCode p))])%list
    /\ trace w' = (trace w ++ evs)%list /\ gateway_calls evs = []
    /\ failed_payments w' = (failed_payments w ++ lines)%list
    /\ ((exists message, r = Return (Some message)) \/ r = Raise OverflowError).
Proof.
  destruct w as [led seq jr fp fl tr].
  unfold on_approved.
  cbv [bind writerow lift ret raise ledger sequence journal failed_payments fields trace].
  destruct (Float.truediv cents 100) as [e | dollars] eqn:conv.
  - apply truediv_by_100 in conv as [-> _].
    eexists; eexists; exists [], [].
    split; [reflexivity |]. rewrite !app_nil_r. repeat split. now right.
  - match goal with
    | |- context [apply_payment ?h ?a ?c ?d ?w1] =>
        destruct (apply_payment_frame h a c d w1)
          as (message & w2 & evs & lines & run_eq & jr2 & _ & tr2 & quiet & _ & fp2 & _)
    end.
    rewrite run_eq. destruct w2 as [led2 seq2 jr' fp' fl' tr'].
    cbn [journal trace failed_payments] in jr2, tr2, fp2. subst jr' tr' fp'.
    destruct (Text.contains "applied to account" message);
      run_outer; rewrite <- ?app_assoc; cbn [app].
    all: eexists; eexists; eexists; exists lines.
    all: split; [reflexivity |].
    all: split; [reflexivity |].
    all: split; [reflexivity |].
    all: rewrite gateway_calls_app, quiet.
    all: repeat split; left; eexists; reflexivity.
Qed.

Lemma invalid_card_text :
  dict_get response_codes "INVALID_CARD_NUMBER" = Some (classify "INVALID_CARD_NUMBER").
Proof. vm_compute. reflexivity. Qed.

Lemma process_payment_paths (host : env) (w : world) :
  let f := fields w in
  let failure e := {| fl_time := now host; fl_user := get_display_name host 3; fl_error := e |} in
  let w' := run (process_payment host) w in
  exists rows lines evs,
    journal w' = (journal w ++ rows)%list
    /\ failed_payments w' = (failed_payments w ++ lines)%list
    /\ trace w' = (trace w ++ evs)%list
    /\ match amount_cents f with
       | inl e => rows = [] /\ lines = [failure e] /\ gateway_calls evs = []
       | inr cents =>
           if 300000 <? cents then
             gateway_calls evs = []
             /\ match Float.truediv cents 100 with
                | inr dollars =>
                    rows = [journal_entry host f "DECLINED" None] /\ lines = []
                    /\ alerts evs = [ExcessiveAmount dollars]
                | inl e =>
                    rows = [] /\ lines = [failure e] /\ alerts evs = [PaymentFailed e]
                end
           else
             match payment_request_of f cents with
             | inl e => rows = [] /\ lines = [failure e] /\ gateway_calls evs = []
             | inr request =>
                 gateway_calls evs = [request]
                 /\ match gateway host request with
                    | Fault (BadRequestError m) =>
                        rows = [journal_entry host f
                                  ("DECLINED - " ++ classify "INVALID_CARD_NUMBER") None]
                        /\ lines = []
                    | Fault e => rows = [] /\ lines = [failure e]
                    | Reply p =>
                        if String.eqb (paymentStatus p) "APPROVED" then
                          rows = [journal_entry host f "APPROVED" (Some (authCode p))]
                        else if String.eqb (paymentStatus p) "DECLINED" then
                          match dict_get response_codes (declineReason p) with
                          | Some text =>
                              rows = [journal_entry host f ("DECLINED - " ++ text) None]
                              /\ lines = []
                          | None =>
                              rows = [journal_entry host f "unknown" None] /\ lines = []
                          end
                        else rows = [journal_entry host f "unknown" None] /\ lines = []
                    end
             end
       end.
Proof.
  destruct w as [led seq jr fp fl tr].
  cbv zeta. cbn [fields journal failed_payments trace].
  run_outer.
  destruct (amount_cents fl) as [e | cents] eqn:amount; run_outer.
  { destruct (amount_cents_errors _ _ amount) as [-> | [-> | [-> | ->]]]; run_outer.
    all: eexists; eexists; eexists; rewrite <- ?app_assoc; cbn [app].
    all: split; [symmetry; apply app_nil_r |].
    all: repeat split. }
  destruct (300000 <? cents) eqn:ceiling; run_outer.
  { destruct (Float.truediv cents 100) as [e | dollars] eqn:conv; run_outer.
    - apply truediv_by_100 in conv as [-> _]. run_outer.
      eexists; eexists; eexists; rewrite <- ?app_assoc; cbn [app].
      split; [symmetry; apply app_nil_r |]. repeat split.
    - eexists; eexists; eexists; rewrite <- ?app_assoc; cbn [app].
      split; [reflexivity |]. split; [symmetry; apply app_nil_r |]. repeat split. }
  destruct (payment_request_of fl cents) as [e | request] eqn:req; run_outer.
  { apply payment_request_errors in req as ->. run_outer.
    eexists; eexists; eexists; rewrite <- ?app_assoc; cbn [app].
    split; [symmetry; apply app_nil_r |]. repeat split. }
  destruct (gateway host request) as [p | e] eqn:reply; run_outer.
  2: { destruct e; run_outer; rewrite ?invalid_card_text; run_outer.
       all: eexists; eexists; eexists; rewrite <- ?app_assoc; cbn [app].
       all: first [ split; [symmetry; apply app_nil_r |]; repeat split; fail
                  | split; [reflexivity |];
                    split; [symmetry; apply app_nil_r |]; repeat split ]. }
  destruct (String.eqb (paymentStatus p) "APPROVED") eqn:approved; run_outer.
  { match goal with
    | |- context [on_approved ?h ?f ?p ?c ?w1] =>
        destruct (on_approved_frame h f p c w1)
          as (r & w2 & evs & lines & run_eq & jr2 & tr2 & quiet & fp2 & shape)
    end.
    rewrite run_eq. destruct w2 as [led2 seq2 jr' fp' fl' tr'].
    cbn [journal trace failed_payments] in jr2, tr2, fp2. subst jr' tr' fp'.
    destruct shape as [[message ->] | ->]; run_outer.
    all: eexists; eexists; eexists; rewrite <- ?app_assoc; cbn [app].
    all: split; [reflexivity |].
    all: split; [reflexivity |].
    all: split; [reflexivity |].
    all: unfold gateway_calls in *; cbn [flat_map app];
      rewrite ?flat_map_app, quiet; repeat split. }
  destruct (String.eqb (paymentStatus p) "DECLINED") eqn:declined; run_outer.
  { destruct (dict_get response_codes (declineReason p)) as [text |]; run_outer.
    all: eexists; eexists; eexists; rewrite <- ?app_assoc; cbn [app].
    all: split; [reflexivity |].
    all: split; [symmetry; apply app_nil_r |]; repeat split. }
  eexists; eexists; eexists; rewrite <- ?app_assoc; cbn [app].
  split; [reflexivity |].
  split; [symmetry; apply app_nil_r |]; repeat split.
Qed.

(** The ceiling itself: above it, and short of amounts whose dollar value
    no float holds, the payment is turned away before the gateway, with a
    DECLINED row and the alert; at or below it the gateway is called with
    the amount in cents. *)
Lemma amount_ceiling_boundary (host : env) (w : world) (cents : Z) :
  amount_cents (fields w) = inr cents ->
  let w' := run (process_payment host) w in
  (300000 < cents < Float.overflow_threshold * 100 ->
   exists evs dollars,
     trace w' = (trace w ++ evs)%list /\ gateway_calls evs = []
     /\ alerts evs = [ExcessiveAmount dollars]
     /\ journal w' = (journal w ++ [journal_entry host (fields w) "DECLINED" None])%list)
  /\ (cents <= 300000 ->
      forall request, payment_request_of (fields w) cents = inr request ->
      exists evs,
        trace w' = (trace w ++ evs)%list /\ gateway_calls evs = [request]
        /\ request_amount request = cents).
Proof.
  intros amount w'.
  destruct (process_payment_paths host w) as (rows & lines & evs & jr & _ & tr & paths).
  fold w' in jr, tr. rewrite amount in paths.
  split.
  - intros [over finite].
    apply Z.ltb_lt in over. rewrite over in paths.
    destruct (proj1 (truediv_by_100 cents)) as [dollars conv];
      [apply Z.ltb_lt in over; rewrite Z.abs_eq; lia |].
    rewrite conv in paths. destruct paths as (quiet & -> & _ & alert).
    exists evs, dollars. auto.
  - intros under request req.
    apply Z.ltb_ge in under. rewrite under, req in paths.
    destruct paths as (called & _).
    exists evs. split; [exact tr |]. split; [exact called |].
    apply (request_carries_cents _ _ _ req).
Qed.

(** C2 at an amount no float holds: 1e400 dollars is over the ceiling, yet
    no DECLINED row is written and the alert that goes out is the generic
    one. Forming the text of the warning divides the cents by 100 as a
    float, which raises, and the catch-all clause takes over. The gateway
    is not called. *)
Theorem excessive_amount_overflow :
  let host := Scenario.shop (Scenario.approve "AUTH1") Scenario.no_fault in
  let w := Scenario.till "12345 Smith" "$1e400" in
  let w' := run (process_payment host) w in
  amount_cents (fields w) = inr (10 ^ 402)
  /\ 300000 < 10 ^ 402
  /\ journal w' = journal w
  /\ gateway_calls (trace w') = []
  /\ alerts (trace w') = [PaymentFailed OverflowError]
  /\ failed_payments w'
     = [{| fl_time := now host; fl_user := get_display_name host 3; fl_error := OverflowError |}].
Proof.
  cbv zeta. split; [vm_compute; reflexivity |]. split; [reflexivity |].
  repeat split; vm_compute; reflexivity.
Qed.

(** C6, as the code has it. When the event log, the alert channel, the
    clipboard and the two files accept what they are handed, a submit
    action appends at most one journal row, made of the customer cell, the
    amount as typed, an outcome, the clock reading, and the authorization
    code only under APPROVED. It appends exactly one when the amount is
    over the ceiling (and its dollar value fits a float), when the gateway
    answers with any status, and when the gateway rejects the request as
    bad. When no row is appended, one line goes to the failure log
    instead: that is what happens when the amount, typed in ASCII, cannot
    be read and when the gateway call fails otherwise. *)
Theorem process_payment_journal (host : env) (io_fault : io_call -> option exn)
    (w : world) :
  (forall c, io_fault c = None) ->
  let f := fields w in
  let w' := run (IO.process_payment host io_fault) w in
  exists rows,
    journal w' = (journal w ++ rows)%list
    /\ ((exists outcome code,
           rows = [journal_entry host f outcome code]
           /\ (code = None \/ outcome = "APPROVED"))
        \/ rows = []
           /\ exists e,
                failed_payments w'
                = (failed_payments w
                     ++ [{| fl_time := now host; fl_user := get_display_name host 3;
                            fl_error := e |}])%list)
    /\ (forall cents, amount_cents f = inr cents ->
        300000 < cents < Float.overflow_threshold * 100 ->
        rows = [journal_entry host f "DECLINED" None])
    /\ (forall cents request, amount_cents f = inr cents -> cents <= 300000 ->
        payment_request_of f cents = inr request ->
        match gateway host request with
        | Reply p =>
            rows = [journal_entry host f
                      (if String.eqb (paymentStatus p) "APPROVED" then "APPROVED"
                       else if String.eqb (paymentStatus p) "DECLINED" then
                              match dict_get response_codes (declineReason p) with
                              | Some text => "DECLINED - " ++ text
                              | None => "unknown"
                              end
                            else "unknown")
                      (if String.eqb (paymentStatus p) "APPROVED"
                       then Some (authCode p) else None)]
        | Fault (BadRequestError _) =>
            rows = [journal_entry host f
                      ("DECLINED - " ++ classify "INVALID_CARD_NUMBER") None]
        | Fault _ => rows = []
        end)
    /\ (forall e, Text.is_ascii (amountInput f) = true ->
        amount_cents f = inl e -> rows = []).
Proof.
  intros accepts. cbv zeta. unfold run.
  rewrite (process_payment_agrees host io_fault w accepts). fold (run (process_payment host) w).
  destruct (process_payment_paths host w) as (rows & lines & evs & jr & fp & _ & paths).
  exists rows. split; [exact jr |].
  rewrite fp. clear jr fp.
  destruct (amount_cents (fields w)) as [e | cents] eqn:amount.
  { destruct paths as (-> & -> & _).
    split; [right; split; [reflexivity | exists e; reflexivity] |].
    split; [discriminate |]. split; [discriminate |]. reflexivity. }
  destruct (300000 <? cents) eqn:ceiling.
  { apply Z.ltb_lt in ceiling. destruct paths as (_ & paths).
    destruct (Float.truediv cents 100) as [e | dollars] eqn:conv.
    - destruct paths as (-> & -> & _).
      split; [right; split; [reflexivity | exists e; reflexivity] |].
      split.
      + intros c [= <-] [_ finite].
        apply truediv_by_100 in conv as [_ over].
        rewrite Z.abs_eq in over by lia. lia.
      + split; [intros c request [= <-] under; lia | discriminate].
    - destruct paths as (-> & _).
      split; [left; eexists; eexists; split; [reflexivity | now left] |].
      split; [reflexivity |].
      split; [intros c request [= <-] under; lia | discriminate]. }
  apply Z.ltb_ge in ceiling.
  destruct (payment_request_of (fields w) cents) as [e | request] eqn:req.
  { destruct paths as (-> & -> & _).
    split; [right; split; [reflexivity | exists e; reflexivity] |].
    split; [intros c [= <-] [over _]; lia |].
    split; [intros c request [= <-] _ clash; rewrite req in clash; discriminate
           | discriminate]. }
  destruct paths as (_ & paths).
  destruct (gateway host request) as [p | e] eqn:reply.
  - destruct (String.eqb (paymentStatus p) "APPROVED") eqn:approved.
    { subst rows.
      split; [left; eexists; eexists; split; [reflexivity | now right] |].
      split; [intros c [= <-] [over _]; lia |].
      split; [| discriminate].
      intros c r [= <-] _ same. rewrite req in same. injection same as <-.
      rewrite reply, approved. reflexivity. }
    destruct (String.eqb (paymentStatus p) "DECLINED") eqn:declined.
    { destruct (dict_get response_codes (declineReason p)) as [text |] eqn:known;
        destruct paths as (-> & _).
      all: split; [left; eexists; eexists; split; [reflexivity | now left] |].
      all: split; [intros c [= <-] [over _]; lia |].
      all: split; [| discriminate].
      all: intros c r [= <-] _ same; rewrite req in same; injection same as <-.
      all: rewrite reply, approved, declined, known; reflexivity. }
    destruct paths as (-> & _).
    split; [left; eexists; eexists; split; [reflexivity | now left] |].
    split; [intros c [= <-] [over _]; lia |].
    split; [| discriminate].
    intros c r [= <-] _ same. rewrite req in same. injection same as <-.
    rewrite reply, approved, declined. reflexivity.
  - destruct e; destruct paths as (-> & ->).
    all: split;
      [ first [ left; eexists; eexists; split; [reflexivity | now left]
              | right; split; [reflexivity | eexists; reflexivity] ] |].
    all: split; [intros c [= <-] [over _]; lia |].
    all: split; [| discriminate].
    all: intros c r [= <-] _ same; rewrite req in same; injection same as <-.
    all: rewrite reply; reflexivity.
Qed.

(** A declined payment, and a gateway that cannot be reached. *)
Lemma process_payment_journal_witness :
  map jr_outcome
    (journal (run (IO.process_payment
                     (Scenario.shop (Scenario.decline "INSUFFICIENT_FUNDS") Scenario.no_fault)
                     IO.no_fault)
                  (Scenario.till "12345 Smith" "$50.00")))
  = ["DECLINED - " ++ classify "INSUFFICIENT_FUNDS"].
Proof.
  destruct (process_payment_journal
              (Scenario.shop (Scenario.decline "INSUFFICIENT_FUNDS") Scenario.no_fault)
              IO.no_fault
              (Scenario.till "12345 Smith" "$50.00")
              (fun c => eq_refl))
    as (rows & jr & _ & _ & replied & _).
  rewrite jr.
  rewrite (replied 5000
             {| card_number := "4532015112830366"; card_expMonth := "12";
                card_expYear := "27"; card_cvc := "123";
                order_customerName := "12345 Smith"; request_amount := 5000;
                request_description := "12345 Smith"; request_currency := "AUD" |}
             eq_refl ltac:(lia) eq_refl).
  reflexivity.
Defined.

(** C6 as claimed fails: the gateway call raises a connection error, and
    the attempt leaves no journal row; it is in the failure log only. No
    call on the event log, the alert channel or a file fails here. *)
Lemma gateway_fault_not_journaled :
  let host := Scenario.shop Scenario.unreachable Scenario.no_fault in
  let w := Scenario.till "12345 Smith" "$50.00" in
  let w' := run (IO.process_payment host IO.no_fault) w in
  gateway_calls (trace w')
  = [{| card_number := "4532015112830366"; card_expMonth := "12";
        card_expYear := "27"; card_cvc := "123";
        order_customerName := "12345 Smith"; request_amount := 5000;
        request_description := "12345 Smith"; request_currency := "AUD" |}]
  /\ journal w' = journal w
  /\ ~ (exists row, journal w' = (journal w ++ [row])%list)
  /\ failed_payments w'
     = [{| fl_time := now host; fl_user := get_display_name host 3;
           fl_error := OtherError "ConnectionError" |}].
Proof.
  cbv zeta. split; [reflexivity |]. split; [reflexivity |].
  split; [| reflexivity].
  intros [row clash]. vm_compute in clash. discriminate.
Qed.

(** And when a call on the outside fails: the amount is over the ceiling
    and the alert request raises. The request comes before the journal
    write, so no row is written; the catch-all clause sends the alert
    again, and what that raises leaves [process_payment] with no dialog
    shown. *)
Example alert_failure_loses_journal_row :
  let host := Scenario.shop (Scenario.approve "AUTH1") Scenario.no_fault in
  let w := Scenario.till "12345 Smith" "$3000.01" in
  let outcome := IO.process_payment host (IO.fault_at AlertPost (OtherError "ConnectionError")) w in
  amount_cents (fields w) = inr 300001
  /\ fst outcome = Raise (OtherError "ConnectionError")
  /\ journal (snd outcome) = []
  /\ failed_payments (snd outcome) = []
  /\ message_boxes (trace (snd outcome)) = [].
Proof. cbv zeta. split; [vm_compute; reflexivity | repeat split]. Qed.

(** ** The end-to-end scenarios of the specification *)

(** 5000 cents for "12345 Smith", approved as AUTH1: one APPROVED row in
    the journal, balance 100.00 becomes 50.00, one group header, one detail
    row and one note are committed, nothing goes to the clipboard. *)
Example scenario_applied :
  let w' := run (process_payment (Scenario.shop (Scenario.approve "AUTH1") Scenario.no_fault))
                (Scenario.till "12345 Smith" "$50.00") in
  map (fun r => (jr_outcome r, jr_authCode r)) (journal w') = [("APPROVED", Some "AUTH1")]
  /\ map request_amount (gateway_calls (trace w')) = [5000]
  /\ option_map balance (find (fun r => acct r =? 12345) (account (ledger w')))
     = Some (Some (nearest_dollars 5000))
  /\ map tg_transaction_group (transactiongroup (ledger w')) = [7001]
  /\ map tx_transaction_group (transaction (ledger w')) = [7001]
  /\ map tn_note (transactiongroupnote (ledger w'))
     = ["Payment applied by Trent Buckley on FRONTDESK"]
  /\ clipboard_copies (trace w') = [].
Proof. cbv zeta. repeat split; vm_compute; reflexivity. Qed.

(** The same for account 99999, which is not on file: the alert goes out,
    the operator reads "not found", the reference is on the clipboard. *)
Example scenario_account_not_found :
  let w' := run (process_payment (Scenario.shop (Scenario.approve "AUTH1") Scenario.no_fault))
                (Scenario.till "99999 Smith" "$50.00") in
  alerts (trace w') = [AccountNotFound "99999" "AUTH1" (nearest_dollars 5000)]
  /\ In (MessageBox (not_found_message "99999" "AUTH1") None) (trace w')
  /\ ledger w' = Scenario.shop_ledger
  /\ clipboard_copies (trace w') = ["AUTH1"].
Proof.
  cbv zeta. split; [vm_compute; reflexivity |]. split; [| split; reflexivity].
  vm_compute. do 7 right. now left.
Qed.

(** Declined for insufficient funds: the journal outcome is the fixed text
    of the table and the database is not touched. *)
Example scenario_declined :
  let w' := run (process_payment
                   (Scenario.shop (Scenario.decline "INSUFFICIENT_FUNDS") Scenario.no_fault))
                (Scenario.till "12345 Smith" "$50.00") in
  map jr_outcome (journal w') = ["DECLINED - " ++ classify "INSUFFICIENT_FUNDS"]
  /\ database_calls (trace w') = []
  /\ ledger w' = Scenario.shop_ledger.
Proof. cbv zeta. repeat split. Qed.

(** * Further properties of the code *)

(** ** [check_card]: what the checksum catches *)

Section LuhnErrors.

Import Luhn.

Lemma remove_char_append (c : ascii) (s t : string) :
  Text.remove_char c (s ++ t) = Text.remove_char c s ++ Text.remove_char c t.
Proof.
  induction s as [| a s IH]; simpl; [reflexivity |].
  destruct (Ascii.eqb a c); simpl; now rewrite IH.
Qed.

Lemma all_digits_append (s t : string) :
  Text.all_digits (s ++ t) = (Text.all_digits s && Text.all_digits t)%bool.
Proof.
  induction s as [| a s IH]; simpl; [reflexivity |].
  rewrite IH. now rewrite andb_assoc.
Qed.

Lemma digit_values_append (s t : string) :
  digit_values (s ++ t) = (digit_values s ++ digit_values t)%list.
Proof. induction s as [| a s IH]; simpl; [reflexivity | now rewrite IH]. Qed.

Lemma length_append (s t : string) :
  String.length (s ++ t) = (String.length s + String.length t)%nat.
Proof. induction s as [| a s IH]; simpl; [reflexivity | now rewrite IH]. Qed.

Lemma digit_is_not_blank (c : ascii) :
  Text.is_digit c = true -> Ascii.eqb c " " = false.
Proof.
  intros digit. destruct (Ascii.eqb_spec c " ") as [-> |]; [discriminate | reflexivity].
Qed.

Lemma luhn_sum_split (front back : list Z) (odd : bool) :
  luhn_sum_spec_from odd (front ++ back)
  = luhn_sum_spec_from odd front
    + luhn_sum_spec_from (xorb odd (Nat.odd (List.length front))) back.
Proof.
  revert odd. induction front as [| d front IH]; intros odd.
  - simpl. now rewrite xorb_false_r.
  - cbn [app luhn_sum_spec_from List.length]. rewrite IH, Nat.odd_succ, <- Nat.negb_odd.
    replace (xorb (negb odd) (Nat.odd (List.length front)))
      with (xorb odd (negb (Nat.odd (List.length front))))
      by (destruct odd, (Nat.odd (List.length front)); reflexivity).
    lia.
Qed.

(** The sum of a number with one digit singled out. *)
Lemma luhn_sum_around (before after : list Z) (d : Z) :
  luhn_sum_spec (before ++ d :: after)
  = luhn_sum_spec_from false (rev after)
    + share (Nat.odd (List.length after)) d
    + luhn_sum_spec_from (negb (Nat.odd (List.length after))) (rev before).
Proof.
  unfold luhn_sum_spec. rewrite rev_app_distr. cbn [rev].
  rewrite <- app_assoc. cbn [app].
  rewrite luhn_sum_split, length_rev. cbn [luhn_sum_spec_from xorb share].
  unfold share. lia.
Qed.

Lemma share_range (odd : bool) (d : Z) : 0 <= d <= 9 -> 0 <= share odd d <= 9.
Proof.
  intros range. unfold share. destruct odd; [| exact range].
  destruct (Z.ltb_spec 9 (2 * d)); lia.
Qed.

Lemma share_injective (odd : bool) (d d' : Z) :
  0 <= d <= 9 -> 0 <= d' <= 9 -> share odd d = share odd d' -> d = d'.
Proof.
  intros range range'. unfold share. destruct odd; [| auto].
  destruct (Z.ltb_spec 9 (2 * d)), (Z.ltb_spec 9 (2 * d')); lia.
Qed.

Lemma same_residue (low high x y : Z) :
  0 <= x <= 9 -> 0 <= y <= 9 ->
  (low + x + high) mod 10 = 0 -> (low + y + high) mod 10 = 0 -> x = y.
Proof.
  intros rx ry hx hy.
  apply Z.mod_divide in hx, hy; try lia.
  destruct hx as [p hp], hy as [q hq]. lia.
Qed.

Lemma digit_value_of (c : ascii) :
  Text.is_digit c = true -> 0 <= Z.of_nat (nat_of_ascii c) - 48 <= 9.
Proof.
  intros digit. apply (digit_value_range c).
  unfold Text.digit_value. now rewrite digit.
Qed.

Lemma digit_value_injective (c c' : ascii) :
  Z.of_nat (nat_of_ascii c) - 48 = Z.of_nat (nat_of_ascii c') - 48 -> c = c'.
Proof.
  intros same. rewrite <- (ascii_nat_embedding c), <- (ascii_nat_embedding c').
  f_equal. lia.
Qed.

(** The sum of a number with two neighbouring digits singled out. *)
Lemma luhn_sum_around_pair (before after : list Z) (d1 d2 : Z) :
  luhn_sum_spec (before ++ d1 :: d2 :: after)
  = luhn_sum_spec_from false (rev after)
    + (share (Nat.odd (List.length after)) d2
       + share (negb (Nat.odd (List.length after))) d1)
    + luhn_sum_spec_from (Nat.odd (List.length after)) (rev before).
Proof.
  rewrite luhn_sum_around. cbn [rev List.length].
  rewrite luhn_sum_split, length_rev, Nat.odd_succ, <- Nat.negb_odd.
  cbn [luhn_sum_spec_from xorb]. rewrite negb_involutive.
  unfold share. destruct (Nat.odd (List.length after)); cbn [negb]; lia.
Qed.

Lemma swapped_residue (low high d1 d2 : Z) (odd : bool) :
  0 <= d1 <= 9 -> 0 <= d2 <= 9 ->
  (low + (share odd d2 + share (negb odd) d1) + high) mod 10 = 0 ->
  (low + (share odd d1 + share (negb odd) d2) + high) mod 10 = 0 ->
  d1 = d2 \/ (d1 = 0 /\ d2 = 9) \/ (d1 = 9 /\ d2 = 0).
Proof.
  intros r1 r2 s s'.
  apply Z.mod_divide in s, s'; try lia.
  destruct s as [p hp], s' as [q hq].
  unfold share in *.
  destruct odd; cbn [negb] in *;
    destruct (Z.ltb_spec 9 (2 * d1)), (Z.ltb_spec 9 (2 * d2)); lia.
Qed.

Lemma nought_and_nine_swap (odd : bool) :
  share odd 0 + share (negb odd) 9 = share odd 9 + share (negb odd) 0.
Proof. destruct odd; reflexivity. Qed.

Lemma verdict_passes (card_number : string) :
  verdict card_number = Some true ->
  Text.all_digits (Text.remove_char " " card_number) = true
  /\ String.length (Text.remove_char " " card_number) = 16%nat
  /\ luhn_sum_spec (digit_values (Text.remove_char " " card_number)) mod 10 = 0.
Proof.
  intros passes.
  destruct (Text.all_digits (Text.remove_char " " card_number)) eqn:D.
  - rewrite (verdict_digits card_number D) in passes.
    injection passes as passes. apply andb_true_iff in passes as [S L].
    apply Z.eqb_eq in S. apply Nat.eqb_eq in L. auto.
  - rewrite (verdict_not_digits card_number D) in passes. discriminate.
Qed.

Lemma remove_char_one (c : ascii) (rest : string) :
  Text.remove_char " " (String c rest)
  = if Ascii.eqb c " " then Text.remove_char " " rest
    else String c (Text.remove_char " " rest).
Proof. reflexivity. Qed.

End LuhnErrors.

(** X1. One mistyped digit is always caught: if a card number passes and
    any one of its characters is replaced by a different digit, the result
    is found invalid and the process button is switched off. *)
Theorem one_wrong_digit_is_caught
    (before after : string) (typed wrong : ascii) :
  Text.is_digit wrong = true -> typed <> wrong ->
  Luhn.verdict (before ++ String typed after) = Some true ->
  Luhn.verdict (before ++ String wrong after) = Some false
  /\ forall (host : env) (w : world),
       processButton
         (fields (run (check_card host (before ++ String wrong after)) w))
       = false.
Proof.
  intros digit differs passes.
  assert (caught : Luhn.verdict (before ++ String wrong after) = Some false).
  { apply verdict_passes in passes as (D & L & S).
    rewrite remove_char_append, remove_char_one in D, L, S.
    assert (D' : Text.all_digits
                   (Text.remove_char " " (before ++ String wrong after)) = true).
    { rewrite remove_char_append, remove_char_one, (digit_is_not_blank _ digit).
      rewrite all_digits_append in *. apply andb_true_iff in D as [Db Da].
      rewrite Db. cbn [andb Text.all_digits]. rewrite digit. cbn [andb].
      destruct (Ascii.eqb typed " "); [exact Da |].
      cbn [Text.all_digits] in Da. now apply andb_true_iff in Da. }
    rewrite (verdict_digits _ D'). f_equal.
    rewrite remove_char_append, remove_char_one, (digit_is_not_blank _ digit).
    destruct (Ascii.eqb typed " ").
    - rewrite length_append in *. cbn [String.length].
      replace (Nat.eqb _ 16) with false; [apply andb_false_r |].
      symmetry. apply Nat.eqb_neq. lia.
    - rewrite all_digits_append in D. apply andb_true_iff in D as [Db Da].
      cbn [Text.all_digits] in Da. apply andb_true_iff in Da as [Dt Da].
      rewrite digit_values_append in *. cbn [Luhn.digit_values] in *.
      rewrite luhn_sum_around in *.
      apply andb_false_iff. left. apply Z.eqb_neq. intros S'.
      apply differs, digit_value_injective.
      apply (share_injective
               (Nat.odd (List.length
                           (Luhn.digit_values (Text.remove_char " " after))))).
      + now apply digit_value_of.
      + now apply digit_value_of.
      + eapply same_residue; [| | exact S | exact S'];
          apply share_range; now apply digit_value_of. }
  split; [exact caught |].
  intros host w. unfold run, check_card, try_except. rewrite caught. reflexivity.
Qed.

(** The test number with its last digit, a middle digit and a blank
    overtyped. *)
Lemma one_wrong_digit_is_caught_witness :
  Luhn.verdict "4532 0151 1283 0367" = Some false
  /\ Luhn.verdict "4532 0751 1283 0366" = Some false
  /\ Luhn.verdict "453210151 1283 0366" = Some false.
Proof.
  split; [| split].
  - refine (proj1 (one_wrong_digit_is_caught "4532 0151 1283 036" "" "6" "7" _ _ _));
      [reflexivity | discriminate | reflexivity].
  - refine (proj1 (one_wrong_digit_is_caught "4532 0" "51 1283 0366" "1" "7" _ _ _));
      [reflexivity | discriminate | reflexivity].
  - refine (proj1 (one_wrong_digit_is_caught "4532" "0151 1283 0366" " " "1" _ _ _));
      [reflexivity | discriminate | reflexivity].
Defined.

(** X2. Two neighbouring digits typed in the wrong order are caught, unless
    they are equal or are 0 and 9: if a card number passes, the number with
    the two digits exchanged is found invalid. *)
Theorem swapped_digits_are_caught
    (before after : string) (first second : ascii) :
  Text.is_digit first = true -> Text.is_digit second = true ->
  first <> second ->
  ~ (first = "0"%char /\ second = "9"%char) ->
  ~ (first = "9"%char /\ second = "0"%char) ->
  Luhn.verdict (before ++ String first (String second after)) = Some true ->
  Luhn.verdict (before ++ String second (String first after)) = Some false.
Proof.
  intros digit1 digit2 differs not09 not90 passes.
  apply verdict_passes in passes as (D & L & S).
  rewrite remove_char_append, !remove_char_one,
    (digit_is_not_blank _ digit1), (digit_is_not_blank _ digit2) in D, L, S.
  rewrite all_digits_append in D. apply andb_true_iff in D as [Db Da].
  cbn [Text.all_digits] in Da. rewrite digit1, digit2 in Da. cbn [andb] in Da.
  assert (D' : Text.all_digits
                 (Text.remove_char " "
                    (before ++ String second (String first after))) = true).
  { rewrite remove_char_append, !remove_char_one,
      (digit_is_not_blank _ digit1), (digit_is_not_blank _ digit2).
    rewrite all_digits_append, Db. cbn [andb Text.all_digits].
    now rewrite digit1, digit2, Da. }
  rewrite (verdict_digits _ D'). f_equal.
  rewrite remove_char_append, !remove_char_one,
    (digit_is_not_blank _ digit1), (digit_is_not_blank _ digit2).
  rewrite digit_values_append in *. cbn [Luhn.digit_values] in *.
  rewrite luhn_sum_around_pair in *.
  apply andb_false_iff. left. apply Z.eqb_neq. intros S'.
  pose proof (digit_value_of _ digit1) as r1.
  pose proof (digit_value_of _ digit2) as r2.
  destruct (swapped_residue _ _ _ _ _ r1 r2 S S') as [same | [[v1 v2] | [v1 v2]]].
  - now apply differs, digit_value_injective.
  - apply not09. split.
    + apply digit_value_injective. rewrite v1. reflexivity.
    + apply digit_value_injective. rewrite v2. reflexivity.
  - apply not90. split.
    + apply digit_value_injective. rewrite v1. reflexivity.
    + apply digit_value_injective. rewrite v2. reflexivity.
Qed.

(** The test number with 53 typed as 35. *)
Lemma swapped_digits_are_caught_witness :
  Luhn.verdict "4352 0151 1283 0366" = Some false.
Proof.
  apply (swapped_digits_are_caught "4" "2 0151 1283 0366" "5" "3").
  - reflexivity.
  - reflexivity.
  - discriminate.
  - intros [? ?]. discriminate.
  - intros [? ?]. discriminate.
  - reflexivity.
Defined.

(** X3. The checksum cannot tell 09 from 90: exchanging a neighbouring 0
    and 9 in the card field never changes what [check_card] decides. *)
Theorem nought_and_nine_swap_is_missed (before after : string) :
  Luhn.verdict (before ++ String "0" (String "9" after))
  = Luhn.verdict (before ++ String "9" (String "0" after)).
Proof.
  destruct (Text.all_digits
              (Text.remove_char " " (before ++ String "0" (String "9" after))))
    eqn:D.
  - assert (D' : Text.all_digits
                   (Text.remove_char " "
                      (before ++ String "9" (String "0" after))) = true).
    { rewrite remove_char_append, all_digits_append in *. exact D. }
    rewrite (verdict_digits _ D), (verdict_digits _ D').
    rewrite !remove_char_append, !remove_char_one. cbn [Ascii.eqb Bool.eqb].
    rewrite !digit_values_append, !length_append. cbn [Luhn.digit_values String.length].
    rewrite !luhn_sum_around_pair.
    change (Z.of_nat (nat_of_ascii "0") - 48) with 0.
    change (Z.of_nat (nat_of_ascii "9") - 48) with 9.
    rewrite nought_and_nine_swap. reflexivity.
  - assert (D' : Text.all_digits
                   (Text.remove_char " "
                      (before ++ String "9" (String "0" after))) = false).
    { rewrite remove_char_append, all_digits_append in *. exact D. }
    now rewrite (verdict_not_digits _ D), (verdict_not_digits _ D').
Qed.

(** X4. In a card field in ASCII, a character that is neither a digit nor
    a blank makes [check_card] fail without deciding anything: the
    field's style, its tool tip and the process button stay as they were,
    and, when the append to the failure log succeeds, one line naming
    [ValueError] goes to it. So once a valid number has switched the
    button on, a stray character in the field leaves it on. *)
Theorem stray_character_keeps_button
    (host : env) (io_fault : io_call -> option exn) (good bad : string) (w : world) :
  Text.is_ascii bad = true ->
  io_fault FailureLog = None ->
  Luhn.verdict good = Some true ->
  Text.all_digits (Text.remove_char " " bad) = false ->
  let w1 := run (IO.check_card host io_fault good) w in
  let w2 := run (IO.check_card host io_fault bad) w1 in
  IO.check_card host io_fault bad w1 = (Return tt, w2)
  /\ fields w2 = fields w1
  /\ processButton (fields w2) = true
  /\ cardNumberToolTip (fields w2) = "Card is valid"
  /\ failed_payments w2
     = (failed_payments w
          ++ [{| fl_time := now host; fl_user := get_display_name host 3;
                 fl_error := ValueError |}])%list
  /\ ledger w2 = ledger w /\ journal w2 = journal w /\ trace w2 = trace w.
Proof.
  intros _ logs passes stray. apply verdict_not_digits in stray.
  cbv zeta. unfold run. rewrite !(check_card_agrees host io_fault _ _ logs).
  unfold check_card, try_except.
  rewrite passes, stray. destruct w. repeat split.
Qed.

(** A letter typed into the test number. *)
Lemma stray_character_keeps_button_witness :
  processButton
    (fields
       (run (IO.check_card (Scenario.shop Scenario.unreachable Scenario.no_fault)
               IO.no_fault "4532 0151 1283 036x")
          (run (IO.check_card (Scenario.shop Scenario.unreachable Scenario.no_fault)
                  IO.no_fault "4532 0151 1283 0366")
             (Scenario.till "12345" "$10.00"))))
  = true.
Proof.
  destruct (stray_character_keeps_button
              (Scenario.shop Scenario.unreachable Scenario.no_fault) IO.no_fault
              "4532 0151 1283 0366" "4532 0151 1283 036x"
              (Scenario.till "12345" "$10.00"))
    as (_ & _ & button & _).
  - reflexivity.
  - reflexivity.
  - reflexivity.
  - reflexivity.
  - exact button.
Defined.

(** ** [process_payment]: what every run does and never does *)

Lemma boxes_app (t u : list event) :
  message_boxes (t ++ u) = (message_boxes t ++ message_boxes u)%list.
Proof. apply flat_map_app. Qed.

Lemma poster_events_quiet (evs : list event) :
  forallb poster_event evs = true ->
  message_boxes evs = [] /\ clipboard_copies evs = [] /\ gateway_calls evs = [].
Proof.
  induction evs as [| e evs IH]; [repeat split |].
  cbn [forallb]. intros both. apply andb_true_iff in both as [one rest].
  destruct (IH rest) as (b & c & g).
  destruct e; try discriminate; repeat split; assumption.
Qed.

Lemma database_calls_are_poster_events (calls : list db_step) :
  forallb poster_event (map Database calls) = true.
Proof. induction calls; [reflexivity | assumption]. Qed.

(** [apply_payment] talks to the database and the alert channel only. *)
Lemma apply_payment_events (host : env) (account_id code : string) (amount : Float.t)
    (w : world) :
  exists message w' evs,
    apply_payment host account_id code amount w = (Return message, w')
    /\ journal w' = journal w /\ fields w' = fields w
    /\ trace w' = (trace w ++ evs)%list
    /\ forallb poster_event evs = true.
Proof.
  destruct (string_dec account_id "00000") as [-> | real].
  - exists (exempt_message code), w, [].
    rewrite sentinel_is_exempt, !app_nil_r. repeat split.
  - destruct (apply_payment_outcome host account_id code amount w real)
      as (message & w' & evs & run_eq & jr & fl & tr & [posting | missing]).
    + destruct posting as (? & ? & ? & ? & _ & _ & _ & _ & _ & ->).
      exists message, w', (map Database posting_calls). repeat split; assumption.
    + destruct missing as (_ & _ & shape & _).
      exists message, w', evs. repeat split; try assumption.
      rewrite shape, forallb_app, database_calls_are_poster_events. reflexivity.
Qed.

Lemma on_approved_effects (host : env) (f : form) (p : payment) (cents : Z) (w : world) :
  exists r w' evs,
    on_approved host f p cents w = (r, w')
    /\ trace w' = (trace w ++ evs)%list
    /\ message_boxes evs = [] /\ gateway_calls evs = []
    /\ (clipboard_copies evs = [] \/ clipboard_copies evs = [authCode p])
    /\ ((exists message, r = Return (Some message) /\ fields w' = cleared (fields w))
        \/ (r = Raise OverflowError /\ fields w' = fields w /\ untouched w w' evs)).
Proof.
  destruct w as [led seq jr fp fl tr].
  unfold on_approved.
  cbv [bind writerow lift ret raise ledger sequence journal failed_payments fields trace].
  destruct (Float.truediv cents 100) as [e | dollars] eqn:conv.
  - apply truediv_by_100 in conv as [-> _].
    eexists; eexists; exists [].
    split; [reflexivity |]. rewrite !app_nil_r. repeat split; auto.
    right. repeat split.
  - match goal with
    | |- context [apply_payment ?h ?a ?c ?d ?w1] =>
        destruct (apply_payment_events h a c d w1)
          as (message & w2 & evs & run_eq & _ & fl2 & tr2 & quiet)
    end.
    apply poster_events_quiet in quiet as (no_box & no_copy & no_call).
    rewrite run_eq. destruct w2 as [led2 seq2 jr' fp' fl' tr'].
    cbn [fields trace] in fl2, tr2. subst fl' tr'.
    destruct (Text.contains "applied to account" message);
      run_outer; rewrite <- ?app_assoc; cbn [app].
    all: eexists; eexists; eexists.
    all: split; [reflexivity |].
    all: split; [reflexivity |].
    all: rewrite boxes_app, gateway_calls_app, copies_app, no_box, no_copy, no_call.
    all: repeat split; auto.
    all: left; eexists; split; reflexivity.
Qed.

(** Every run of [process_payment], path by path: what reached the
    gateway, and what was left alone. *)
Lemma process_payment_effects (host : env) (w : world) :
  exists w' evs,
    process_payment host w = (Return tt, w')
    /\ trace w' = (trace w ++ evs)%list
    /\ List.length (message_boxes evs) = 1%nat
    /\ ((gateway_calls evs = [] /\ untouched w w' evs /\ fields w' = fields w
         /\ (forall cents request,
               amount_cents (fields w) = inr cents -> cents <= 300000 ->
               payment_request_of (fields w) cents = inr request -> False))
        \/ exists cents request,
             amount_cents (fields w) = inr cents /\ cents <= 300000
             /\ payment_request_of (fields w) cents = inr request
             /\ gateway_calls evs = [request]
             /\ match gateway host request with
                | Reply p =>
                    if String.eqb (paymentStatus p) "APPROVED" then
                      (clipboard_copies evs = [] \/ clipboard_copies evs = [authCode p])
                      /\ (fields w' = cleared (fields w)
                          \/ fields w' = fields w /\ untouched w w' evs)
                    else untouched w w' evs /\ fields w' = fields w
                | Fault UndefinedColumn | Fault ProgrammingError =>
                    untouched w w' evs /\ fields w' = cleared (fields w)
                | Fault _ => untouched w w' evs /\ fields w' = fields w
                end).
Proof.
  destruct w as [led seq jr fp fl tr].
  cbn [fields trace ledger sequence]. unfold untouched. cbn [ledger sequence].
  run_outer.
  destruct (amount_cents fl) as [e | cents] eqn:amount; run_outer.
  { destruct (amount_cents_errors _ _ amount) as [-> | [-> | [-> | ->]]]; run_outer.
    all: eexists; eexists; rewrite <- ?app_assoc; cbn [app].
    all: split; [reflexivity |]. all: split; [reflexivity |].
    all: split; [reflexivity |]. all: left; repeat split; try discriminate. }
  destruct (300000 <? cents) eqn:ceiling; run_outer.
  { apply Z.ltb_lt in ceiling.
    destruct (Float.truediv cents 100) as [e | dollars] eqn:conv; run_outer.
    - apply truediv_by_100 in conv as [-> _]. run_outer.
      eexists; eexists; rewrite <- ?app_assoc; cbn [app].
      split; [reflexivity |]. split; [reflexivity |]. split; [reflexivity |].
      left. repeat split. intros c r [= <-]. lia.
    - eexists; eexists; rewrite <- ?app_assoc; cbn [app].
      split; [reflexivity |]. split; [reflexivity |]. split; [reflexivity |].
      left. repeat split. intros c r [= <-]. lia. }
  apply Z.ltb_ge in ceiling.
  destruct (payment_request_of fl cents) as [e | request] eqn:req; run_outer.
  { apply payment_request_errors in req as E. subst e. run_outer.
    eexists; eexists; rewrite <- ?app_assoc; cbn [app].
    split; [reflexivity |]. split; [reflexivity |]. split; [reflexivity |].
    left. repeat split. intros c r [= <-]. rewrite req. discriminate. }
  destruct (gateway host request) as [p | e] eqn:reply; run_outer.
  2: { destruct e; run_outer; rewrite ?invalid_card_text; run_outer.
       all: eexists; eexists; rewrite <- ?app_assoc; cbn [app].
       all: split; [reflexivity |]. all: split; [reflexivity |].
       all: split; [reflexivity |].
       all: right; exists cents, request; rewrite reply; repeat split; assumption. }
  destruct (String.eqb (paymentStatus p) "APPROVED") eqn:approved; run_outer.
  { match goal with
    | |- context [on_approved ?h ?f ?p ?c ?w1] =>
        destruct (on_approved_effects h f p c w1)
          as (r & w2 & evs & run_eq & tr2 & no_box & no_call & copies & shape)
    end.
    rewrite run_eq. destruct w2 as [led2 seq2 jr' fp' fl' tr'].
    cbn [trace fields ledger sequence] in tr2, shape. subst tr'.
    unfold untouched in shape. cbn [ledger sequence] in shape.
    destruct shape as [(message & -> & ->) | (-> & -> & quiet & no_copy & -> & ->)];
      run_outer.
    all: eexists; eexists; rewrite <- ?app_assoc; cbn [app].
    all: split; [reflexivity |]. all: split; [reflexivity |].
    all: cbn [message_boxes gateway_calls clipboard_copies database_calls flat_map app].
    all: fold (message_boxes evs); fold (gateway_calls evs);
      fold (clipboard_copies evs); fold (database_calls evs).
    all: rewrite ?boxes_app, ?gateway_calls_app, ?copies_app, ?calls_app, ?no_box, ?no_call.
    all: cbn [message_boxes gateway_calls clipboard_copies database_calls flat_map app
                List.length].
    all: split; [reflexivity |].
    all: right; exists cents, request; rewrite reply, approved, ?app_nil_r.
    all: repeat split; auto.
    right. repeat split; assumption. }
  destruct (String.eqb (paymentStatus p) "DECLINED") eqn:declined; run_outer.
  { destruct (dict_get response_codes (declineReason p)) as [text |]; run_outer.
    all: eexists; eexists; rewrite <- ?app_assoc; cbn [app].
    all: split; [reflexivity |]. all: split; [reflexivity |].
    all: split; [reflexivity |].
    all: right; exists cents, request; rewrite reply, approved; repeat split; assumption. }
  eexists; eexists; rewrite <- ?app_assoc; cbn [app].
  split; [reflexivity |]. split; [reflexivity |]. split; [reflexivity |].
  right; exists cents, request; rewrite reply, approved; repeat split; assumption.
Qed.

(** X5. When the event log, the alert channel, the clipboard and the two
    files accept what they are handed, [process_payment] lets no
    exception out and tells the operator exactly once: whatever the form
    holds, whatever the gateway and the database do, the run returns and
    has shown one message box. *)
Theorem process_payment_always_answers (host : env) (io_fault : io_call -> option exn)
    (w : world) :
  (forall c, io_fault c = None) ->
  exists w' evs box,
    IO.process_payment host io_fault w = (Return tt, w')
    /\ trace w' = (trace w ++ evs)%list
    /\ message_boxes evs = [box].
Proof.
  intros accepts. rewrite (process_payment_agrees host io_fault w accepts).
  destruct (process_payment_effects host w) as (w' & evs & run_eq & tr & one & _).
  destruct (message_boxes evs) as [| box [| more others]] eqn:shown; try discriminate.
  exists w', evs, box. auto.
Qed.

(** A gateway that cannot be reached: the operator reads the generic
    error. *)
Lemma process_payment_always_answers_witness :
  exists w' evs box,
    IO.process_payment (Scenario.shop Scenario.unreachable Scenario.no_fault) IO.no_fault
      (Scenario.till "12345 - Jo Bloggs" "$10.00")
    = (Return tt, w')
    /\ trace w' = (trace (Scenario.till "12345 - Jo Bloggs" "$10.00") ++ evs)%list
    /\ message_boxes evs = [box].
Proof.
  apply (process_payment_always_answers
           (Scenario.shop Scenario.unreachable Scenario.no_fault) IO.no_fault
           (Scenario.till "12345 - Jo Bloggs" "$10.00")).
  reflexivity.
Defined.

(** X6. Nothing is posted without an approval: if a run of
    [process_payment] made a database call, changed the committed ledger or
    the key sequence, or put something on the clipboard, then the gateway
    was called once, for at most 300000 cents, and answered APPROVED; what
    is on the clipboard is nothing but that answer's authorization code;
    and the amount charged is the amount of the form when that is typed in
    ASCII. *)
Theorem no_posting_without_approval (host : env) (w : world) (evs : list event) :
  let w' := run (process_payment host) w in
  trace w' = (trace w ++ evs)%list ->
  ledger w' <> ledger w \/ sequence w' <> sequence w
  \/ database_calls evs <> [] \/ clipboard_copies evs <> [] ->
  exists request p,
    gateway_calls evs = [request] /\ request_amount request <= 300000
    /\ gateway host request = Reply p /\ paymentStatus p = "APPROVED"
    /\ (clipboard_copies evs = [] \/ clipboard_copies evs = [authCode p])
    /\ (Text.is_ascii (amountInput (fields w)) = true ->
        amount_cents (fields w) = inr (request_amount request)).
Proof.
  cbv zeta. unfold run.
  destruct (process_payment_effects host w)
    as (w' & evs' & -> & tr & _ & [nothing | charged]).
  all: cbn [snd]; intros same; rewrite tr in same; apply app_inv_head in same;
    subst evs'; intros touched.
  - exfalso. destruct nothing as (_ & (calls & copies & led & seq) & _).
    destruct touched as [t | [t | [t | t]]]; now apply t.
  - destruct charged as (cents & request & amount & ceiling & req & called & shape).
    destruct (request_carries_cents _ _ _ req) as [carried _].
    assert (quiet : untouched w w' evs -> False).
    { intros (calls & copies & led & seq).
      destruct touched as [t | [t | [t | t]]]; now apply t. }
    destruct (gateway host request) as [p | e] eqn:reply.
    + destruct (String.eqb (paymentStatus p) "APPROVED") eqn:approved.
      * apply String.eqb_eq in approved. destruct shape as [copies _].
        exists request, p. rewrite carried.
        repeat (split; [assumption |]). intros _. exact amount.
      * exfalso. now apply quiet.
    + exfalso. destruct e; now apply quiet.
Qed.

(** An approved payment for account 12345 does reach the ledger. *)
Lemma no_posting_without_approval_witness :
  exists request p,
    gateway_calls
      (trace (run (process_payment (Scenario.shop (Scenario.approve "A1B2C3")
                                      Scenario.no_fault))
                (Scenario.till "12345 - Jo Bloggs" "$10.00")))
    = [request]
    /\ request_amount request <= 300000
    /\ Scenario.approve "A1B2C3" request = Reply p
    /\ paymentStatus p = "APPROVED".
Proof.
  destruct (no_posting_without_approval
              (Scenario.shop (Scenario.approve "A1B2C3") Scenario.no_fault)
              (Scenario.till "12345 - Jo Bloggs" "$10.00")
              (trace (run (process_payment (Scenario.shop (Scenario.approve "A1B2C3")
                                              Scenario.no_fault))
                        (Scenario.till "12345 - Jo Bloggs" "$10.00"))))
    as (request & p & called & ceiling & reply & approved & _).
  - reflexivity.
  - right. right. left. vm_compute. discriminate.
  - exists request, p. auto.
Defined.

(** X7. One run of [process_payment] charges at most once and never above
    the ceiling: the gateway is called either not at all or once, and then
    for at most 300000 cents, in AUD, with the card number of the form
    less its blanks, the two sides of the expiry and the customer field as
    name and description; the amount charged is the amount of the form
    when that is typed in ASCII. *)
Theorem gateway_called_at_most_once (host : env) (w : world) :
  let f := fields w in
  exists evs,
    trace (run (process_payment host) w) = (trace w ++ evs)%list
    /\ (gateway_calls evs = []
        \/ exists request,
             gateway_calls evs = [request]
             /\ (Text.is_ascii (amountInput f) = true ->
                 amount_cents f = inr (request_amount request))
             /\ request_amount request <= 300000
             /\ request_currency request = "AUD"
             /\ card_number request = Text.remove_char " " (cardNumberInput f)
             /\ card_expMonth request = Text.first_field "/" (cardExpiryInput f)
             /\ Text.second_field "/" (cardExpiryInput f) = Some (card_expYear request)
             /\ card_cvc request = cardCVCInput f
             /\ order_customerName request = customerInput f
             /\ request_description request = customerInput f).
Proof.
  cbv zeta. unfold run.
  destruct (process_payment_effects host w)
    as (w' & evs & -> & tr & _ & [nothing | charged]); cbn [snd]; exists evs.
  - split; [exact tr |]. left. apply nothing.
  - destruct charged as (cents & request & amount & ceiling & req & called & _).
    split; [exact tr |]. right. exists request.
    unfold payment_request_of in req.
    destruct (Text.second_field "/" (cardExpiryInput (fields w))) as [year |];
      [| discriminate].
    injection req as <-. cbn.
    split; [assumption |]. split; [intros _; assumption |].
    repeat (split; [assumption || reflexivity |]). reflexivity.
Qed.

(** X8. What the operator typed is kept unless the payment went through:
    a run of [process_payment] leaves every field of the form as it was,
    or clears it after a gateway call that was answered APPROVED or that
    raised one of the two database errors the function catches. *)
Theorem inputs_kept_unless_approved (host : env) (w : world) :
  let w' := run (process_payment host) w in
  fields w' = fields w
  \/ fields w' = cleared (fields w)
     /\ exists evs request,
          trace w' = (trace w ++ evs)%list /\ gateway_calls evs = [request]
          /\ ((exists p, gateway host request = Reply p /\ paymentStatus p = "APPROVED")
              \/ gateway host request = Fault UndefinedColumn
              \/ gateway host request = Fault ProgrammingError).
Proof.
  cbv zeta. unfold run.
  destruct (process_payment_effects host w)
    as (w' & evs & -> & tr & _ & [nothing | charged]); cbn [snd].
  - left. apply nothing.
  - destruct charged as (cents & request & _ & _ & _ & called & shape).
    destruct (gateway host request) as [p | e] eqn:reply.
    + destruct (String.eqb (paymentStatus p) "APPROVED") eqn:approved.
      * apply String.eqb_eq in approved.
        destruct shape as [_ [gone | [kept _]]]; [right | now left].
        split; [exact gone |]. exists evs, request. repeat split; try assumption.
        left. now exists p.
      * left. apply shape.
    + destruct e; try (left; apply shape).
      all: right; split; [apply shape |]; exists evs, request; auto.
Qed.

(** ** [apply_payment]: what reaches the database *)

(** X9. An account id in ASCII that is not all digits never reaches a
    query: for every such id other than the sentinel, empty or holding a
    character that is not a digit, [apply_payment] opens the connection
    and does nothing else with the database, sends the account-not-found
    alert and returns the not-found message; the ledger is as before. The
    alert request and the append to the failure log are taken to
    succeed. *)
Theorem unreadable_account_is_never_queried
    (host : env) (io_fault : io_call -> option exn)
    (account_id code : string) (amount : Float.t) (w : world) :
  Text.is_ascii account_id = true ->
  io_fault AlertPost = None ->
  io_fault FailureLog = None ->
  account_id <> "00000" ->
  Text.isnumeric account_id = false ->
  exists w',
    IO.apply_payment host io_fault account_id code amount w
    = (Return (not_found_message account_id code), w')
    /\ trace w'
       = (trace w ++ [Database StepConnect;
                      Pushover (AccountNotFound account_id code amount)])%list
    /\ ledger w' = ledger w /\ sequence w' = sequence w
    /\ journal w' = journal w /\ fields w' = fields w
    /\ failed_payments w'
       = (failed_payments w
            ++ match database_fault host StepConnect with
               | Some e => [{| fl_time := now host; fl_user := get_display_name host 3;
                               fl_error := e |}]
               | None => []
               end)%list.
Proof.
  intros _ posts logs real unreadable. apply String.eqb_neq in real.
  rewrite (apply_payment_agrees host io_fault _ _ _ _ posts logs).
  rewrite apply_payment_unfold. unfold apply_payment_try, DEBUG.
  rewrite real. destruct w as [led seq jr fp fl tr].
  run_ledger. destruct (database_fault host StepConnect) as [e |].
  - eexists. split; [reflexivity |]. cbn.
    rewrite <- app_assoc. repeat split.
  - rewrite unreadable. run_ledger. eexists. split; [reflexivity |]. cbn.
    rewrite <- app_assoc, app_nil_r. repeat split.
Qed.

(** A customer field holding a name only: the id is its first word. *)
Lemma unreadable_account_is_never_queried_witness :
  database_calls
    (trace (run (IO.apply_payment
                   (Scenario.shop (Scenario.approve "A1B2C3") Scenario.no_fault) IO.no_fault
                   (Text.first_field " " "Jo Bloggs") "A1B2C3" (nearest_dollars 1000))
              (Scenario.till "Jo Bloggs" "$10.00")))
  = [StepConnect].
Proof.
  destruct (unreadable_account_is_never_queried
              (Scenario.shop (Scenario.approve "A1B2C3") Scenario.no_fault) IO.no_fault
              (Text.first_field " " "Jo Bloggs") "A1B2C3" (nearest_dollars 1000)
              (Scenario.till "Jo Bloggs" "$10.00"))
    as (w' & run_eq & tr & _).
  - reflexivity.
  - reflexivity.
  - reflexivity.
  - discriminate.
  - reflexivity.
  - unfold run. rewrite run_eq. cbn [snd]. rewrite tr. reflexivity.
Defined.



(** ** The amount field: from text to cents *)

Section Amounts.

Lemma reverse_onto_twice (s a b : string) :
  Text.reverse_onto (Text.reverse_onto s a) b = Text.reverse_onto a (s ++ b).
Proof.
  revert a b. induction s as [| c s IH]; intros a b; [reflexivity |].
  cbn [Text.reverse_onto append]. now rewrite IH.
Qed.

Lemma reverse_involutive (s : string) : Text.reverse (Text.reverse s) = s.
Proof.
  unfold Text.reverse. rewrite reverse_onto_twice. cbn [Text.reverse_onto].
  apply append_empty.
Qed.

Lemma every_append (p : ascii -> bool) (s t : string) :
  every p (s ++ t) = (every p s && every p t)%bool.
Proof.
  induction s as [| a s IH]; [reflexivity |].
  cbn [append every]. now rewrite IH, andb_assoc.
Qed.

Lemma every_reverse_onto (p : ascii -> bool) (s acc : string) :
  every p (Text.reverse_onto s acc) = (every p s && every p acc)%bool.
Proof.
  revert acc. induction s as [| a s IH]; intros acc; [reflexivity |].
  cbn [Text.reverse_onto every]. rewrite IH. cbn [every].
  destruct (p a), (every p s), (every p acc); reflexivity.
Qed.

Lemma every_weaken (p q : ascii -> bool) (s : string) :
  (forall c, p c = true -> q c = true) -> every p s = true -> every q s = true.
Proof.
  intros weaker. induction s as [| a s IH]; [reflexivity |].
  cbn [every]. intros both. apply andb_true_iff in both as [one rest].
  now rewrite (weaker a one), IH.
Qed.

Lemma numeral_char_plain (c : ascii) :
  numeral_char c = true ->
  Decimal.is_space c = false /\ Ascii.eqb c "$" = false /\ Ascii.eqb c "_" = false
  /\ Decimal.lower c = c.
Proof.
  destruct c as [[] [] [] [] [] [] [] []]; intros H;
    try discriminate H; repeat split.
Qed.

Lemma digit_is_numeral_char (c : ascii) :
  Text.is_digit c = true -> numeral_char c = true.
Proof. intros digit. unfold numeral_char. now rewrite digit. Qed.

Lemma lstrip_char_numeral (s : string) :
  every numeral_char s = true -> Text.lstrip_char "$" s = s.
Proof.
  destruct s as [| a s]; [reflexivity |]. cbn [every Text.lstrip_char].
  intros both. apply andb_true_iff in both as [one _].
  now rewrite (proj1 (proj2 (numeral_char_plain a one))).
Qed.

Lemma lstrip_numeral (s : string) :
  every numeral_char s = true -> Decimal.lstrip s = s.
Proof.
  destruct s as [| a s]; [reflexivity |]. cbn [every Decimal.lstrip].
  intros both. apply andb_true_iff in both as [one _].
  now rewrite (proj1 (numeral_char_plain a one)).
Qed.

Lemma strip_dollar (s : string) :
  every numeral_char s = true -> Text.strip_char "$" (String "$" s) = s.
Proof.
  intros plain. unfold Text.strip_char. cbn [Text.lstrip_char Ascii.eqb Bool.eqb].
  rewrite (lstrip_char_numeral s plain).
  rewrite lstrip_char_numeral; [apply reverse_involutive |].
  unfold Text.reverse. now rewrite every_reverse_onto, plain.
Qed.

Lemma strip_numeral (s : string) :
  every numeral_char s = true -> Decimal.strip s = s.
Proof.
  intros plain. unfold Decimal.strip.
  rewrite (lstrip_numeral s plain).
  rewrite lstrip_numeral; [apply reverse_involutive |].
  unfold Text.reverse. now rewrite every_reverse_onto, plain.
Qed.

Lemma remove_underscore_numeral (s : string) :
  every numeral_char s = true -> Text.remove_char "_" s = s.
Proof.
  induction s as [| a s IH]; [reflexivity |]. cbn [every Text.remove_char].
  intros both. apply andb_true_iff in both as [one rest].
  now rewrite (proj1 (proj2 (proj2 (numeral_char_plain a one)))), IH.
Qed.

Lemma lowercase_numeral (s : string) :
  every numeral_char s = true -> Decimal.lowercase s = s.
Proof.
  induction s as [| a s IH]; [reflexivity |]. cbn [every Decimal.lowercase].
  intros both. apply andb_true_iff in both as [one rest].
  now rewrite (proj2 (proj2 (proj2 (numeral_char_plain a one)))), IH.
Qed.

Lemma all_digits_every (s : string) :
  Text.all_digits s = true -> every numeral_char s = true.
Proof.
  induction s as [| a s IH]; [reflexivity |]. cbn [every Text.all_digits].
  intros both. apply andb_true_iff in both as [one rest].
  now rewrite (digit_is_numeral_char a one), IH.
Qed.

Lemma head_is_plain (a : ascii) (rest : string) :
  (Text.is_digit a || Ascii.eqb a ".")%bool = true ->
  Decimal.split_sign (String a rest) = (false, String a rest)
  /\ (String.eqb (String a rest) "inf" || String.eqb (String a rest) "infinity")%bool
     = false
  /\ String.prefix "nan" (String a rest) = false
  /\ String.prefix "snan" (String a rest) = false.
Proof.
  destruct a as [[] [] [] [] [] [] [] []]; intros H;
    try discriminate H; repeat split.
Qed.

Lemma span_digits_all (s : string) :
  Text.all_digits s = true -> Decimal.span_digits s = (s, EmptyString).
Proof.
  induction s as [| a s IH]; [reflexivity |]. cbn [Text.all_digits Decimal.span_digits].
  intros both. apply andb_true_iff in both as [one rest].
  now rewrite one, (IH rest).
Qed.

Lemma span_digits_point (whole after : string) :
  Text.all_digits whole = true ->
  Decimal.span_digits (whole ++ String "." after) = (whole, String "." after).
Proof.
  induction whole as [| a s IH]; [reflexivity |].
  cbn [Text.all_digits Decimal.span_digits append].
  intros both. apply andb_true_iff in both as [one rest].
  now rewrite one, (IH rest).
Qed.

Lemma numeral_plain (negative : bool) (whole frac : string) :
  Text.all_digits whole = true -> Text.all_digits frac = true ->
  every numeral_char (numeral negative whole frac) = true.
Proof.
  intros dw df. unfold numeral.
  rewrite !every_append, (all_digits_every _ dw), (all_digits_every _ df).
  now destruct negative.
Qed.

(** [Decimal(text)] of a plain numeral. *)
Lemma of_string_numeral (negative : bool) (whole frac : string) :
  Text.all_digits whole = true -> Text.all_digits frac = true ->
  (1 <= String.length whole + String.length frac)%nat ->
  Decimal.of_string (numeral negative whole frac)
  = inr (Decimal.Finite negative (Text.digits_value (whole ++ frac))
           (0 - Z.of_nat (String.length frac))).
Proof.
  intros dw df some. unfold Decimal.of_string.
  rewrite (strip_numeral _ (numeral_plain negative whole frac dw df)).
  rewrite (remove_underscore_numeral _ (numeral_plain negative whole frac dw df)).
  assert (plain : every numeral_char (whole ++ "." ++ frac) = true)
    by apply (numeral_plain false whole frac dw df).
  assert (head : exists a rest,
             whole ++ "." ++ frac = String a rest
             /\ (Text.is_digit a || Ascii.eqb a ".")%bool = true).
  { destruct whole as [| a whole']; [now exists "."%char, frac |].
    exists a, (whole' ++ "." ++ frac). split; [reflexivity |].
    cbn [Text.all_digits] in dw. apply andb_true_iff in dw as [-> _]. reflexivity. }
  destruct head as (a & rest & shape & first).
  destruct (head_is_plain a rest first) as (unsigned & not_inf & not_nan & not_snan).
  assert (signed : Decimal.split_sign (numeral negative whole frac)
                   = (negative, whole ++ "." ++ frac)).
  { unfold numeral. destruct negative; [reflexivity |].
    change (Decimal.split_sign (whole ++ "." ++ frac) = (false, whole ++ "." ++ frac)).
    rewrite shape. exact unsigned. }
  rewrite signed, (lowercase_numeral _ plain), shape, not_inf, not_nan, not_snan.
  cbn [andb]. rewrite <- shape.
  change (whole ++ "." ++ frac) with (whole ++ String "." frac).
  rewrite (span_digits_point whole frac dw), (span_digits_all frac df).
  cbn [Decimal.parse_exponent].
  destruct (String.length whole + String.length frac)%nat; [lia | reflexivity].
Qed.

Lemma digits_value_from_bounds (s : string) (acc : Z) :
  Text.all_digits s = true ->
  acc * 10 ^ Z.of_nat (String.length s) <= Text.digits_value_from acc s
  < (acc + 1) * 10 ^ Z.of_nat (String.length s).
Proof.
  revert acc. induction s as [| a s IH]; intros acc.
  - intros _. cbn. lia.
  - cbn [Text.all_digits Text.digits_value_from String.length].
    intros both. apply andb_true_iff in both as [one rest].
    pose proof (digit_value_of a one) as range.
    specialize (IH (10 * acc + (Z.of_nat (nat_of_ascii a) - 48)) rest).
    rewrite Nat2Z.inj_succ, Z.pow_succ_r by lia.
    pose proof (Z.pow_pos_nonneg 10 (Z.of_nat (String.length s))).
    nia.
Qed.

Lemma digits_value_bounds (s : string) :
  Text.all_digits s = true ->
  0 <= Text.digits_value s < 10 ^ Z.of_nat (String.length s).
Proof.
  intros digits. pose proof (digits_value_from_bounds s 0 digits) as bounds.
  unfold Text.digits_value. lia.
Qed.

Lemma digits_fuel_bound (fuel : nat) (k n : Z) :
  1 <= k -> 0 <= n < 10 ^ k -> 1 <= Decimal.digits_fuel fuel n <= k.
Proof.
  revert k n. induction fuel as [| fuel IH]; intros k n positive range.
  - cbn. lia.
  - cbn [Decimal.digits_fuel]. destruct (Z.ltb_spec n 10); [lia |].
    assert (2 <= k).
    { destruct (Z.eq_dec k 1) as [-> |]; [| lia]. change (10 ^ 1) with 10 in range. lia. }
    assert (0 <= n / 10 < 10 ^ (k - 1)).
    { split; [apply Z.div_pos; lia |].
      apply Z.div_lt_upper_bound; [lia |].
      rewrite <- Z.pow_succ_r by lia. replace (Z.succ (k - 1)) with k by lia. lia. }
    specialize (IH (k - 1) (n / 10)). lia.
Qed.

(** [int(Decimal(text) * 100)] of a plain numeral of at most 26 digits. *)
Lemma cents_of_numeral (negative : bool) (whole frac : string) :
  Text.all_digits whole = true -> Text.all_digits frac = true ->
  (1 <= String.length whole + String.length frac <= 26)%nat ->
  match Decimal.of_string (numeral negative whole frac) with
  | inl e => inl e
  | inr amount =>
      match Decimal.mul_int amount 100 with
      | inl e => inl e
      | inr amount => Decimal.to_int amount
      end
  end
  = inr (if negative then - whole_cents whole frac else whole_cents whole frac).
Proof.
  intros dw df [some few].
  rewrite (of_string_numeral negative whole frac dw df some).
  assert (digits : Text.all_digits (whole ++ frac) = true)
    by now rewrite all_digits_append, dw, df.
  pose proof (digits_value_bounds _ digits) as range.
  rewrite length_append in range.
  unfold whole_cents.
  set (c := Text.digits_value (whole ++ frac)) in *.
  set (k := Z.of_nat (String.length frac)).
  assert (0 <= k <= 26) by lia.
  assert (small : 0 <= c * 100 < 10 ^ 28).
  { assert (10 ^ Z.of_nat (String.length whole + String.length frac) <= 10 ^ 26)
      by (apply Z.pow_le_mono_r; lia).
    change (10 ^ 28) with (10 ^ 26 * 100). lia. }
  cbn [Decimal.mul_int]. change (100 <? 0) with false. rewrite xorb_false_r.
  change (Z.abs 100) with 100.
  unfold Decimal.fix_context.
  destruct (Z.eqb_spec (c * 100) 0) as [zero | nonzero].
  - replace (Z.min (Z.max (0 - k) Decimal.Etiny) Decimal.Emax) with (0 - k)
      by (unfold Decimal.Etiny, Decimal.Emin, Decimal.Emax, Decimal.prec; lia).
    cbn [Decimal.to_int]. replace c with 0 by lia.
    destruct (Z.leb_spec 0 (0 - k)); f_equal.
  - pose proof (digits_fuel_bound (Z.to_nat (Z.log2 (c * 100))) 28 (c * 100)
                  ltac:(lia) small) as width.
    fold (Decimal.digits (c * 100)) in width.
    unfold Decimal.Etop, Decimal.Etiny, Decimal.Emin, Decimal.Emax, Decimal.prec.
    destruct (Z.ltb_spec (999999 - 28 + 1) (Decimal.digits (c * 100) + (0 - k) - 28));
      [lia |].
    destruct (Z.ltb_spec (0 - k)
                (Z.max (Decimal.digits (c * 100) + (0 - k) - 28) (-999999 - 28 + 1)));
      [lia |].
    cbn [Decimal.to_int]. f_equal.
    replace (- (0 - k)) with k by lia. rewrite (Z.mul_comm 100 c).
    destruct (Z.leb_spec 0 (0 - k)).
    + replace k with 0 by lia. replace (0 - 0) with 0 by lia.
      rewrite Z.pow_0_r, Z.mul_1_r, Z.div_1_r. reflexivity.
    + reflexivity.
Qed.

(** X11. What is typed is what is charged: an amount field holding a
    dollar sign and a plain numeral of at most 26 digits, with or without a
    decimal point, parses to its value in cents, and what is typed beyond
    the second decimal is dropped, not rounded. *)
Theorem typed_amount_in_cents (f : form) (whole frac : string) :
  Text.all_digits whole = true -> Text.all_digits frac = true ->
  (1 <= String.length whole + String.length frac <= 26)%nat ->
  (amountInput f = "$" ++ whole ++ "." ++ frac ->
   amount_cents f = inr (whole_cents whole frac))
  /\ (amountInput f = "$" ++ whole -> frac = "" ->
      amount_cents f = inr (100 * Text.digits_value whole)).
Proof.
  intros dw df size. split.
  - intros typed. unfold amount_cents. rewrite typed.
    change ("$" ++ whole ++ "." ++ frac) with (String "$" (numeral false whole frac)).
    rewrite (strip_dollar _ (numeral_plain false whole frac dw df)).
    apply (cents_of_numeral false whole frac dw df size).
  - intros typed ->. unfold amount_cents. rewrite typed.
    change ("$" ++ whole) with (String "$" whole).
    rewrite (strip_dollar _ (all_digits_every _ dw)).
    assert (same : Decimal.of_string whole = Decimal.of_string (numeral false whole "")).
    { rewrite (of_string_numeral false whole "" dw eq_refl) by lia.
      cbn [String.length] in size. rewrite Nat.add_0_r in size.
      unfold Decimal.of_string.
      rewrite (strip_numeral _ (all_digits_every _ dw)).
      rewrite (remove_underscore_numeral _ (all_digits_every _ dw)).
      destruct whole as [| a rest]; [cbn in size; lia |].
      assert (first : (Text.is_digit a || Ascii.eqb a ".")%bool = true).
      { cbn [Text.all_digits] in dw. apply andb_true_iff in dw as [-> _]. reflexivity. }
      destruct (head_is_plain a rest first) as (-> & not_inf & not_nan & not_snan).
      rewrite (lowercase_numeral _ (all_digits_every _ dw)), not_inf, not_nan, not_snan.
      cbn [andb]. rewrite (span_digits_all _ dw), append_empty. reflexivity. }
    rewrite same, (cents_of_numeral false whole "" dw eq_refl size).
    unfold whole_cents. rewrite append_empty. cbn [String.length Z.of_nat].
    now rewrite Z.pow_0_r, Z.div_1_r.
Qed.

(** A half cent is dropped; a whole number of dollars needs no point. *)
Lemma typed_amount_in_cents_witness :
  amount_cents (Scenario.entry "12345" "$12.505") = inr 1250
  /\ amount_cents (Scenario.entry "12345" "$12") = inr 1200.
Proof.
  split.
  - destruct (typed_amount_in_cents (Scenario.entry "12345" "$12.505") "12" "505")
      as [dotted _].
    + reflexivity.
    + reflexivity.
    + cbn. lia.
    + apply dotted. reflexivity.
  - destruct (typed_amount_in_cents (Scenario.entry "12345" "$12") "12" "")
      as [_ plain].
    + reflexivity.
    + reflexivity.
    + cbn. lia.
    + apply plain; reflexivity.
Defined.

Lemma whole_cents_nonnegative (whole frac : string) :
  Text.all_digits whole = true -> Text.all_digits frac = true ->
  0 <= whole_cents whole frac.
Proof.
  intros dw df. unfold whole_cents.
  assert (digits : Text.all_digits (whole ++ frac) = true)
    by now rewrite all_digits_append, dw, df.
  pose proof (digits_value_bounds _ digits).
  apply Z.div_pos; [lia |]. apply Z.pow_pos_nonneg; lia.
Qed.

(** X12. There is no floor under the amount: a negative amount in the
    field is not turned away but sent to the gateway as a negative number
    of cents, provided the expiry field has its slash. *)
Theorem negative_amount_is_charged
    (host : env) (w : world) (whole frac year : string) :
  Text.all_digits whole = true -> Text.all_digits frac = true ->
  (1 <= String.length whole + String.length frac <= 26)%nat ->
  amountInput (fields w) = "$-" ++ whole ++ "." ++ frac ->
  Text.second_field "/" (cardExpiryInput (fields w)) = Some year ->
  exists evs request,
    trace (run (process_payment host) w) = (trace w ++ evs)%list
    /\ gateway_calls evs = [request]
    /\ request_amount request = - whole_cents whole frac
    /\ request_amount request <= 0.
Proof.
  intros dw df size typed slash.
  assert (amount : amount_cents (fields w) = inr (- whole_cents whole frac)).
  { unfold amount_cents. rewrite typed.
    change ("$-" ++ whole ++ "." ++ frac) with (String "$" (numeral true whole frac)).
    rewrite (strip_dollar _ (numeral_plain true whole frac dw df)).
    apply (cents_of_numeral true whole frac dw df size). }
  pose proof (whole_cents_nonnegative whole frac dw df) as sign.
  unfold run.
  destruct (process_payment_effects host w)
    as (w' & evs & -> & tr & _ & [nothing | charged]); cbn [snd].
  - exfalso. destruct nothing as (_ & _ & _ & never).
    unfold payment_request_of in never. rewrite slash in never.
    eapply never; [exact amount | lia | reflexivity].
  - destruct charged as (cents & request & amount' & _ & req & called & _).
    rewrite amount in amount'. injection amount' as <-.
    destruct (request_carries_cents _ _ _ req) as [carried _].
    exists evs, request. rewrite carried. repeat (split; [assumption || reflexivity |]). lia.
Qed.

(** Five dollars the wrong way round. *)
Lemma negative_amount_is_charged_witness :
  exists evs request,
    trace (run (process_payment (Scenario.shop (Scenario.decline "DO_NOT_HONOR")
                                   Scenario.no_fault))
             (Scenario.till "12345" "$-5.00"))
    = (trace (Scenario.till "12345" "$-5.00") ++ evs)%list
    /\ gateway_calls evs = [request]
    /\ request_amount request = - whole_cents "5" "00"
    /\ request_amount request <= 0.
Proof.
  apply (negative_amount_is_charged
           (Scenario.shop (Scenario.decline "DO_NOT_HONOR") Scenario.no_fault)
           (Scenario.till "12345" "$-5.00") "5" "00" "27").
  - reflexivity.
  - reflexivity.
  - cbn. lia.
  - reflexivity.
  - reflexivity.
Defined.

End Amounts.

(** ** The recent list and the details window *)

Lemma nth_error_lines_from (rows : list (list string)) (count : Z) (k : nat) :
  nth_error (lines_from count rows) k
  = option_map (line_of (count + Z.of_nat k)) (nth_error rows k).
Proof.
  revert count k. induction rows as [| row rows IH]; intros count k.
  - now destruct k.
  - destruct k as [| k]; cbn [lines_from nth_error option_map].
    + now rewrite Z.add_0_r.
    + rewrite IH. now replace (count + 1 + Z.of_nat k) with (count + Z.of_nat (S k)) by lia.
Qed.

Lemma length_lines_from (rows : list (list string)) (count : Z) :
  List.length (lines_from count rows) = List.length rows.
Proof.
  revert count. induction rows as [| row rows IH]; intros count; [reflexivity |].
  cbn [lines_from List.length]. now rewrite IH.
Qed.

Lemma third_cell (row : list string) :
  (3 <= List.length row)%nat -> nth_error row 2 = Some (nth 2 row "").
Proof.
  intros long. destruct row as [| a [| b [| c row]]]; cbn in long; try lia. reflexivity.
Qed.

(** The loop over rows that all have a third cell. *)
Lemma add_items_lines (rows : list (list string)) (count : Z) (r : recent) :
  Forall (fun row => (3 <= List.length row)%nat) rows ->
  add_items count rows r
  = ({| transactions := transactions r;
        recentTransactionsList := (recentTransactionsList r ++ lines_from count rows)%list;
        recentTransactionsLoaderLabel :=
          match rows with [] => recentTransactionsLoaderLabel r | _ => false end;
        recentTransactionsLoader :=
          match rows with [] => recentTransactionsLoader r | _ => false end |},
     None).
Proof.
  intros long. revert count r.
  induction long as [| row rows first _ IH]; intros count r.
  - cbn. rewrite app_nil_r. now destruct r.
  - cbn [add_items]. rewrite (third_cell row first), IH.
    cbn [transactions recentTransactionsList lines_from].
    rewrite <- app_assoc. cbn [app]. unfold line_of. now destruct rows.
Qed.

Lemma filter_keeps_long (rows : list (list string)) :
  Forall (fun row => row = [] \/ (3 <= List.length row)%nat) rows ->
  Forall (fun row => (3 <= List.length row)%nat) (firstn 31 (newest_first rows)).
Proof.
  intros shaped. apply Forall_forall. intros row member.
  apply (In_nth_error) in member as [k at_k].
  rewrite nth_error_firstn in at_k.
  destruct (Nat.ltb k 31); [| discriminate].
  apply nth_error_In in at_k.
  unfold newest_first in at_k. apply in_rev in at_k.
  apply filter_In in at_k as [inside nonempty].
  rewrite Forall_forall in shaped. destruct (shaped row inside) as [-> | long].
  - discriminate.
  - exact long.
Qed.

Lemma update_recent_transactions_lines
    (host : env) (rows : list (list string)) (r : recent) (w : world) :
  Forall (fun row => row = [] \/ (3 <= List.length row)%nat) rows ->
  update_recent_transactions host (Some rows) r w
  = (Return
       {| transactions := firstn 31 (newest_first rows);
          recentTransactionsList := lines_from 0 (firstn 31 (newest_first rows));
          recentTransactionsLoaderLabel :=
            match firstn 31 (newest_first rows) with
            | [] => recentTransactionsLoaderLabel r
            | _ => false
            end;
          recentTransactionsLoader :=
            match firstn 31 (newest_first rows) with
            | [] => recentTransactionsLoader r
            | _ => false
            end |}, w).
Proof.
  intros shaped. unfold update_recent_transactions.
  fold (newest_first rows).
  rewrite (add_items_lines _ 0 _ (filter_keeps_long rows shaped)).
  reflexivity.
Qed.

(** X13. The recent list shows the newest rows first and numbers them from
    0: for a file whose rows are empty or have at least three cells,
    [update_recent_transactions] keeps the 31 newest rows that are not
    empty, writes one line per row kept, and line [k] carries the number
    [k], the icon of the row's outcome, and its customer and amount;
    nothing is logged. *)
Theorem recent_list_shows_newest_first
    (host : env) (rows : list (list string)) (r : recent) (w : world) :
  Forall (fun row => row = [] \/ (3 <= List.length row)%nat) rows ->
  exists r',
    update_recent_transactions host (Some rows) r w = (Return r', w)
    /\ transactions r' = firstn 31 (newest_first rows)
    /\ List.length (recentTransactionsList r')
       = Nat.min 31 (List.length (newest_first rows))
    /\ forall (k : nat) (row : list string),
         (k < 31)%nat -> nth_error (newest_first rows) k = Some row ->
         nth_error (transactions r') k = Some row
         /\ nth_error (recentTransactionsList r') k
            = Some (str (Z.of_nat k) ++ " " ++ status_icon (nth 2 row "") ++ " "
                      ++ nth 0 row "" ++ " - " ++ nth 1 row "").
Proof.
  intros shaped. eexists. split; [apply (update_recent_transactions_lines _ _ _ _ shaped) |].
  cbn [transactions recentTransactionsList]. split; [reflexivity |]. split.
  - now rewrite length_lines_from, length_firstn.
  - intros k row near at_k.
    assert (kept : nth_error (firstn 31 (newest_first rows)) k = Some row)
      by now rewrite nth_error_firstn, (proj2 (Nat.ltb_lt k 31) near).
    split; [exact kept |].
    rewrite nth_error_lines_from, kept. reflexivity.
Qed.

(** The sample file: line 1 is the older, approved row. *)
Lemma recent_list_shows_newest_first_witness :
  exists r',
    update_recent_transactions (Scenario.shop Scenario.unreachable Scenario.no_fault)
      (Some sample_file) loading (Scenario.till "" "$")
    = (Return r', Scenario.till "" "$")
    /\ nth_error (recentTransactionsList r') 1
       = Some "1 ✅ 12345 - Jo Bloggs - $10.00".
Proof.
  destruct (recent_list_shows_newest_first
              (Scenario.shop Scenario.unreachable Scenario.no_fault)
              sample_file loading (Scenario.till "" "$"))
    as (r' & run_eq & _ & _ & lines).
  - repeat constructor; cbn; (now left) || (right; lia).
  - exists r'. split; [exact run_eq |].
    apply (lines 1%nat
             ["12345 - Jo Bloggs"; "$10.00"; "APPROVED"; "1698657300"; "A1B2C3"]).
    + lia.
    + reflexivity.
Defined.

(** The number a line starts with reads back as itself. *)
Lemma line_number_reads_back (k : nat) (rest : string) :
  (k < 31)%nat ->
  int_of_string (Text.first_field " " (str (Z.of_nat k) ++ " " ++ rest))
  = inr (Z.of_nat k).
Proof.
  intros near.
  do 31 (destruct k as [| k]; [reflexivity |]). lia.
Qed.

Lemma getitem_nth_error {A : Type} (l : list A) (k : nat) :
  getitem l (Z.of_nat k) = nth_error l k.
Proof.
  unfold getitem. destruct (Z.leb_spec 0 (Z.of_nat k)); [| lia].
  now rewrite Nat2Z.id.
Qed.

Lemma cell_of (row : list string) (n : nat) (w : world) :
  (n < List.length row)%nat -> cell row n w = (Return (nth n row ""), w).
Proof.
  intros inside. unfold cell.
  destruct (nth_error row n) as [text |] eqn:at_n.
  - now rewrite (nth_error_nth row n "" at_n).
  - apply nth_error_None in at_n. lia.
Qed.

(** X14. Clicking a line of the recent list opens the row the line was
    written from: after [update_recent_transactions] on a file whose rows
    are empty or have at least three cells, [show_transaction_details] on
    line [k] shows the customer, amount, outcome and time of the [k]-th
    newest row, and its authorization code exactly when it is approved;
    nothing is logged. The row needs its time cell, and its code cell when
    approved. *)
Theorem clicked_line_shows_its_row
    (host : env) (strftime_localtime : string -> exn + string)
    (rows : list (list string)) (r r' : recent) (w : world)
    (k : nat) (row : list string) (when : string) :
  Forall (fun row => row = [] \/ (3 <= List.length row)%nat) rows ->
  update_recent_transactions host (Some rows) r w = (Return r', w) ->
  (k < 31)%nat -> nth_error (newest_first rows) k = Some row ->
  (4 <= List.length row)%nat ->
  (nth 2 row "" = "APPROVED" -> (5 <= List.length row)%nat) ->
  strftime_localtime (nth 3 row "") = inr when ->
  exists item shown,
    nth_error (recentTransactionsList r') k = Some item
    /\ show_transaction_details host strftime_localtime item r' w
       = (Return (Some shown), w)
    /\ details_name shown = nth 0 row ""
    /\ details_amount shown = nth 1 row ""
    /\ details_tooltip shown = nth 2 row ""
    /\ details_when shown = when
    /\ details_authCode shown
       = if String.eqb (nth 2 row "") "APPROVED" then Some (nth 4 row "") else None.
Proof.
  intros shaped updated near at_k timed coded formatted.
  rewrite (update_recent_transactions_lines _ _ _ _ shaped) in updated.
  assert (kept : nth_error (firstn 31 (newest_first rows)) k = Some row)
    by now rewrite nth_error_firstn, (proj2 (Nat.ltb_lt k 31) near).
  set (newest := firstn 31 (newest_first rows)) in *.
  injection updated as <-.
  cbn [recentTransactionsList]. rewrite nth_error_lines_from, kept.
  cbn [option_map Z.add]. unfold line_of, item_text.
  assert (code : String.eqb (nth 2 row "") "APPROVED" = true -> (4 < List.length row)%nat).
  { intros approved. apply String.eqb_eq in approved. apply (coded approved). }
  destruct (String.eqb (nth 2 row "") "APPROVED") eqn:approved;
    [specialize (code eq_refl) |];
    destruct (Text.contains "DECLINED" (nth 2 row "")) eqn:declined.
  all: eexists; eexists; (split; [reflexivity |]).
  all: unfold show_transaction_details, try_except, bind, lift.
  all: rewrite (line_number_reads_back k _ near).
  all: cbn [transactions ret]; rewrite getitem_nth_error, kept.
  all: cbv beta iota delta [ret]; rewrite ?cell_of by lia.
  all: rewrite ?approved, ?declined.
  all: cbv beta iota delta [ret]; rewrite ?cell_of by lia.
  all: cbv beta iota delta [ret]; rewrite ?cell_of by lia.
  all: rewrite formatted; repeat split.
Qed.

(** Clicking line 1 of the sample shows the approved row and its code. *)
Lemma clicked_line_shows_its_row_witness :
  exists r' shown,
    update_recent_transactions (Scenario.shop Scenario.unreachable Scenario.no_fault)
      (Some sample_file) loading (Scenario.till "" "$")
    = (Return r', Scenario.till "" "$")
    /\ show_transaction_details (Scenario.shop Scenario.unreachable Scenario.no_fault)
         (fun _ => inr "30-10-2023 20:15:00")
         "1 ✅ 12345 - Jo Bloggs - $10.00" r' (Scenario.till "" "$")
       = (Return (Some shown), Scenario.till "" "$")
    /\ details_name shown = "12345 - Jo Bloggs"
    /\ details_authCode shown = Some "A1B2C3".
Proof.
  destruct (clicked_line_shows_its_row
               (Scenario.shop Scenario.unreachable Scenario.no_fault)
               (fun _ => inr "30-10-2023 20:15:00")
               sample_file loading
               match fst (update_recent_transactions
                            (Scenario.shop Scenario.unreachable Scenario.no_fault)
                            (Some sample_file) loading (Scenario.till "" "$")) with
               | Return r' => r'
               | Raise _ => loading
               end
               (Scenario.till "" "$") 1
               ["12345 - Jo Bloggs"; "$10.00"; "APPROVED"; "1698657300"; "A1B2C3"]
               "30-10-2023 20:15:00")
    as (item & shown & at_1 & opened & name & _ & _ & _ & code).
  - repeat constructor; cbn; (now left) || (right; lia).
  - reflexivity.
  - lia.
  - reflexivity.
  - cbn. lia.
  - intros _. cbn. lia.
  - reflexivity.
  - injection at_1 as <-. eexists. exists shown.
    split; [reflexivity |]. split; [exact opened |]. split; [exact name | exact code].
Defined.

Lemma declined_icon (text : string) : status_icon ("DECLINED - " ++ text) = "❌".
Proof.
  unfold status_icon.
  change ("DECLINED - " ++ text) with ("" ++ "DECLINED" ++ " - " ++ text).
  now rewrite contains_append.
Qed.

(** X15. What [process_payment] writes to the journal is fit for the
    recent list and the details window: a run adds at most one row; the
    row has its four cells, so neither the list nor the window runs out of
    cells; a row with an authorization code gets the tick and has the code
    as its fifth cell, and a row without one gets the cross or, when its
    outcome is "unknown", the warning sign. *)
Theorem journaled_rows_fit_the_list (host : env) (w : world) :
  exists rows,
    journal (run (process_payment host) w) = (journal w ++ rows)%list
    /\ (List.length rows <= 1)%nat
    /\ forall row, In row rows ->
         (4 <= List.length (cells row))%nat
         /\ match jr_authCode row with
            | Some code =>
                jr_outcome row = "APPROVED"
                /\ status_icon (jr_outcome row) = "✅"
                /\ nth_error (cells row) 4 = Some code
            | None =>
                status_icon (jr_outcome row) = "❌"
                \/ jr_outcome row = "unknown" /\ status_icon (jr_outcome row) = "⚠️"
            end.
Proof.
  destruct (process_payment_paths host w) as (rows & lines & evs & jr & _ & _ & shape).
  exists rows. split; [exact jr |].
  assert (fit : forall outcome code,
             (outcome = "APPROVED" /\ code <> None
              \/ code = None
                 /\ (outcome = "DECLINED" \/ outcome = "unknown"
                     \/ exists text, outcome = "DECLINED - " ++ text)) ->
             forall row, In row [journal_entry host (fields w) outcome code] ->
             (4 <= List.length (cells row))%nat
             /\ match jr_authCode row with
                | Some code =>
                    jr_outcome row = "APPROVED"
                    /\ status_icon (jr_outcome row) = "✅"
                    /\ nth_error (cells row) 4 = Some code
                | None =>
                    status_icon (jr_outcome row) = "❌"
                    \/ jr_outcome row = "unknown" /\ status_icon (jr_outcome row) = "⚠️"
                end).
  { intros outcome code kind row [<- | []].
    unfold cells, journal_entry.
    cbn [jr_customer jr_amount jr_outcome jr_time jr_authCode].
    destruct kind as [[-> coded] | [-> [-> | [-> | [text ->]]]]].
    - destruct code as [code |]; [| contradiction]. cbn. split; [lia | auto].
    - cbn. split; [lia | now left].
    - cbn. split; [lia | now right].
    - rewrite declined_icon. cbn. split; [lia | now left]. }
  assert (none : (List.length (@nil journal_row) <= 1)%nat
                 /\ forall row, In row (@nil journal_row) ->
                      (4 <= List.length (cells row))%nat
                      /\ match jr_authCode row with
                         | Some code =>
                             jr_outcome row = "APPROVED"
                             /\ status_icon (jr_outcome row) = "✅"
                             /\ nth_error (cells row) 4 = Some code
                         | None =>
                             status_icon (jr_outcome row) = "❌"
                             \/ jr_outcome row = "unknown"
                                /\ status_icon (jr_outcome row) = "⚠️"
                         end).
  { split; [cbn; lia | intros row []]. }
  destruct (amount_cents (fields w)) as [e | cents].
  { destruct shape as (-> & _). exact none. }
  destruct (300000 <? cents).
  { destruct shape as (_ & shape).
    destruct (Float.truediv cents 100); destruct shape as (-> & _); [exact none |].
    split; [cbn; lia |]. apply fit. right. auto. }
  destruct (payment_request_of (fields w) cents) as [e | request].
  { destruct shape as (-> & _). exact none. }
  destruct shape as (_ & shape).
  destruct (gateway host request) as [p | e].
  - destruct (String.eqb (paymentStatus p) "APPROVED").
    { subst rows. split; [cbn; lia |]. apply fit. left. split; [reflexivity | discriminate]. }
    destruct (String.eqb (paymentStatus p) "DECLINED").
    { destruct (dict_get response_codes (declineReason p)) as [text |];
        destruct shape as (-> & _); (split; [cbn; lia |]); apply fit; right;
        (split; [reflexivity |]); eauto. }
    destruct shape as (-> & _). split; [cbn; lia |]. apply fit. right. auto.
  - destruct e; destruct shape as (-> & _); try exact none.
    split; [cbn; lia |]. apply fit. right. split; [reflexivity |]. eauto.
Qed.

(** ** After an approval *)




(** ** [check_account] *)

Lemma prefix_inversion (sub s : string) :
  String.prefix sub s = true -> exists rest, s = sub ++ rest.
Proof.
  revert s. induction sub as [| a sub IH]; intros s starts.
  - now exists s.
  - destruct s as [| b s]; [discriminate |].
    cbn [String.prefix] in starts.
    destruct (ascii_dec a b) as [<- |]; [| discriminate].
    destruct (IH s starts) as [rest ->]. now exists rest.
Qed.

Lemma exempt_label_is_not_numeric (account : string) :
  String.prefix "00000 - " account = true -> Text.isnumeric account = false.
Proof. intros starts. apply prefix_inversion in starts as [rest ->]. reflexivity. Qed.

(** What [check_account] does to the world, path by path, when the
    failure log takes the line its handler writes. *)
Lemma check_account_effects
    (host : env) (last_name first_name : account_row -> option string)
    (inactive : account_row -> bool) (str_balance : Float.t -> string)
    (answer : nat -> button) (account_id toolTip : string) (w : world) :
  exists toolTip' w' evs,
    check_account host last_name first_name inactive str_balance answer account_id toolTip w
    = (Return toolTip', w')
    /\ trace w' = (trace w ++ evs)%list
    /\ ledger w' = ledger w /\ sequence w' = sequence w /\ journal w' = journal w
    /\ gateway_calls evs = [] /\ clipboard_copies evs = []
    /\ if (Text.isnumeric account_id && Nat.eqb (String.length account_id) 5)%bool
       then database_calls evs = [StepConnect]
            \/ database_calls evs = [StepConnect; StepSelectAccount]
       else database_calls evs = [] /\ message_boxes evs = [].
Proof.
  destruct w as [led seq jr fp [customer amount number expiry cvc style tip border button] tr]. unfold check_account.
  pose proof (exempt_label_is_not_numeric account_id) as numeric.
  destruct (String.prefix "00000 - " account_id).
  { rewrite (numeric eq_refl). cbn [andb].
    destruct (String.eqb account_id "00000"); run_account.
    all: eexists; eexists; exists []; rewrite app_nil_r; repeat split. }
  clear numeric.
  destruct (Text.isnumeric account_id); cbn [andb].
  2: { destruct (String.eqb account_id "00000"); run_account.
       all: eexists; eexists; exists []; rewrite app_nil_r; repeat split. }
  destruct (Nat.eqb (String.length account_id) 5).
  2: { destruct (String.eqb account_id "00000"); run_account.
       all: eexists; eexists; exists []; rewrite app_nil_r; repeat split. }
  destruct (String.eqb account_id "00000"); run_account.
  all: destruct (database_fault host StepConnect); run_account.
  1, 3: eexists; eexists; eexists; (split; [reflexivity |]); cbn;
    (split; [reflexivity |]); repeat split; now left.
  all: destruct (database_fault host StepSelectAccount); run_account.
  1, 3: eexists; eexists; eexists; (split; [reflexivity |]); cbn;
    rewrite <- ?app_assoc; (split; [reflexivity |]); repeat split; now right.
  all: destruct (find _ (account led)) as [row |]; run_account.
  2, 4: eexists; eexists; eexists; (split; [reflexivity |]); cbn;
    rewrite <- ?app_assoc; (split; [reflexivity |]); repeat split; now right.
  all: destruct (balance row); run_account.
  2, 4: eexists; eexists; eexists; (split; [reflexivity |]); cbn;
    rewrite <- ?app_assoc; (split; [reflexivity |]); repeat split; now right.
  all: destruct (inactive row); run_account.
  2, 4: eexists; eexists; eexists; (split; [reflexivity |]); cbn;
    rewrite <- ?app_assoc; (split; [reflexivity |]); repeat split; now right.
  all: destruct (answer 0%nat); run_account; [| destruct (answer 1%nat); run_account ..].
  all: eexists; eexists; eexists; (split; [reflexivity |]); cbn;
    rewrite <- ?app_assoc; (split; [reflexivity |]); repeat split; now right.
Qed.

(** X17. [check_account] reads the database only for an id of exactly
    five digits, and never writes: whatever is typed in ASCII, a run
    leaves the committed ledger, the key sequence and the journal as they
    were and calls neither the gateway nor the clipboard; unless the text
    is five digits it makes no database call and shows no dialog, and when
    it is five digits its database calls are the connection and at most
    the one query. *)
Theorem check_account_reads_five_digits
    (host : env) (last_name first_name : account_row -> option string)
    (inactive : account_row -> bool) (str_balance : Float.t -> string)
    (answer : nat -> button) (account_id toolTip : string) (w : world) :
  Text.is_ascii account_id = true ->
  let w' := run (check_account host last_name first_name inactive str_balance answer
                   account_id toolTip) w in
  exists evs,
    trace w' = (trace w ++ evs)%list
    /\ ledger w' = ledger w /\ sequence w' = sequence w /\ journal w' = journal w
    /\ gateway_calls evs = [] /\ clipboard_copies evs = []
    /\ if (Text.isnumeric account_id && Nat.eqb (String.length account_id) 5)%bool
       then database_calls evs = [StepConnect]
            \/ database_calls evs = [StepConnect; StepSelectAccount]
       else database_calls evs = [] /\ message_boxes evs = [].
Proof.
  intros _. cbv zeta. unfold run.
  destruct (check_account_effects host last_name first_name inactive str_balance answer
              account_id toolTip w)
    as (tip & w' & evs & -> & facts).
  exists evs. exact facts.
Qed.

(** Four digits: no database call. *)
Lemma check_account_reads_five_digits_witness :
  database_calls
    (trace (run (check_account (Scenario.shop Scenario.unreachable Scenario.no_fault)
                   sample_last_name sample_first_name sample_inactive
                   sample_str_balance sample_answer "1234" "")
              (Scenario.till "" "$")))
  = [].
Proof.
  destruct (check_account_reads_five_digits
              (Scenario.shop Scenario.unreachable Scenario.no_fault)
              sample_last_name sample_first_name sample_inactive
              sample_str_balance sample_answer "1234" "" (Scenario.till "" "$")
              eq_refl)
    as (evs & tr & _ & _ & _ & _ & _ & none & _).
  rewrite tr. exact none.
Defined.

Lemma first_field_of_label (account_id rest : string) :
  Text.all_digits account_id = true ->
  Text.first_field " " (account_id ++ String " " rest) = account_id.
Proof.
  induction account_id as [| a s IH]; [reflexivity |].
  cbn [Text.all_digits append Text.first_field].
  intros both. apply andb_true_iff in both as [one others].
  now rewrite (digit_is_not_blank a one), (IH others).
Qed.

Lemma isnumeric_all_digits (s : string) :
  Text.isnumeric s = true -> Text.all_digits s = true.
Proof. now destruct s. Qed.

Section AccountFacts.

Variable host : env.
Variables last_name first_name : account_row -> option string.
Variable inactive : account_row -> bool.
Variable str_balance : Float.t -> string.
Variable answer : nat -> button.

Local Abbreviation lookup :=
  (check_account host last_name first_name inactive str_balance answer).

(** X18. The account shown is the account a payment will be posted to:
    when [check_account] finds a five-digit id on file with a balance, and
    the operator does not end up refusing an inactive account, the customer
    field holds the id, a hyphen and the name, and the first word of the
    field, which is what [process_payment] hands to [apply_payment], is
    the id that was looked up and selects the same row. *)
Theorem shown_account_is_posted_account
    (account_id toolTip : string) (w : world) (row : account_row) (b : Float.t) :
  Text.isnumeric account_id = true ->
  String.length account_id = 5%nat ->
  database_fault host StepConnect = None ->
  database_fault host StepSelectAccount = None ->
  find (fun r => acct r =? Text.digits_value account_id) (account (ledger w)) = Some row ->
  balance row = Some b ->
  (inactive row = true -> answer 0%nat = Yes \/ answer 1%nat <> No) ->
  let w' := run (lookup account_id toolTip) w in
  customerInput (fields w')
  = match first_name row with
    | Some first => account_id ++ " - " ++ first ++ " " ++ format_column (last_name row)
    | None => account_id ++ " - " ++ format_column (last_name row)
    end
  /\ Text.first_field " " (customerInput (fields w')) = account_id
  /\ find (fun r => acct r
                    =? Text.digits_value (Text.first_field " " (customerInput (fields w'))))
       (account (ledger w'))
     = Some row
  /\ customerStyle (fields w')
     = (if inactive row then "border: 2px solid orange;" else "border: 2px solid green;")
  /\ failed_payments w' = failed_payments w.
Proof.
  intros numeric five connected selected on_file funded accepted.
  assert (label : forall rest, Text.first_field " " (account_id ++ " - " ++ rest) = account_id)
    by (intros rest; apply (first_field_of_label account_id ("- " ++ rest)),
          isnumeric_all_digits, numeric).
  assert (plain : String.prefix "00000 - " account_id = false).
  { destruct (String.prefix "00000 - " account_id) eqn:starts; [| reflexivity].
    apply exempt_label_is_not_numeric in starts. congruence. }
  apply Nat.eqb_eq in five.
  destruct w as [led seq jr fp [customer amount number expiry cvc style tip border button] tr]. cbn [ledger] in on_file.
  cbv zeta. unfold run, check_account.
  rewrite plain, numeric, five.
  destruct (String.eqb account_id "00000"); run_account.
  all: rewrite connected; run_account; rewrite selected; run_account.
  all: rewrite on_file; run_account; rewrite funded; run_account.
  all: destruct (inactive row); run_account;
    [destruct (accepted eq_refl) as [yes | not_no];
       [rewrite yes; run_account
       | destruct (answer 0%nat); run_account;
           [| destruct (answer 1%nat); run_account ..]] |].
  all: try contradiction.
  all: cbn [snd fields customerInput customerStyle ledger failed_payments account].
  all: destruct (first_name row) as [first |].
  all: rewrite ?label.
  all: repeat split; assumption.
Qed.

(** X19. An account on file whose balance is NULL shows nothing: the
    lookup finds the row, fails on comparing the missing balance with 0,
    and leaves the form and the tool tip as they were; the only trace is
    one [TypeError] line in the failure log. *)
Theorem null_balance_shows_nothing
    (account_id toolTip : string) (w : world) (row : account_row) :
  Text.isnumeric account_id = true ->
  String.length account_id = 5%nat ->
  account_id <> "00000" ->
  database_fault host StepConnect = None ->
  database_fault host StepSelectAccount = None ->
  find (fun r => acct r =? Text.digits_value account_id) (account (ledger w)) = Some row ->
  balance row = None ->
  lookup account_id toolTip w
  = (Return toolTip,
     {| ledger := ledger w; sequence := sequence w; journal := journal w;
        failed_payments :=
          failed_payments w
            ++ [{| fl_time := now host; fl_user := get_display_name host 3;
                   fl_error := TypeError |}];
        fields := fields w;
        trace := trace w ++ [Database StepConnect; Database StepSelectAccount] |}).
Proof.
  intros numeric five real connected selected on_file unfunded.
  assert (plain : String.prefix "00000 - " account_id = false).
  { destruct (String.prefix "00000 - " account_id) eqn:starts; [| reflexivity].
    apply exempt_label_is_not_numeric in starts. congruence. }
  apply Nat.eqb_eq in five. apply String.eqb_neq in real.
  destruct w as [led seq jr fp [customer amount number expiry cvc style tip border button] tr]. cbn [ledger] in on_file.
  unfold check_account.
  rewrite real, plain, numeric, five. run_account.
  rewrite connected; run_account; rewrite selected; run_account.
  rewrite on_file; run_account; rewrite unfunded; run_account.
  now rewrite <- app_assoc.
Qed.

(** X20. The inactive-account question is asked a second time unless the
    first answer is Yes, and only the second answer counts: for an
    inactive account found with a balance, a first answer other than Yes
    shows the dialog again; a second No empties the customer field, and any
    other second answer keeps the account in the field, marked orange. *)
Theorem inactive_question_asked_twice
    (account_id toolTip : string) (w : world) (row : account_row) (b : Float.t) :
  Text.isnumeric account_id = true ->
  String.length account_id = 5%nat ->
  database_fault host StepConnect = None ->
  database_fault host StepSelectAccount = None ->
  find (fun r => acct r =? Text.digits_value account_id) (account (ledger w)) = Some row ->
  balance row = Some b ->
  inactive row = true ->
  answer 0%nat <> Yes ->
  exists toolTip' w' evs,
    lookup account_id toolTip w = (Return toolTip', w')
    /\ trace w' = (trace w ++ evs)%list
    /\ message_boxes evs = [(inactive_question, None); (inactive_question, None)]
    /\ (answer 1%nat = No -> customerInput (fields w') = "" /\ toolTip' = "")
    /\ (answer 1%nat <> No ->
        Text.first_field " " (customerInput (fields w')) = account_id
        /\ customerStyle (fields w') = "border: 2px solid orange;"
        /\ toolTip' = "Account is inactive").
Proof.
  intros numeric five connected selected on_file funded dormant not_yes.
  assert (label : forall rest, Text.first_field " " (account_id ++ " - " ++ rest) = account_id)
    by (intros rest; apply (first_field_of_label account_id ("- " ++ rest)),
          isnumeric_all_digits, numeric).
  assert (plain : String.prefix "00000 - " account_id = false).
  { destruct (String.prefix "00000 - " account_id) eqn:starts; [| reflexivity].
    apply exempt_label_is_not_numeric in starts. congruence. }
  apply Nat.eqb_eq in five.
  destruct w as [led seq jr fp [customer amount number expiry cvc style tip border button] tr]. cbn [ledger] in on_file.
  unfold check_account.
  rewrite plain, numeric, five.
  destruct (String.eqb account_id "00000"); run_account.
  all: rewrite connected; run_account; rewrite selected; run_account.
  all: rewrite on_file; run_account; rewrite funded; run_account.
  all: rewrite dormant; run_account.
  all: destruct (answer 0%nat); run_account; [contradiction | |].
  all: destruct (answer 1%nat); run_account.
  all: eexists; eexists; eexists; (split; [reflexivity |]).
  all: rewrite <- ?app_assoc; cbn [app trace fields customerInput customerStyle].
  all: (split; [reflexivity |]); (split; [reflexivity |]).
  all: split; [intros second; try discriminate second; now split
              | intros second; try contradiction].
  all: destruct (first_name row); rewrite ?label; now repeat split.
Qed.

(** Text that is not a number, and not the exempt label, is marked
    invalid without a database call. *)
Lemma check_account_invalid (text toolTip : string) (w : world) :
  Text.isnumeric text = false ->
  String.prefix "00000 - " text = false ->
  lookup text toolTip w
  = (Return "Account is invalid",
     {| ledger := ledger w; sequence := sequence w; journal := journal w;
        failed_payments := failed_payments w;
        fields :=
          {| customerInput := customerInput (fields w);
             amountInput := amountInput (fields w);
             cardNumberInput := cardNumberInput (fields w);
             cardExpiryInput := cardExpiryInput (fields w);
             cardCVCInput := cardCVCInput (fields w);
             cardNumberStyle := cardNumberStyle (fields w);
             cardNumberToolTip := cardNumberToolTip (fields w);
             customerStyle := "border: 2px solid red;";
             processButton := processButton (fields w) |};
        trace := trace w |}).
Proof.
  intros not_numeric plain.
  assert (real : String.eqb text "00000" = false).
  { destruct (String.eqb_spec text "00000") as [-> |]; [discriminate | reflexivity]. }
  destruct w as [led seq jr fp [customer amount number expiry cvc style tip border button] tr]. unfold check_account.
  now rewrite real, plain, not_numeric.
Qed.

Lemma label_is_not_numeric (account_id rest : string) :
  Text.isnumeric (account_id ++ " - " ++ rest) = false.
Proof.
  assert (mixed : Text.all_digits (account_id ++ " - " ++ rest) = false).
  { rewrite all_digits_append. cbn. apply andb_false_r. }
  unfold Text.isnumeric. now destruct (account_id ++ " - " ++ rest).
Qed.

Lemma label_is_not_exempt (account_id rest : string) :
  Text.all_digits account_id = true -> account_id <> "00000" ->
  String.prefix "00000 - " (account_id ++ " - " ++ rest) = false.
Proof.
  intros digits real.
  destruct (String.prefix "00000 - " (account_id ++ " - " ++ rest)) eqn:starts;
    [| reflexivity].
  apply prefix_inversion in starts as [tail same].
  apply (f_equal (Text.first_field " ")) in same.
  pose proof (first_field_of_label account_id ("- " ++ rest) digits) as label.
  cbn [append] in same, label. rewrite label in same.
  contradiction.
Qed.

(** X21. [check_account] does not accept what it wrote itself: after a
    lookup that found a five-digit account other than 00000 with a
    balance, running [check_account] on the content of the customer field
    marks the field red with the tool tip "Account is invalid", whether
    the field holds the id and name or was emptied; it changes nothing else
    and makes no database call. *)
Theorem rechecked_label_turns_red
    (account_id toolTip toolTip' : string) (w : world) (row : account_row)
    (b : Float.t) :
  Text.isnumeric account_id = true ->
  String.length account_id = 5%nat ->
  account_id <> "00000" ->
  database_fault host StepConnect = None ->
  database_fault host StepSelectAccount = None ->
  find (fun r => acct r =? Text.digits_value account_id) (account (ledger w)) = Some row ->
  balance row = Some b ->
  let w1 := run (lookup account_id toolTip) w in
  let w2 := run (lookup (customerInput (fields w1)) toolTip') w1 in
  fst (lookup (customerInput (fields w1)) toolTip' w1) = Return "Account is invalid"
  /\ customerStyle (fields w2) = "border: 2px solid red;"
  /\ customerInput (fields w2) = customerInput (fields w1)
  /\ amountInput (fields w2) = amountInput (fields w1)
  /\ trace w2 = trace w1 /\ failed_payments w2 = failed_payments w1.
Proof.
  intros numeric five real connected selected on_file funded. cbv zeta.
  pose proof (isnumeric_all_digits _ numeric) as digits.
  assert (written : Text.isnumeric
                      (customerInput (fields (run (lookup account_id toolTip) w))) = false
                    /\ String.prefix "00000 - "
                         (customerInput (fields (run (lookup account_id toolTip) w)))
                       = false).
  { assert (plain : String.prefix "00000 - " account_id = false).
    { destruct (String.prefix "00000 - " account_id) eqn:starts; [| reflexivity].
      apply exempt_label_is_not_numeric in starts. congruence. }
    apply Nat.eqb_eq in five. apply String.eqb_neq in real.
    destruct w as [led seq jr fp [customer amount number expiry cvc style tip border button] tr]. cbn [ledger] in on_file.
    unfold run, check_account.
    rewrite real, plain, numeric, five. run_account.
    rewrite connected; run_account; rewrite selected; run_account.
    rewrite on_file; run_account; rewrite funded; run_account.
    destruct (inactive row); run_account;
      [destruct (answer 0%nat); run_account;
         [| destruct (answer 1%nat); run_account ..] |].
    all: cbn [snd fields customerInput].
    all: try (split; reflexivity).
    all: destruct (first_name row);
      (split; [apply label_is_not_numeric
              | apply label_is_not_exempt; [exact digits | now apply String.eqb_neq]]). }
  destruct written as [not_numeric plain].
  unfold run.
  rewrite (check_account_invalid _ toolTip' _ not_numeric plain).
  repeat split.
Qed.

End AccountFacts.

(** Account 12345 of the shop, looked up from an empty form. *)
Lemma shown_account_is_posted_account_witness :
  customerInput
    (fields (run (check_account (Scenario.shop Scenario.unreachable Scenario.no_fault)
                    sample_last_name sample_first_name sample_inactive
                    sample_str_balance sample_answer "12345" "")
               (Scenario.till "" "$")))
  = "12345 - Jo Bloggs".
Proof.
  destruct (shown_account_is_posted_account
              (Scenario.shop Scenario.unreachable Scenario.no_fault)
              sample_last_name sample_first_name sample_inactive
              sample_str_balance sample_answer "12345" "" (Scenario.till "" "$")
              {| acct := 12345; account_row_0 := 12345;
                 balance := Some (nearest_dollars 10000) |}
              (nearest_dollars 10000))
    as (shown & _).
  - reflexivity.
  - reflexivity.
  - reflexivity.
  - reflexivity.
  - reflexivity.
  - reflexivity.
  - discriminate.
  - exact shown.
Defined.

(** Account 30003 of the shop has no balance. *)
Lemma null_balance_shows_nothing_witness :
  fields (run (check_account (Scenario.shop Scenario.unreachable Scenario.no_fault)
                 sample_last_name sample_first_name sample_inactive
                 sample_str_balance sample_answer "30003" "")
            (Scenario.till "" "$"))
  = Scenario.entry "" "$".
Proof.
  unfold run.
  rewrite (null_balance_shows_nothing
             (Scenario.shop Scenario.unreachable Scenario.no_fault)
             sample_last_name sample_first_name sample_inactive
             sample_str_balance sample_answer "30003" "" (Scenario.till "" "$")
             {| acct := 30003; account_row_0 := 30003; balance := None |}).
  - reflexivity.
  - reflexivity.
  - reflexivity.
  - discriminate.
  - reflexivity.
  - reflexivity.
  - reflexivity.
  - reflexivity.
Defined.

(** Account 20002 is inactive; the operator answers No, then Yes. *)
Lemma inactive_question_asked_twice_witness :
  exists toolTip' w' evs,
    check_account (Scenario.shop Scenario.unreachable Scenario.no_fault)
      sample_last_name sample_first_name sample_inactive
      sample_str_balance sample_answer "20002" "" (Scenario.till "" "$")
    = (Return toolTip', w')
    /\ trace w' = (trace (Scenario.till "" "$") ++ evs)%list
    /\ message_boxes evs = [(inactive_question, None); (inactive_question, None)]
    /\ Text.first_field " " (customerInput (fields w')) = "20002".
Proof.
  destruct (inactive_question_asked_twice
              (Scenario.shop Scenario.unreachable Scenario.no_fault)
              sample_last_name sample_first_name sample_inactive
              sample_str_balance sample_answer "20002" "" (Scenario.till "" "$")
              {| acct := 20002; account_row_0 := 20002;
                 balance := Some (nearest_dollars 30) |}
              (nearest_dollars 30))
    as (toolTip' & w' & evs & run_eq & tr & asked & _ & kept).
  - reflexivity.
  - reflexivity.
  - reflexivity.
  - reflexivity.
  - reflexivity.
  - reflexivity.
  - reflexivity.
  - discriminate.
  - exists toolTip', w', evs. repeat (split; [assumption |]).
    apply kept. discriminate.
Defined.

(** Account 12345 looked up, and the field checked again. *)
Lemma rechecked_label_turns_red_witness :
  customerStyle
    (fields
       (run (check_account (Scenario.shop Scenario.unreachable Scenario.no_fault)
               sample_last_name sample_first_name sample_inactive
               sample_str_balance sample_answer "12345 - Jo Bloggs"
               "Account is valid and active")
          (run (check_account (Scenario.shop Scenario.unreachable Scenario.no_fault)
                  sample_last_name sample_first_name sample_inactive
                  sample_str_balance sample_answer "12345" "")
             (Scenario.till "" "$"))))
  = "border: 2px solid red;".
Proof.
  destruct (rechecked_label_turns_red
              (Scenario.shop Scenario.unreachable Scenario.no_fault)
              sample_last_name sample_first_name sample_inactive
              sample_str_balance sample_answer "12345" "" "Account is valid and active"
              (Scenario.till "" "$")
              {| acct := 12345; account_row_0 := 12345;
                 balance := Some (nearest_dollars 10000) |}
              (nearest_dollars 10000))
    as (_ & red & _).
  - reflexivity.
  - reflexivity.
  - discriminate.
  - reflexivity.
  - reflexivity.
  - reflexivity.
  - reflexivity.
  - exact red.
Defined.

(** ** A row that is too short *)

Lemma add_items_stops (good : list (list string)) (bad : list string)
    (older : list (list string)) (count : Z) (r : recent) :
  Forall (fun row => (3 <= List.length row)%nat) good ->
  (List.length bad < 3)%nat ->
  add_items count (good ++ bad :: older) r
  = (fst (add_items count good r), Some IndexError).
Proof.
  intros long short. revert count r.
  induction long as [| row good first _ IH]; intros count r.
  - cbn [app add_items fst].
    destruct bad as [| a [| b [| c bad]]]; cbn in short; try lia; reflexivity.
  - cbn [app add_items]. rewrite (third_cell row first). apply IH.
Qed.

(** X22. One short row hides everything older: when, among the rows kept,
    a row with fewer than three cells follows rows that have them, the
    refresh shows the lines of the rows before it and stops; the short row
    and every older row are missing from the list although they are in
    [transactions], and one [IndexError] line goes to the failure log. *)
Theorem short_row_stops_refresh
    (host : env) (rows good older : list (list string)) (bad : list string)
    (r : recent) (w : world) :
  firstn 31 (newest_first rows) = (good ++ bad :: older)%list ->
  Forall (fun row => (3 <= List.length row)%nat) good ->
  (List.length bad < 3)%nat ->
  exists r',
    update_recent_transactions host (Some rows) r w
    = (Return r',
       {| ledger := ledger w; sequence := sequence w; journal := journal w;
          failed_payments :=
            failed_payments w
              ++ [{| fl_time := now host; fl_user := get_display_name host 3;
                     fl_error := IndexError |}];
          fields := fields w; trace := trace w |})
    /\ transactions r' = (good ++ bad :: older)%list
    /\ recentTransactionsList r' = lines_from 0 good
    /\ (List.length (recentTransactionsList r') < List.length (transactions r'))%nat.
Proof.
  intros kept long short. unfold update_recent_transactions.
  fold (newest_first rows). rewrite kept.
  rewrite (add_items_stops good bad older 0 _ long short).
  rewrite (add_items_lines good 0 _ long). cbn [fst].
  eexists. split; [reflexivity |].
  cbn [transactions recentTransactionsList app].
  split; [reflexivity |]. split; [reflexivity |].
  rewrite length_lines_from, length_app. cbn [List.length]. lia.
Qed.

(** A file whose middle row lost its outcome: only the newest row shows. *)
Lemma short_row_stops_refresh_witness :
  exists r',
    fst (update_recent_transactions
           (Scenario.shop Scenario.unreachable Scenario.no_fault)
           (Some [["12345 - Jo Bloggs"; "$10.00"; "APPROVED"; "1698657300"; "A1B2C3"];
                  ["20002 - Jo Bloggs"; "$5.00"];
                  ["None"; "$20.00"; "unknown"; "1698657400"]])
           loading (Scenario.till "" "$"))
    = Return r'
    /\ recentTransactionsList r' = ["0 ⚠️ None - $20.00"].
Proof.
  destruct (short_row_stops_refresh
              (Scenario.shop Scenario.unreachable Scenario.no_fault)
              [["12345 - Jo Bloggs"; "$10.00"; "APPROVED"; "1698657300"; "A1B2C3"];
               ["20002 - Jo Bloggs"; "$5.00"];
               ["None"; "$20.00"; "unknown"; "1698657400"]]
              [["None"; "$20.00"; "unknown"; "1698657400"]]
              [["12345 - Jo Bloggs"; "$10.00"; "APPROVED"; "1698657300"; "A1B2C3"]]
              ["20002 - Jo Bloggs"; "$5.00"]
              loading (Scenario.till "" "$"))
    as (r' & run_eq & _ & lines & _).
  - reflexivity.
  - repeat constructor.
  - cbn. lia.
  - exists r'. rewrite run_eq. split; [reflexivity | exact lines].
Defined.

(** ** The order of the database calls *)

(** X23. The posting talks to the database in one fixed order and stops at
    the first call that fails: for an account other than the sentinel, the
    database calls of [apply_payment] are an initial segment of connect,
    account query, location query, group insert, detail insert, balance
    update, note insert, commit; the connection is always attempted; and
    every call but the last was accepted by the server, so the commit is
    reached only after all four writes went through. *)
Theorem database_calls_in_order
    (host : env) (account_id code : string) (amount : Float.t) (w : world) :
  account_id <> "00000" ->
  exists message w' evs,
    apply_payment host account_id code amount w = (Return message, w')
    /\ trace w' = (trace w ++ evs)%list
    /\ database_calls evs <> []
    /\ database_calls evs = firstn (List.length (database_calls evs)) posting_calls
    /\ forall step, In step (removelast (database_calls evs)) ->
         database_fault host step = None.
Proof.
  intros real. apply String.eqb_neq in real.
  rewrite apply_payment_unfold. unfold apply_payment_try, apply_payment_except, DEBUG.
  destruct w as [led seq jr fp fl tr].
  run_ledger. rewrite real.
  repeat (branch; run_ledger).
  all: rewrite <- ?app_assoc; cbn [app].
  all: eexists; eexists; eexists.
  all: split; [reflexivity |]; split; [reflexivity |].
  all: cbn [database_calls flat_map app List.length firstn posting_calls removelast].
  all: split; [discriminate |]; split; [reflexivity |].
  all: intros step member;
    repeat (destruct member as [<- | member]; [assumption |]); contradiction.
Qed.

(** The balance update refused: six calls, the last one the update. *)
Lemma database_calls_in_order_witness :
  exists message w' evs,
    apply_payment (Scenario.shop (Scenario.approve "A1B2C3")
                     (Scenario.fault_at StepUpdateBalance))
      "12345" "A1B2C3" (nearest_dollars 1000) (Scenario.till "12345" "$10.00")
    = (Return message, w')
    /\ trace w' = (trace (Scenario.till "12345" "$10.00") ++ evs)%list
    /\ database_calls evs <> []
    /\ database_calls evs = firstn (List.length (database_calls evs)) posting_calls
    /\ forall step, In step (removelast (database_calls evs)) ->
         Scenario.fault_at StepUpdateBalance step = None.
Proof.
  apply (database_calls_in_order
           (Scenario.shop (Scenario.approve "A1B2C3")
              (Scenario.fault_at StepUpdateBalance))
           "12345" "A1B2C3" (nearest_dollars 1000) (Scenario.till "12345" "$10.00")).
  discriminate.
Defined.

(** ** The name on a receipt *)

Lemma remove_digits_all (s : string) :
  Text.all_digits s = true -> remove_digits s = "".
Proof.
  induction s as [| a s IH]; [reflexivity |]. cbn [Text.all_digits remove_digits].
  intros both. apply andb_true_iff in both as [-> others]. now apply IH.
Qed.

Lemma remove_digits_none (s : string) :
  every (fun c => negb (Text.is_digit c)) s = true -> remove_digits s = s.
Proof.
  induction s as [| a s IH]; [reflexivity |]. cbn [every remove_digits].
  intros both. apply andb_true_iff in both as [one others].
  apply negb_true_iff in one. now rewrite one, (IH others).
Qed.

Lemma remove_digits_append (s t : string) :
  remove_digits (s ++ t) = remove_digits s ++ remove_digits t.
Proof.
  induction s as [| a s IH]; [reflexivity |]. cbn [append remove_digits].
  destruct (Text.is_digit a); cbn [append]; now rewrite IH.
Qed.

Lemma length_reverse_onto (s acc : string) :
  String.length (Text.reverse_onto s acc) = (String.length s + String.length acc)%nat.
Proof.
  revert acc. induction s as [| a s IH]; intros acc; [reflexivity |].
  cbn [Text.reverse_onto String.length]. rewrite IH. cbn [String.length]. lia.
Qed.

Lemma length_reverse (s : string) : String.length (Text.reverse s) = String.length s.
Proof. unfold Text.reverse. rewrite length_reverse_onto. cbn [String.length]. lia. Qed.

(** Stripping on the left either changes nothing or shortens. *)
Lemma lstrip_set_shortens (set s : string) :
  lstrip_set set s = s \/ (String.length (lstrip_set set s) < String.length s)%nat.
Proof.
  induction s as [| a s IH]; [now left |]. cbn [lstrip_set].
  destruct (char_in a set); [| now left].
  right. cbn [String.length]. destruct IH as [-> | shorter]; lia.
Qed.

Lemma strip_set_fixed (set s : string) :
  strip_set set s = s ->
  lstrip_set set s = s /\ lstrip_set set (Text.reverse s) = Text.reverse s.
Proof.
  intros fixed. apply (f_equal String.length) in fixed as same.
  unfold strip_set in same. rewrite length_reverse in same.
  destruct (lstrip_set_shortens set s) as [left_fixed | shorter].
  - rewrite left_fixed in same |- *. split; [reflexivity |].
    destruct (lstrip_set_shortens set (Text.reverse s)) as [right_fixed | shorter];
      [exact right_fixed |].
    rewrite length_reverse in shorter. lia.
  - exfalso.
    destruct (lstrip_set_shortens set (Text.reverse (lstrip_set set s)))
      as [right_fixed | shorter'].
    + rewrite right_fixed, length_reverse in same. lia.
    + rewrite length_reverse in shorter'. lia.
Qed.

(** X24. The receipt greets the customer by name: for a customer cell of
    the form written by [check_account], an account number, " - " and a
    name, [email_receipt] puts the name alone in the receipt, provided the
    name is in ASCII, has no digit and neither starts nor ends with a
    blank or a hyphen; and for a cell that is a number only it puts
    nothing. *)
Theorem receipt_greets_by_name (account_id person : string) :
  Text.is_ascii person = true ->
  Text.all_digits account_id = true ->
  every (fun c => negb (Text.is_digit c)) person = true ->
  strip_set "- " person = person ->
  receipt_name (account_id ++ " - " ++ person) = person
  /\ (account_id <> "" -> receipt_name account_id = "").
Proof.
  intros _ digits letters trimmed. split.
  - unfold receipt_name. rewrite label_is_not_numeric.
    assert (cleaned : remove_digits (" " ++ account_id ++ " - " ++ person)
                      = "  - " ++ person).
    { change (" " ++ account_id ++ " - " ++ person)
        with (" " ++ (account_id ++ (" - " ++ person))).
      rewrite !remove_digits_append, (remove_digits_all _ digits),
        (remove_digits_none _ letters).
      reflexivity. }
    rewrite cleaned.
    destruct (strip_set_fixed "- " person trimmed) as [left_fixed right_fixed].
    unfold strip_set.
    change (lstrip_set "- " ("  - " ++ person)) with (lstrip_set "- " person).
    rewrite left_fixed, right_fixed. apply reverse_involutive.
  - intros some. unfold receipt_name.
    assert (numeric : Text.isnumeric account_id = true)
      by (destruct account_id; [contradiction | exact digits]).
    now rewrite numeric.
Qed.

(** The customer cell of the shop's account 12345. *)
Lemma receipt_greets_by_name_witness :
  receipt_name "12345 - Jo Bloggs" = "Jo Bloggs" /\ receipt_name "12345" = "".
Proof.
  destruct (receipt_greets_by_name "12345" "Jo Bloggs") as [named bare].
  - reflexivity.
  - reflexivity.
  - reflexivity.
  - reflexivity.
  - split; [exact named | apply bare; discriminate].
Defined.

(** ** A form that cannot be read *)

(** X25. A form that cannot be read is not charged: when the amount,
    typed in ASCII, is not a number [Decimal] and [int] accept, or the
    amount is within the ceiling and the expiry field has no slash,
    [process_payment] calls neither the gateway nor the database, writes no
    journal row and keeps the inputs; with the event log, the alert
    channel and the failure log accepting what they are handed, it reports
    the exception to the event log and the alert channel, adds one line to
    the failure log and shows the generic error with the exception as its
    detail. *)
Theorem unreadable_form_is_not_charged (host : env) (io_fault : io_call -> option exn)
    (w : world) (e : exn) :
  (forall c, io_fault c = None) ->
  Text.is_ascii (amountInput (fields w)) = true /\ amount_cents (fields w) = inl e
  \/ (exists cents,
        amount_cents (fields w) = inr cents /\ cents <= 300000
        /\ Text.second_field "/" (cardExpiryInput (fields w)) = None
        /\ e = IndexError) ->
  IO.process_payment host io_fault w
  = (Return tt,
     {| ledger := ledger w; sequence := sequence w; journal := journal w;
        failed_payments :=
          failed_payments w
            ++ [{| fl_time := now host; fl_user := get_display_name host 3;
                   fl_error := e |}];
        fields := fields w;
        trace := trace w ++ [ReportEvent Error (PaymentFailed e);
                             Pushover (PaymentFailed e);
                             MessageBox generic_error_text (Some e)] |}).
Proof.
  intros accepts. rewrite (process_payment_agrees host io_fault w accepts).
  intros [(_ & unreadable) | (cents & amount & ceiling & no_slash & ->)].
  - destruct w as [led seq jr fp fl tr]. cbn [fields] in unreadable.
    run_outer. rewrite unreadable.
    destruct (amount_cents_errors _ _ unreadable) as [-> | [-> | [-> | ->]]]; run_outer.
    all: now rewrite <- !app_assoc.
  - destruct w as [led seq jr fp fl tr]. cbn [fields] in amount, no_slash.
    run_outer. rewrite amount. run_outer.
    apply Z.ltb_ge in ceiling. rewrite ceiling.
    unfold payment_request_of. rewrite no_slash. run_outer.
    now rewrite <- !app_assoc.
Qed.

(** An amount of letters, and an expiry typed without its slash. *)
Lemma unreadable_form_is_not_charged_witness :
  gateway_calls
    (trace (run (IO.process_payment (Scenario.shop (Scenario.approve "A1B2C3")
                                       Scenario.no_fault) IO.no_fault)
              (Scenario.till "12345" "$ten")))
  = []
  /\ message_boxes
       (trace (run (IO.process_payment (Scenario.shop (Scenario.approve "A1B2C3")
                                          Scenario.no_fault) IO.no_fault)
                 {| ledger := Scenario.shop_ledger; sequence := 7001; journal := [];
                    failed_payments := [];
                    fields :=
                      {| customerInput := "12345"; amountInput := "$10.00";
                         cardNumberInput := "4532 0151 1283 0366";
                         cardExpiryInput := "1227"; cardCVCInput := "123";
                         cardNumberStyle := ""; cardNumberToolTip := "";
                         customerStyle := ""; processButton := true |};
                    trace := [] |}))
     = [(generic_error_text, Some IndexError)].
Proof.
  split.
  - unfold run.
    rewrite (unreadable_form_is_not_charged
               (Scenario.shop (Scenario.approve "A1B2C3") Scenario.no_fault) IO.no_fault
               (Scenario.till "12345" "$ten") InvalidOperation).
    + reflexivity.
    + reflexivity.
    + left. split; reflexivity.
  - unfold run.
    rewrite (unreadable_form_is_not_charged
               (Scenario.shop (Scenario.approve "A1B2C3") Scenario.no_fault) IO.no_fault
               _ IndexError).
    + reflexivity.
    + reflexivity.
    + right. exists 1000. repeat split. vm_compute. discriminate.
Defined.

(** ** The sentinel, from the customer field to the posting *)

(** X26. Typing 00000 leads to the exempt path: [check_account] on
    "00000", with no account 0 on file, leaves "00000 - " in the customer
    field after one query; the first word of that field is the sentinel, so
    the posting of a payment made from this form returns the exempt message
    and leaves the world as it is. *)
Theorem sentinel_field_is_exempt
    (host : env) (last_name first_name : account_row -> option string)
    (inactive : account_row -> bool) (str_balance : Float.t -> string)
    (answer : nat -> button) (toolTip code : string) (amount : Float.t) (w : world) :
  database_fault host StepConnect = None ->
  database_fault host StepSelectAccount = None ->
  find (fun r => acct r =? 0) (account (ledger w)) = None ->
  let w' := run (check_account host last_name first_name inactive str_balance answer
                   "00000" toolTip) w in
  customerInput (fields w') = "00000 - "
  /\ database_calls (trace w')
     = (database_calls (trace w) ++ [StepConnect; StepSelectAccount])%list
  /\ apply_payment host (Text.first_field " " (customerInput (fields w'))) code amount w'
     = (Return (exempt_message code), w').
Proof.
  intros connected selected absent. cbv zeta.
  destruct w as [led seq jr fp [customer typed number expiry cvc style tip border button] tr].
  cbn [ledger] in absent.
  assert (plain : String.prefix "00000 - " "00000" = false) by reflexivity.
  unfold run, check_account. rewrite plain.
  change (String.eqb "00000" "00000") with true.
  change (Text.isnumeric "00000") with true.
  change (Nat.eqb (String.length "00000") 5) with true.
  run_account. rewrite connected; run_account; rewrite selected; run_account.
  change (Text.digits_value "00000") with 0. rewrite absent. run_account.
  cbn [snd fields customerInput trace].
  split; [reflexivity |]. split.
  - now rewrite <- app_assoc, calls_app.
  - apply sentinel_is_exempt.
Qed.

(** The shop has no account 0. *)
Lemma sentinel_field_is_exempt_witness :
  customerInput
    (fields (run (check_account (Scenario.shop Scenario.unreachable Scenario.no_fault)
                    sample_last_name sample_first_name sample_inactive
                    sample_str_balance sample_answer "00000" "")
               (Scenario.till "" "$")))
  = "00000 - ".
Proof.
  destruct (sentinel_field_is_exempt
              (Scenario.shop Scenario.unreachable Scenario.no_fault)
              sample_last_name sample_first_name sample_inactive
              sample_str_balance sample_answer "" "A1B2C3" (nearest_dollars 1000)
              (Scenario.till "" "$"))
    as (shown & _).
  - reflexivity.
  - reflexivity.
  - reflexivity.
  - exact shown.
Defined.

(** ** From the payment to the recent list *)




